(** * Watch_Dogs: the sampling/rate engine of [Core/corelib.py] and
      [Core/process_monitor.py], embedded in Rocq.

    The Python functions are embedded shallowly:
    - Python [int]/[long] values are [Z]; Python [float] values are the
      binary64 numbers of [PrimFloat], with the conversions and the
      division-by-zero check written out;
    - byte strings are [string]; the string methods the sources call
      ([count], [replace], [strip], [split], [int]) are written out;
    - module globals are records, threaded through a state-and-exception
      monad in which a raised exception keeps the state reached so far;
    - the machine outside the program (the /proc files, the wall clock, the
      presence of libnethogs, the thread a call is made on and what
      libnethogs captures) is a [host]: what every observation returns,
      indexed by the number of I/O steps performed so far. *)

From Stdlib Require Import ZArith List String Ascii Bool Lia.
From Stdlib Require Import PrimFloat SpecFloat FloatOps.
From stdpp Require Import base option gmap.

Import ListNotations.

(** ** Python values and built-ins *)

Module Py.

Inductive errno := ENOENT | EACCES | EINVAL.

(** The exceptions that the modelled code can raise.  [ThreadError] is
    [thread.error]; [ProcessNotFound] and [PermissionDenied] are the typed
    errors of the process-exception layer. *)
Inductive exn :=
| ZeroDivisionError
| OverflowError
| ValueError
| IndexError
| KeyError
| TypeError
| UnicodeDecodeError
| IOError (e : errno)
| OSError
| ThreadError
| SystemExit (code : Z)
| ProcessNotFound (pid : Z)
| PermissionDenied (pid : Z).

Inductive res (A : Type) :=
| Ret (a : A)
| Raise (e : exn).
Arguments Ret {A} a.
Arguments Raise {A} e.

Definition rbind {A B} (r : res A) (k : A -> res B) : res B :=
  match r with
  | Ret a => k a
  | Raise e => Raise e
  end.

(** Both of two results, the first one evaluated first. *)
Definition both {A B} (a : res A) (b : res B) : res (A * B) :=
  rbind a (fun x => rbind b (fun y => Ret (x, y))).

Definition is_raise {A} (r : res A) : bool :=
  match r with Ret _ => false | Raise _ => true end.

Fixpoint map_res {A B} (f : A -> res B) (l : list A) : res (list B) :=
  match l with
  | [] => Ret []
  | a :: l' => rbind (f a) (fun b => rbind (map_res f l') (fun bs => Ret (b :: bs)))
  end.

(** *** Strings *)

Local Open Scope string_scope.

Definition nl : string := String "010"%char EmptyString.

(** Whitespace of [str.strip()]: space, \t, \n, \v, \f, \r. *)
Definition is_space (c : ascii) : bool :=
  let n := nat_of_ascii c in
  Nat.eqb n 32 || (Nat.leb 9 n && Nat.leb n 13).

Fixpoint mem_char (c : ascii) (chars : string) : bool :=
  match chars with
  | EmptyString => false
  | String d r => Ascii.eqb c d || mem_char c r
  end.

Fixpoint lstrip_by (p : ascii -> bool) (s : string) : string :=
  match s with
  | EmptyString => EmptyString
  | String c r => if p c then lstrip_by p r else s
  end.

Fixpoint rstrip_by (p : ascii -> bool) (s : string) : string :=
  match s with
  | EmptyString => EmptyString
  | String c r =>
      match rstrip_by p r with
      | EmptyString => if p c then EmptyString else String c EmptyString
      | r' => String c r'
      end
  end.

(** [s.strip()] *)
Definition strip (s : string) : string :=
  rstrip_by is_space (lstrip_by is_space s).

(** [s.strip(chars)] *)
Definition strip_chars (chars s : string) : string :=
  rstrip_by (fun c => mem_char c chars) (lstrip_by (fun c => mem_char c chars) s).

(** [s.count(sub)] for a non-empty [sub]: occurrences that do not overlap,
    scanning from the left; [skip] characters of a match just counted are
    passed over. *)
Fixpoint count_from (sub : string) (skip : nat) (s : string) : nat :=
  match s with
  | EmptyString => 0
  | String _ r =>
      match skip with
      | S k => count_from sub k r
      | O =>
          if String.prefix sub s
          then S (count_from sub (String.length sub - 1) r)
          else count_from sub 0 r
      end
  end.

Definition count (sub s : string) : nat := count_from sub 0 s.

(** [s.replace(old, new)] for a non-empty [old]. *)
Fixpoint replace_from (old new : string) (skip : nat) (s : string) : string :=
  match s with
  | EmptyString => EmptyString
  | String c r =>
      match skip with
      | S k => replace_from old new k r
      | O =>
          if String.prefix old s
          then String.append new (replace_from old new (String.length old - 1) r)
          else String c (replace_from old new 0 r)
      end
  end.

Definition replace (old new s : string) : string := replace_from old new 0 s.

(** [s.split(sep)] and [s.split(sep, maxsplit)] for a one-character [sep];
    [maxsplit = None] is the call without the second argument. *)
Fixpoint split (sep : ascii) (maxsplit : option nat) (s : string) : list string :=
  match s with
  | EmptyString => [EmptyString]
  | String c r =>
      match Ascii.eqb c sep, maxsplit with
      | true, None => EmptyString :: split sep None r
      | true, Some (S n) => EmptyString :: split sep (Some n) r
      | _, _ =>
          match split sep maxsplit r with
          | hd :: tl => String c hd :: tl
          | [] => [String c EmptyString]
          end
      end
  end.

(** [l[i]] on a list: [IndexError] out of range (non-negative [i]). *)
Definition index {A} (l : list A) (i : nat) : res A :=
  match nth_error l i with
  | Some a => Ret a
  | None => Raise IndexError
  end.

(** [l[i:j]]: slicing never raises. *)
Definition slice {A} (l : list A) (i j : nat) : list A :=
  firstn (j - i) (skipn i l).

Definition digit_of (c : ascii) : option Z :=
  let n := nat_of_ascii c in
  if Nat.leb 48 n && Nat.leb n 57 then Some (Z.of_nat (n - 48)) else None.

Fixpoint digits_value (acc : Z) (s : string) : option Z :=
  match s with
  | EmptyString => Some acc
  | String c r =>
      match digit_of c with
      | Some d => digits_value (10 * acc + d)%Z r
      | None => None
      end
  end.

Definition digits (s : string) : res Z :=
  match s with
  | EmptyString => Raise ValueError
  | _ => match digits_value 0%Z s with
         | Some z => Ret z
         | None => Raise ValueError
         end
  end.

(** [int(s)] on a string, base 10: surrounding whitespace is ignored, one
    optional sign, then at least one decimal digit; anything else is a
    [ValueError]. *)
Definition int (s : string) : res Z :=
  match strip s with
  | String "-" r => rbind (digits r) (fun z => Ret (- z)%Z)
  | String "+" r => digits r
  | t => digits t
  end.

(** [f.readline()]: a file is the list of its lines, each with its line
    terminator; at the end of the file [readline] returns the empty string. *)
Definition readline (f : list string) : string * list string :=
  match f with
  | [] => (EmptyString, [])
  | l :: f' => (l, f')
  end.

(** *** Floats *)

(** Conversion of an integer operand in mixed arithmetic ([int * float],
    [float / int]): the nearest binary64, ties to even; an integer beyond the
    binary64 range raises [OverflowError]. *)
Definition float_of_int (z : Z) : res float :=
  let f := SF2Prim (binary_normalize prec emax z 0 false) in
  if is_infinity f then Raise OverflowError else Ret f.

(** [a / b] on floats: a zero divisor raises. *)
Definition float_div (a b : float) : res float :=
  if is_zero b then Raise ZeroDivisionError else Ret (a / b)%float.

(** [round(x, ndigits)] of Python 2 for [ndigits >= 0]: NaNs, infinities and
    zeros round to themselves; otherwise the exact value of [x] is rounded to
    a multiple of [10 ** -ndigits], halfway cases away from zero, and that
    decimal is converted back to the nearest binary64. *)
Definition round (x : float) (ndigits : nat) : float :=
  match Prim2SF x with
  | S754_finite s m e =>
      let scale := (10 ^ Z.of_nat ndigits)%Z in
      let num := (Zpos m * scale)%Z in
      let k :=
        match e with
        | Zneg p => ((2 * num + 2 ^ Zpos p) / (2 * 2 ^ Zpos p))%Z
        | _ => (num * 2 ^ e)%Z
        end in
      match k with
      | Z0 => if s then neg_zero else zero
      | _ =>
          let '(q, e', l) := SFdiv_core_binary prec emax k 0 scale 0 in
          SF2Prim (binary_round_aux prec emax s q e' l)
      end
  | _ => x
  end.

(** [sub in s] on strings: whether [sub] occurs in [s]; the empty string
    occurs in every string. *)
Fixpoint contains (sub s : string) : bool :=
  match s with
  | EmptyString => String.prefix sub EmptyString
  | String _ r => String.prefix sub s || contains sub r
  end.

End Py.

Import Py.

(** ** libnethogs, as ctypes shows it *)

Module Libnethogs.

(** The C structure a traffic event carries. *)
Record NethogsMonitorRecord := {
  record_id : Z;
  name : string;
  pid : Z;
  uid : Z;
  device_name : string;
  sent_bytes : Z;
  recv_bytes : Z;
  sent_kbs : float;
  recv_kbs : float
}.

(** What the monitor loop of libnethogs does, one step at a time: it calls
    the callback it was given with an action and a record, or it returns
    with a status. *)
Inductive loop_step :=
| Activity (action : Z) (data : NethogsMonitorRecord)
| Returned (rc : Z).

End Libnethogs.

(** ** The host and the state-and-exception monad *)

(** Outcome of [open(path, "r")]. *)
Inductive opened (A : Type) :=
| Opened (a : A)
| OpenFails (e : errno).
Arguments Opened {A} a.
Arguments OpenFails {A} e.

(** What the machine answers at each I/O step: the pseudo-files as lists of
    lines, the wall clock of [time()], the formatted local time, whether the
    libnethogs shared object is a file on disk and can be loaded, the
    default network device, whether the call is made on the interpreter's
    main thread, whether a new thread can be started, and the steps the
    monitor loop of libnethogs takes while the caller waits for it. *)
Record host := {
  proc_stat : nat -> opened (list string);
  proc_meminfo : nat -> opened (list string);
  proc_net_dev : nat -> opened (list string);
  proc_pid_stat : nat -> Z -> opened (list string);
  proc_pid_io : nat -> Z -> opened (list string);
  wall_clock : nat -> float;
  local_hms : nat -> string;
  libnethogs_is_file : nat -> bool;
  libnethogs_loads : nat -> bool;
  default_net_device : nat -> string;
  main_thread : nat -> bool;
  thread_starts : nat -> bool;
  nethogs_loop : nat -> list Libnethogs.loop_step
}.

(** The program's side of the I/O: the number of I/O steps performed, the
    intervals slept (latest first) and the lines printed (latest first). *)
Record io := {
  now : nat;
  naps : list Z;
  stdout : list string
}.

Record world (G : Type) := World {
  globals : G;
  sys : io
}.
Arguments World {G} _ _.
Arguments globals {G} _.
Arguments sys {G} _.

Definition tick (s : io) : io :=
  {| now := S (now s); naps := naps s; stdout := stdout s |}.

Definition io0 : io := {| now := 0; naps := []; stdout := [] |}.

Section Monad.
Context {G : Type}.

Definition M (A : Type) : Type := host -> world G -> res A * world G.

Definition ret {A} (a : A) : M A := fun _ w => (Ret a, w).

Definition raise {A} (e : exn) : M A := fun _ w => (Raise e, w).

Definition bind {A B} (m : M A) (k : A -> M B) : M B :=
  fun h w =>
    match m h w with
    | (Ret a, w') => k a h w'
    | (Raise e, w') => (Raise e, w')
    end.

Definition lift {A} (r : res A) : M A := fun _ w => (r, w).

Definition get : M G := fun _ w => (Ret (globals w), w).

(** An assignment to the globals, as the update [f] of their record. *)
Definition modify (f : G -> G) : M unit :=
  fun _ w => (Ret tt, World (f (globals w)) (sys w)).

(** One observation of the host; it takes one I/O step. *)
Definition observe {A} (f : host -> nat -> A) : M A :=
  fun h w => (Ret (f h (now (sys w))), World (globals w) (tick (sys w))).

(** [with open(path, "r") as f]: the lines of the file, or [IOError]. *)
Definition open_file (f : host -> nat -> opened (list string)) : M (list string) :=
  bind (observe f) (fun o =>
    match o with
    | Opened ls => ret ls
    | OpenFails e => raise (IOError e)
    end).

(** [time()] *)
Definition time : M float := observe wall_clock.

(** [sleep(interval)]: a negative interval is refused by the system call. *)
Definition sleep (interval : Z) : M unit :=
  fun _ w =>
    if (interval <? 0)%Z then (Raise (IOError EINVAL), w)
    else (Ret tt,
          World (globals w)
                {| now := S (now (sys w));
                   naps := interval :: naps (sys w);
                   stdout := stdout (sys w) |}).

(** [print s] *)
Definition print (s : string) : M unit :=
  fun _ w =>
    (Ret tt,
     World (globals w)
           {| now := now (sys w); naps := naps (sys w);
              stdout := s :: stdout (sys w) |}).

(** Modelled from the spec: the decorator [wrap_process_exceptions] of
    [prcess_exception] is not among the sources.  Following the spec's
    error taxonomy, a failed lookup of a process's counter file surfaces
    as [ProcessNotFound] when the file is gone and as [PermissionDenied]
    when reading it is not permitted; every other exception passes through
    unchanged. *)
Definition wrap_process_exceptions {A} (pid : Z) (m : M A) : M A :=
  fun h w =>
    match m h w with
    | (Raise (IOError ENOENT), w') => (Raise (ProcessNotFound pid), w')
    | (Raise (IOError EACCES), w') => (Raise (PermissionDenied pid), w')
    | r => r
    end.
End Monad.
Arguments M : clear implicits.

Notation "'do' x <- m ;; k" := (bind m (fun x => k))
  (at level 10, x name, m at level 99, k at level 200).
Notation "'do' ' p <- m ;; k" := (bind m (fun x => match x with p => k end))
  (at level 10, p pattern, m at level 99, k at level 200).
Notation "'exec' m ;; k" := (bind m (fun _ => k))
  (at level 10, m at level 99, k at level 200).

(** ** corelib.py: system-wide CPU, memory and network rates *)

Module Corelib.

Local Open Scope string_scope.

Definition calc_func_interval : Z := 2.

(** The module globals [prev_cpu_work_time], [prev_cpu_total_time],
    [prev_net_receive_byte], [prev_net_send_byte] and [prev_net_time].
    [prev_net_time] starts as the integer 0 and holds a [time()] float from
    the first assignment on; in [current_net_time - prev_net_time] the
    integer 0 would be converted to the float 0.0, which is what the record
    stores. *)
Record corelib_globals := Globals {
  prev_cpu_work_time : Z;
  prev_cpu_total_time : Z;
  prev_net_receive_byte : Z;
  prev_net_send_byte : Z;
  prev_net_time : float
}.

Definition initial : corelib_globals := Globals 0 0 0 0 0%float.

Definition set_prev_cpu (total work : Z) (g : corelib_globals) : corelib_globals :=
  Globals work total (prev_net_receive_byte g) (prev_net_send_byte g)
          (prev_net_time g).

Definition set_prev_net_bytes (receive send : Z) (g : corelib_globals) : corelib_globals :=
  Globals (prev_cpu_work_time g) (prev_cpu_total_time g) receive send
          (prev_net_time g).

Definition set_prev_net_time (t : float) (g : corelib_globals) : corelib_globals :=
  Globals (prev_cpu_work_time g) (prev_cpu_total_time g)
          (prev_net_receive_byte g) (prev_net_send_byte g) t.

(** The first line of /proc/stat: the text after removing "cpu" is split on
    single spaces into exactly ten integers. *)
Definition total_cpu_time_of_line (line : string) : res (Z * Z) :=
  let total_cpu_time := strip (replace "cpu" "" line) in
  rbind (map_res int (split " " None total_cpu_time)) (fun fields =>
  match fields with
  | [user; nice; system; idle; iowait; irq; softirq; steal; guest; guestnice] =>
      Ret (user + nice + system + idle + iowait + irq + softirq + steal,
           user + nice + system)%Z
  | _ => Raise ValueError
  end).

(** [get_total_cpu_time()]: (total time, work time). *)
Definition get_total_cpu_time {G} : M G (Z * Z) :=
  do cpu_stat <- open_file proc_stat ;;
  lift (total_cpu_time_of_line (fst (readline cpu_stat))).

(** [calc_cpu_percent(interval)] *)
Definition calc_cpu_percent (interval : Z) : M corelib_globals float :=
  do g0 <- get ;;
  exec (if (prev_cpu_work_time g0 =? 0)%Z
        then
          do '(total, work) <- get_total_cpu_time ;;
          exec modify (set_prev_cpu total work) ;;
          sleep interval
        else ret tt) ;;
  do '(current_total_time, current_work_time) <- get_total_cpu_time ;;
  do g <- get ;;
  do work <- lift (float_of_int (current_work_time - prev_cpu_work_time g)) ;;
  do total <- lift (float_of_int (current_total_time - prev_cpu_total_time g)) ;;
  do cpu_percent <- lift (float_div (work * 100) total) ;;
  exec modify (set_prev_cpu current_total_time current_work_time) ;;
  ret cpu_percent.

(** One "name: value kB" line of /proc/meminfo, as [get_mem_info] reads it:
    [line.split(":")[1].strip().strip("kB")]. *)
Definition meminfo_value (line : string) : res string :=
  rbind (index (split ":" None line) 1) (fun v =>
  Ret (strip_chars "kB" (strip v))).

(** [get_mem_info()]: the first three lines of /proc/meminfo, taken in this
    order as MemTotal, MemFree and MemAvailable. *)
Definition get_mem_info {G} : M G (list Z) :=
  do mem_info <- open_file proc_meminfo ;;
  let '(l1, f1) := readline mem_info in
  do MemTotal <- lift (meminfo_value l1) ;;
  let '(l2, f2) := readline f1 in
  do MemFree <- lift (meminfo_value l2) ;;
  let '(l3, f3) := readline f2 in
  do MemAvailable <- lift (meminfo_value l3) ;;
  exec print MemTotal ;;
  lift (map_res int [MemTotal; MemFree; MemAvailable]).

(** [calc_mem_percent()] *)
Definition calc_mem_percent {G} : M G float :=
  do info <- get_mem_info ;;
  match info with
  | [MemTotal; MemFree; MemAvailable] =>
      do used <- lift (float_of_int (MemTotal - MemAvailable)) ;;
      do total <- lift (float_of_int MemTotal) ;;
      lift (float_div (used * 100) total)
  | _ => raise ValueError
  end.

(** The body of the loop of [get_net_dev_data] on one line of /proc/net/dev:
    a line is counted when it contains ":" and does not contain "lo". *)
Definition net_dev_line (acc : Z * Z) (line : string) : res (Z * Z) :=
  if negb (Nat.eqb (count ":" line) 0) && Nat.eqb (count "lo" line) 0
  then
    rbind (index (split ":" (Some 2) line) 1) (fun counters =>
    rbind (map_res int
             (List.filter (fun x => negb (String.eqb x ""))
                          (split " " None (strip counters)))) (fun dev_data =>
    rbind (index dev_data 0) (fun receive =>
    rbind (index dev_data 8) (fun send =>
    Ret (fst acc + receive, snd acc + send)%Z))))
  else Ret acc.

Fixpoint net_dev_lines (acc : Z * Z) (lines : list string) : res (Z * Z) :=
  match lines with
  | [] => Ret acc
  | line :: rest => rbind (net_dev_line acc line) (fun acc' => net_dev_lines acc' rest)
  end.

(** [get_net_dev_data()]: (receive_bytes, send_bytes). *)
Definition get_net_dev_data {G} : M G (Z * Z) :=
  do net_dev <- open_file proc_net_dev ;;
  lift (net_dev_lines (0, 0)%Z net_dev).

(** [calc_net_speed(interval)]: (download_speed, upload_speed). *)
Definition calc_net_speed (interval : Z) : M corelib_globals (float * float) :=
  do g0 <- get ;;
  exec (if (prev_net_receive_byte g0 =? 0)%Z
        then
          do '(receive, send) <- get_net_dev_data ;;
          exec modify (set_prev_net_bytes receive send) ;;
          do t <- time ;;
          exec modify (set_prev_net_time t) ;;
          sleep interval
        else ret tt) ;;
  do '(current_net_receive_byte, current_net_send_byte) <- get_net_dev_data ;;
  do current_net_time <- time ;;
  do g <- get ;;
  do received <- lift (float_of_int (current_net_receive_byte - prev_net_receive_byte g)) ;;
  do received_kb <- lift (float_div received 1024) ;;
  do download_speed <- lift (float_div received_kb (current_net_time - prev_net_time g)) ;;
  do sent <- lift (float_of_int (current_net_send_byte - prev_net_send_byte g)) ;;
  do sent_kb <- lift (float_div sent 1024) ;;
  do upload_speed <- lift (float_div sent_kb (current_net_time - prev_net_time g)) ;;
  exec modify (set_prev_net_bytes current_net_receive_byte current_net_send_byte) ;;
  exec modify (set_prev_net_time current_net_time) ;;
  ret (download_speed, upload_speed).

End Corelib.

(** ** process_monitor.py: per-process rates and the nethogs traffic feed *)

Module ProcessMonitor.

Local Open Scope string_scope.

Definition calc_func_interval : Z := 2.

(** The per-process dictionary with keys "pre_time", "prev_cpu_time" and
    "prev_io"; [None] is Python's [None].  "pre_time" starts as the integer
    0 and holds a [time()] float from its first assignment on. *)
Record process_info_t := ProcessInfo {
  pre_time : float;
  prev_cpu_time : option Z;
  prev_io : option (Z * Z)
}.

(** The template [process_info_dict]; [deepcopy] of it is this value. *)
Definition process_info_dict : process_info_t := ProcessInfo 0%float None None.

(** The thread object built by [init_nethogs_thread], with the device names
    handed to the monitor loop. *)
Record thread := Thread { devnames : list string }.

(** The dictionary that [network_activity_callback] stores per pid. *)
Record process_net_data := ProcessNetData {
  nd_pid : Z;
  nd_uid : Z;
  nd_action : string;
  nd_pid_name : string;
  nd_record_id : Z;
  nd_time : string;
  nd_device : string;
  nd_sent_bytes : Z;
  nd_recv_bytes : Z;
  nd_sent_kbs : float;
  nd_recv_kbs : float
}.

(** [all_process_info_dict].  A pid is an integer; the keys [str(pid)] of
    "process_info" and "libnethogs_data" are in one-to-one correspondence
    with the integers [int(pid)] of "watch_pid", so both maps are keyed by
    the integer. *)
Record all_process_info_t := AllProcessInfo {
  watch_pid : gset Z;
  process_info : gmap Z process_info_t;
  prev_cpu_total_time : Z;
  libnethogs_thread : option thread;
  libnethogs_thread_install : bool;
  libnethogs : option string;
  libnethogs_data : gmap Z process_net_data
}.

Definition all_process_info_dict : all_process_info_t :=
  AllProcessInfo ∅ ∅ 0 None false None ∅.

Definition LIBRARY_NAME : string := "libnethogs.so".

Definition set_watch_pid (s : gset Z) (d : all_process_info_t) :=
  AllProcessInfo s (process_info d) (prev_cpu_total_time d) (libnethogs_thread d)
    (libnethogs_thread_install d) (libnethogs d) (libnethogs_data d).

Definition set_process_info (m : gmap Z process_info_t) (d : all_process_info_t) :=
  AllProcessInfo (watch_pid d) m (prev_cpu_total_time d) (libnethogs_thread d)
    (libnethogs_thread_install d) (libnethogs d) (libnethogs_data d).

Definition set_prev_cpu_total_time (t : Z) (d : all_process_info_t) :=
  AllProcessInfo (watch_pid d) (process_info d) t (libnethogs_thread d)
    (libnethogs_thread_install d) (libnethogs d) (libnethogs_data d).

Definition set_libnethogs_thread (t : option thread) (d : all_process_info_t) :=
  AllProcessInfo (watch_pid d) (process_info d) (prev_cpu_total_time d) t
    (libnethogs_thread_install d) (libnethogs d) (libnethogs_data d).

Definition set_libnethogs_thread_install (b : bool) (d : all_process_info_t) :=
  AllProcessInfo (watch_pid d) (process_info d) (prev_cpu_total_time d)
    (libnethogs_thread d) b (libnethogs d) (libnethogs_data d).

Definition set_libnethogs (l : option string) (d : all_process_info_t) :=
  AllProcessInfo (watch_pid d) (process_info d) (prev_cpu_total_time d)
    (libnethogs_thread d) (libnethogs_thread_install d) l (libnethogs_data d).

Definition set_libnethogs_data (m : gmap Z process_net_data) (d : all_process_info_t) :=
  AllProcessInfo (watch_pid d) (process_info d) (prev_cpu_total_time d)
    (libnethogs_thread d) (libnethogs_thread_install d) (libnethogs d) m.

Abbreviation Mp := (M all_process_info_t).

(** [all_process_info_dict["process_info"][str(pid)]]: [KeyError] when the
    pid has no entry. *)
Definition the_process_info (pid : Z) : Mp process_info_t :=
  do d <- get ;;
  match process_info d !! pid with
  | Some info => ret info
  | None => raise KeyError
  end.

(** [all_process_info_dict["process_info"][str(pid)][key] = value], as an
    update [f] of the entry. *)
Definition update_process_info (pid : Z) (f : process_info_t -> process_info_t) : Mp unit :=
  do info <- the_process_info pid ;;
  modify (fun d => set_process_info (<[pid := f info]> (process_info d)) d).

(** The common first lines of the calc functions: a pid not yet in
    "watch_pid" is added with a fresh copy of [process_info_dict]. *)
Definition watch (pid : Z) : Mp unit :=
  do d <- get ;;
  if bool_decide (pid ∈ watch_pid d) then ret tt
  else
    exec modify (fun d => set_watch_pid ({[pid]} ∪ watch_pid d) d) ;;
    modify (fun d => set_process_info (<[pid := process_info_dict]> (process_info d)) d).

(** Modelled from the spec: [sys_monitor], from which process_monitor.py
    imports [get_total_cpu_time], is not among the sources.  The spec's
    [systemCpuCounters() -> (totalTicks, workTicks)] is what the function of
    that name in corelib.py returns, so that one is used. *)
Definition get_total_cpu_time : Mp (Z * Z) := Corelib.get_total_cpu_time.

(** [sum(map(int, p_data.split(" ")[13:17]))] *)
Definition process_cpu_time_of_line (p_data : string) : res Z :=
  rbind (map_res int (slice (split " " None p_data) 13 17)) (fun ts =>
  Ret (fold_right Z.add 0%Z ts)).

(** [get_process_cpu_time(pid)]: utime + stime + cutime + cstime. *)
Definition get_process_cpu_time (pid : Z) : Mp Z :=
  wrap_process_exceptions pid
    (do p_stat <- open_file (fun h t => proc_pid_stat h t pid) ;;
     lift (process_cpu_time_of_line (fst (readline p_stat)))).

(** [calc_process_cpu_percent(pid, interval)] *)
Definition calc_process_cpu_percent (pid interval : Z) : Mp float :=
  exec watch pid ;;
  do info0 <- the_process_info pid ;;
  exec (match prev_cpu_time info0 with
        | None =>
            do '(total, _) <- get_total_cpu_time ;;
            exec modify (set_prev_cpu_total_time total) ;;
            do t <- get_process_cpu_time pid ;;
            exec update_process_info pid
                   (fun i => ProcessInfo (pre_time i) (Some t) (prev_io i)) ;;
            sleep interval
        | Some _ => ret tt
        end) ;;
  do '(current_cpu_total_time, _) <- get_total_cpu_time ;;
  do current_process_cpu_time <- get_process_cpu_time pid ;;
  do info <- the_process_info pid ;;
  do prev <- match prev_cpu_time info with
             | Some t => ret t
             | None => raise TypeError
             end ;;
  do used <- lift (float_of_int (current_process_cpu_time - prev)) ;;
  do d <- get ;;
  do total <- lift (float_of_int (current_cpu_total_time - prev_cpu_total_time d)) ;;
  do process_cpu_percent <- lift (float_div (used * 100) total) ;;
  exec update_process_info pid
         (fun i => ProcessInfo (pre_time i) (Some current_process_cpu_time) (prev_io i)) ;;
  exec modify (set_prev_cpu_total_time current_cpu_total_time) ;;
  ret process_cpu_percent.

(** One "name: value" line of /proc/[pid]/io: [line.split(":")[1].strip()]. *)
Definition io_value (line : string) : res string :=
  rbind (index (split ":" None line) 1) (fun v => Ret (strip v)).

(** [get_process_io(pid)]: [rchar, wchar]. *)
Definition get_process_io (pid : Z) : Mp (Z * Z) :=
  wrap_process_exceptions pid
    (do p_io <- open_file (fun h t => proc_pid_io h t pid) ;;
     let '(l1, f1) := readline p_io in
     do rchar <- lift (io_value l1) ;;
     let '(l2, f2) := readline f1 in
     do wchar <- lift (io_value l2) ;;
     do r <- lift (int rchar) ;;
     do w <- lift (int wchar) ;;
     ret (r, w)).

(** [1000. ** 2]: the square of 1000.0, which is exactly 1000000.0. *)
Definition mega : float := (1000 * 1000)%float.

(** [calc_process_cpu_io(pid, interval)]: [read_MBs, write_MBs], rounded to
    two decimals. *)
Definition calc_process_cpu_io (pid interval : Z) : Mp (float * float) :=
  exec watch pid ;;
  do info0 <- the_process_info pid ;;
  exec (match prev_io info0 with
        | None =>
            do rw <- get_process_io pid ;;
            exec update_process_info pid
                   (fun i => ProcessInfo (pre_time i) (prev_cpu_time i) (Some rw)) ;;
            do t <- time ;;
            exec update_process_info pid
                   (fun i => ProcessInfo t (prev_cpu_time i) (prev_io i)) ;;
            sleep interval
        | Some _ => ret tt
        end) ;;
  do current_time <- time ;;
  do '(current_rchar, current_wchar) <- get_process_io pid ;;
  do info <- the_process_info pid ;;
  do '(prev_rchar, prev_wchar) <- match prev_io info with
                                  | Some rw => ret rw
                                  | None => raise TypeError
                                  end ;;
  do read <- lift (float_of_int (current_rchar - prev_rchar)) ;;
  do read_mb <- lift (float_div read mega) ;;
  do read_MBs <- lift (float_div read_mb (current_time - pre_time info)) ;;
  do written <- lift (float_of_int (current_wchar - prev_wchar)) ;;
  do written_mb <- lift (float_div written mega) ;;
  do write_MBs <- lift (float_div written_mb (current_time - pre_time info)) ;;
  exec update_process_info pid
         (fun i => ProcessInfo (pre_time i) (prev_cpu_time i)
                     (Some (current_rchar, current_wchar))) ;;
  exec update_process_info pid
         (fun i => ProcessInfo current_time (prev_cpu_time i) (prev_io i)) ;;
  ret (round read_MBs 2, round write_MBs 2).

(** [is_libnethogs_install()]: whether /usr/local/lib/libnethogs.so exists
    and is a file. *)
Definition is_libnethogs_install : Mp bool := observe libnethogs_is_file.

(** [Action.MAP.get(action, "Unknown")] with [SET = 1] and [REMOVE = 2]. *)
Definition action_name (action : Z) : string :=
  match action with
  | 1%Z => "SET"
  | 2%Z => "REMOVE"
  | _ => "Unknown"
  end.

(** [LoopStatus.MAP[rc]] with [OK = 0], [FAILURE = 1] and [NO_DEVICE = 2]. *)
Definition loop_status_name (rc : Z) : res string :=
  match rc with
  | 0%Z => Ret "OK"
  | 1%Z => Ret "FAILURE"
  | 2%Z => Ret "NO_DEVICE"
  | _ => Raise KeyError
  end.

(** The class [NethogsMonitorRecord], the ctypes version of the structure
    of libnethogs. *)
Include Libnethogs.

Fixpoint is_ascii (s : string) : bool :=
  match s with
  | EmptyString => true
  | String c r => Nat.ltb (nat_of_ascii c) 128 && is_ascii r
  end.

(** [s.decode("ascii")] *)
Definition decode_ascii (s : string) : res string :=
  if is_ascii s then Ret s else Raise UnicodeDecodeError.

(** [network_activity_callback(action, data)], run by the capture thread for
    every traffic event: events of watched pids overwrite the pid's entry of
    "libnethogs_data", whatever the action. *)
Definition network_activity_callback (action : Z) (data : NethogsMonitorRecord) : Mp unit :=
  do d <- get ;;
  if bool_decide (pid data ∈ watch_pid d) then
    do hms <- observe local_hms ;;
    do device <- lift (decode_ascii (device_name data)) ;;
    let process_net_data :=
      ProcessNetData (pid data) (uid data) (action_name action) (name data)
        (record_id data) hms device (sent_bytes data) (recv_bytes data)
        (round (sent_kbs data) 2) (round (recv_kbs data) 2) in
    modify (fun d =>
      set_libnethogs_data (<[pid data := process_net_data]> (libnethogs_data d)) d)
  else ret tt.

(** [dev_args(devnames)]: the number of names and the names themselves,
    each with a NUL appended and encoded as ASCII. *)
Definition dev_args (devnames : list string) : res (nat * list string) :=
  let devc := length devnames in
  rbind (map_res (fun val =>
           decode_ascii (String.append val (String "000"%char EmptyString)))
           devnames) (fun devnames_arg =>
  Ret (devc, devnames_arg)).

(** [CALLBACK_FUNC_TYPE(f)], the C function that ctypes makes of the Python
    function [f]: an exception of [f] is reported on stderr and dropped, so
    the caller in libnethogs goes on. *)
Definition CALLBACK_FUNC_TYPE (f : Z -> NethogsMonitorRecord -> Mp unit)
    (action : Z) (data : NethogsMonitorRecord) : Mp unit :=
  fun h w => (Ret tt, snd (f action data h w)).

(** [lib.nethogsmonitor_loop(cb, filter)] and
    [lib.nethogsmonitor_loop_devices(cb, filter, devc, devicenames, False)]
    over the steps libnethogs takes: the status the loop returns with,
    [None] while it has not returned. *)
Fixpoint nethogsmonitor_loop (cb : Z -> NethogsMonitorRecord -> Mp unit)
    (steps : list loop_step) : Mp (option Z) :=
  match steps with
  | [] => ret None
  | Activity action data :: steps' =>
      exec cb action data ;;
      nethogsmonitor_loop cb steps'
  | Returned rc :: _ => ret (Some rc)
  end.

(** [run_monitor_loop(lib, devnames)], the target of the monitor thread, as
    far as libnethogs takes [steps]. *)
Definition run_monitor_loop (devnames : list string) (steps : list loop_step)
  : Mp unit :=
  do rc <- (if Nat.ltb (length devnames) 1 then
              nethogsmonitor_loop (CALLBACK_FUNC_TYPE network_activity_callback) steps
            else
              exec lift (dev_args devnames) ;;
              nethogsmonitor_loop (CALLBACK_FUNC_TYPE network_activity_callback) steps) ;;
  match rc with
  | None => ret tt
  | Some rc =>
      if negb (rc =? 0)%Z then
        do status <- lift (loop_status_name rc) ;;
        print (String.append "nethogsmonitor loop returned " status)
      else print "exiting nethogsmonitor loop"
  end.

(** [signal.signal(signalnum, signal_handler)]: Python lets only the main
    thread install a handler and raises [ValueError] on any other.  The
    table of handlers is not part of the state: a handler runs only when a
    signal is delivered. *)
Definition signal_signal : Mp unit :=
  do main <- observe main_thread ;;
  if main : bool then ret tt else raise ValueError.

(** [monitor_thread.start()] *)
Definition thread_start (monitor_thread : thread) : Mp unit :=
  do started <- observe thread_starts ;;
  if started : bool then ret tt else raise ThreadError.

(** [monitor_thread.join(0.5)]: the caller waits for half a second while the
    thread runs its target; an exception that ends the thread is reported
    on stderr and does not reach the caller. *)
Definition thread_join (monitor_thread : thread) : Mp unit :=
  do steps <- observe nethogs_loop ;;
  fun h w => (Ret tt, snd (run_monitor_loop (devnames monitor_thread) steps h w)).

(** [init_nethogs_thread()]: installs the handlers of SIGINT and SIGTERM,
    loads the shared library, builds the monitor thread for the default
    network device, starts it and waits half a second for it.  The events
    the thread delivers later on are steps of [network_activity_callback]. *)
Definition init_nethogs_thread : Mp unit :=
  exec signal_signal ;;
  exec signal_signal ;;
  do loaded <- observe libnethogs_loads ;;
  exec (if loaded : bool then ret tt else raise OSError) ;;
  exec modify (set_libnethogs (Some LIBRARY_NAME)) ;;
  do device <- observe default_net_device ;;
  let monitor_thread := Thread [device] in
  exec modify (set_libnethogs_thread (Some monitor_thread)) ;;
  exec thread_start monitor_thread ;;
  thread_join monitor_thread.

(** [get_process_net_info(pid)]: the pid's entry of "libnethogs_data";
    [None] is the empty dictionary returned for a pid without an entry. *)
Definition get_process_net_info (p : Z) : Mp (option process_net_data) :=
  do d0 <- get ;;
  exec (if libnethogs_thread_install d0 then ret tt
        else
          do installed <- is_libnethogs_install ;;
          exec modify (set_libnethogs_thread_install installed) ;;
          if installed : bool then ret tt
          else
            exec print "Error : libnethogs is not installed!" ;;
            raise (SystemExit (-1))) ;;
  exec modify (fun d => set_watch_pid ({[p]} ∪ watch_pid d) d) ;;
  do d <- get ;;
  exec (match libnethogs_thread d with
        | None => init_nethogs_thread
        | Some _ => ret tt
        end) ;;
  do d <- get ;;
  ret (libnethogs_data d !! p).

(** The dictionary [get_process_info] returns. *)
Record process_info_result := ProcessInfoResult {
  pi_pid : Z;
  pi_comm : string;
  pi_state : string;
  pi_ppid : Z;
  pi_pgrp : Z;
  pi_thread_num : nat;
  pi_cmdline : string
}.

(** The body of [get_process_info(pid)] on the opened files: the lines of
    /proc/[pid]/stat and /proc/[pid]/cmdline and the listing of
    /proc/[pid]/task.  The entries of the dictionary are evaluated in the
    order they are written. *)
Definition get_process_info (p_stat p_cmdline : list string) (task : list string)
  : res process_info_result :=
  let p_data := split " " None (fst (readline p_stat)) in
  let cmdline :=
    strip (replace (String "000"%char EmptyString) " " (fst (readline p_cmdline))) in
  rbind (index p_data 0) (fun f0 =>
  rbind (int f0) (fun pid =>
  rbind (index p_data 1) (fun f1 =>
  rbind (index p_data 2) (fun state =>
  rbind (index p_data 3) (fun f3 =>
  rbind (int f3) (fun ppid =>
  rbind (index p_data 4) (fun f4 =>
  rbind (int f4) (fun pgrp =>
  Ret (ProcessInfoResult pid (strip_chars "(" (strip_chars ")" f1)) state ppid pgrp
         (List.length task) cmdline))))))))).

(** The loop of [get_log_head]: [res] and [line_count] are the loop's
    variables, [log_f] the lines not read yet. *)
Fixpoint get_log_head_loop (n : Z) (log_f res : list string) (line_count : Z)
  : list string :=
  match log_f with
  | [] => res
  | line :: rest =>
      let res := List.app res [line] in
      let line_count := (line_count + 1)%Z in
      if (line_count >=? n)%Z then res
      else get_log_head_loop n rest res line_count
  end.

(** [get_log_head(path, n)] on the lines of the opened file. *)
Definition get_log_head (log_f : list string) (n : Z) : list string :=
  get_log_head_loop n log_f [] 0.

(** The loop of [get_log_keyword_lines]. *)
Fixpoint get_log_keyword_lines_loop (keyword : string) (log_f : list string)
    (result : list (Z * string)) (n : Z) : list (Z * string) :=
  match log_f with
  | [] => result
  | line :: rest =>
      let result :=
        if contains keyword line then List.app result [(n, strip line)] else result in
      get_log_keyword_lines_loop keyword rest result (n + 1)
  end.

(** [get_log_keyword_lines(path, keyword)] on the lines of the opened file. *)
Definition get_log_keyword_lines (log_f : list string) (keyword : string)
  : list (Z * string) :=
  get_log_keyword_lines_loop keyword log_f [] 1.

End ProcessMonitor.

(** ** The rate formulas, in the spec's words *)

Module RateCalculator.

(** CPU percent: [(currWork - prevWork) * 100 / (currTotal - prevTotal)]. *)
Definition percent (prevWork currWork prevTotal currTotal : Z) : res float :=
  rbind (float_of_int (currWork - prevWork)) (fun work =>
  rbind (float_of_int (currTotal - prevTotal)) (fun total =>
  float_div (work * 100) total)).

(** Memory percent: [(total - available) * 100 / total]. *)
Definition mem_percent (total available : Z) : res float :=
  rbind (float_of_int (total - available)) (fun used =>
  rbind (float_of_int total) (fun all =>
  float_div (used * 100) all)).

(** Throughput:
    [(currBytes - prevBytes) / unitDivisor / (currTime - prevTime)]. *)
Definition rate (prevBytes currBytes : Z) (unitDivisor prevTime currTime : float)
  : res float :=
  rbind (float_of_int (currBytes - prevBytes)) (fun bytes =>
  rbind (float_div bytes unitDivisor) (fun units =>
  float_div units (currTime - prevTime))).

(** System network counters in the spec's words: the sums over the devices
    of the table, the device named "lo" excluded.  A device line is
    "name: counters"; the other lines of the table have no colon. *)
Definition device_line (acc : Z * Z) (line : string) : res (Z * Z) :=
  match split ":" (Some 1) line with
  | [name; counters] =>
      if String.eqb (strip name) "lo" then Ret acc
      else
        rbind (map_res int
                 (List.filter (fun x => negb (String.eqb x ""))
                              (split " " None (strip counters)))) (fun dev_data =>
        rbind (index dev_data 0) (fun receive =>
        rbind (index dev_data 8) (fun send =>
        Ret (fst acc + receive, snd acc + send)%Z)))
  | _ => Ret acc
  end.

Fixpoint systemNetCounters (acc : Z * Z) (table : list string) : res (Z * Z) :=
  match table with
  | [] => Ret acc
  | line :: rest => rbind (device_line acc line) (fun acc' => systemNetCounters acc' rest)
  end.

End RateCalculator.

(** ** What the counter sources return at a given I/O step *)

Definition at_step {G} (g : G) (t : nat) : world G :=
  World g {| now := t; naps := []; stdout := [] |}.

(** The value of [get_total_cpu_time()] called at I/O step [t]. *)
Definition read_total_cpu_time (h : host) (t : nat) : res (Z * Z) :=
  fst (@Corelib.get_total_cpu_time unit h (at_step tt t)).

(** The value of [get_net_dev_data()] called at I/O step [t]. *)
Definition read_net_dev_data (h : host) (t : nat) : res (Z * Z) :=
  fst (@Corelib.get_net_dev_data unit h (at_step tt t)).

(** The value of [get_process_cpu_time(pid)] called at I/O step [t]. *)
Definition read_process_cpu_time (h : host) (t : nat) (pid : Z) : res Z :=
  fst (ProcessMonitor.get_process_cpu_time pid h
         (at_step ProcessMonitor.all_process_info_dict t)).

(** The value of [get_process_io(pid)] called at I/O step [t]. *)
Definition read_process_io (h : host) (t : nat) (pid : Z) : res (Z * Z) :=
  fst (ProcessMonitor.get_process_io pid h
         (at_step ProcessMonitor.all_process_info_dict t)).

(** The I/O side after [n] more steps, the intervals [slept] and the lines
    [printed] (latest first). *)
Definition after (n : nat) (slept : list Z) (printed : list string) (s : io) : io :=
  {| now := n + now s; naps := slept ++ naps s; stdout := printed ++ stdout s |}.

(** The previous CPU sample against which the next percentage of [pid] is
    computed: the pid's own "prev_cpu_time" and the total-CPU-time baseline. *)
Definition previous_cpu_sample (d : ProcessMonitor.all_process_info_t) (pid : Z)
  : option (option Z) * Z :=
  (ProcessMonitor.prev_cpu_time <$> ProcessMonitor.process_info d !! pid,
   ProcessMonitor.prev_cpu_total_time d).

(** ** Concrete hosts *)

Module Scenario.

Local Open Scope string_scope.

Definition line (s : string) : string := String.append s nl.

(** A host on which nothing is there: every file is missing.  Calls are made
    on the main thread, threads can be started and libnethogs captures
    nothing. *)
Definition bare : host := {|
  proc_stat := fun _ => OpenFails ENOENT;
  proc_meminfo := fun _ => OpenFails ENOENT;
  proc_net_dev := fun _ => OpenFails ENOENT;
  proc_pid_stat := fun _ _ => OpenFails ENOENT;
  proc_pid_io := fun _ _ => OpenFails ENOENT;
  wall_clock := fun _ => 0%float;
  local_hms := fun _ => "00:00:00";
  libnethogs_is_file := fun _ => false;
  libnethogs_loads := fun _ => false;
  default_net_device := fun _ => "eth0";
  main_thread := fun _ => true;
  thread_starts := fun _ => true;
  nethogs_loop := fun _ => []
|}.

Definition with_proc_stat (f : nat -> list string) (h : host) : host := {|
  proc_stat := fun t => Opened (f t);
  proc_meminfo := proc_meminfo h;
  proc_net_dev := proc_net_dev h;
  proc_pid_stat := proc_pid_stat h;
  proc_pid_io := proc_pid_io h;
  wall_clock := wall_clock h;
  local_hms := local_hms h;
  libnethogs_is_file := libnethogs_is_file h;
  libnethogs_loads := libnethogs_loads h;
  default_net_device := default_net_device h;
  main_thread := main_thread h;
  thread_starts := thread_starts h;
  nethogs_loop := nethogs_loop h
|}.

Definition with_proc_meminfo (f : nat -> list string) (h : host) : host := {|
  proc_stat := proc_stat h;
  proc_meminfo := fun t => Opened (f t);
  proc_net_dev := proc_net_dev h;
  proc_pid_stat := proc_pid_stat h;
  proc_pid_io := proc_pid_io h;
  wall_clock := wall_clock h;
  local_hms := local_hms h;
  libnethogs_is_file := libnethogs_is_file h;
  libnethogs_loads := libnethogs_loads h;
  default_net_device := default_net_device h;
  main_thread := main_thread h;
  thread_starts := thread_starts h;
  nethogs_loop := nethogs_loop h
|}.

Definition with_proc_net_dev (f : nat -> list string) (h : host) : host := {|
  proc_stat := proc_stat h;
  proc_meminfo := proc_meminfo h;
  proc_net_dev := fun t => Opened (f t);
  proc_pid_stat := proc_pid_stat h;
  proc_pid_io := proc_pid_io h;
  wall_clock := wall_clock h;
  local_hms := local_hms h;
  libnethogs_is_file := libnethogs_is_file h;
  libnethogs_loads := libnethogs_loads h;
  default_net_device := default_net_device h;
  main_thread := main_thread h;
  thread_starts := thread_starts h;
  nethogs_loop := nethogs_loop h
|}.

Definition with_proc_pid_stat (f : nat -> Z -> opened (list string)) (h : host) : host := {|
  proc_stat := proc_stat h;
  proc_meminfo := proc_meminfo h;
  proc_net_dev := proc_net_dev h;
  proc_pid_stat := f;
  proc_pid_io := proc_pid_io h;
  wall_clock := wall_clock h;
  local_hms := local_hms h;
  libnethogs_is_file := libnethogs_is_file h;
  libnethogs_loads := libnethogs_loads h;
  default_net_device := default_net_device h;
  main_thread := main_thread h;
  thread_starts := thread_starts h;
  nethogs_loop := nethogs_loop h
|}.

Definition with_proc_pid_io (f : nat -> Z -> opened (list string)) (h : host) : host := {|
  proc_stat := proc_stat h;
  proc_meminfo := proc_meminfo h;
  proc_net_dev := proc_net_dev h;
  proc_pid_stat := proc_pid_stat h;
  proc_pid_io := f;
  wall_clock := wall_clock h;
  local_hms := local_hms h;
  libnethogs_is_file := libnethogs_is_file h;
  libnethogs_loads := libnethogs_loads h;
  default_net_device := default_net_device h;
  main_thread := main_thread h;
  thread_starts := thread_starts h;
  nethogs_loop := nethogs_loop h
|}.

Definition with_wall_clock (f : nat -> float) (h : host) : host := {|
  proc_stat := proc_stat h;
  proc_meminfo := proc_meminfo h;
  proc_net_dev := proc_net_dev h;
  proc_pid_stat := proc_pid_stat h;
  proc_pid_io := proc_pid_io h;
  wall_clock := f;
  local_hms := local_hms h;
  libnethogs_is_file := libnethogs_is_file h;
  libnethogs_loads := libnethogs_loads h;
  default_net_device := default_net_device h;
  main_thread := main_thread h;
  thread_starts := thread_starts h;
  nethogs_loop := nethogs_loop h
|}.

Definition with_libnethogs (present : bool) (h : host) : host := {|
  proc_stat := proc_stat h;
  proc_meminfo := proc_meminfo h;
  proc_net_dev := proc_net_dev h;
  proc_pid_stat := proc_pid_stat h;
  proc_pid_io := proc_pid_io h;
  wall_clock := wall_clock h;
  local_hms := local_hms h;
  libnethogs_is_file := fun _ => present;
  libnethogs_loads := fun _ => present;
  default_net_device := default_net_device h;
  main_thread := main_thread h;
  thread_starts := thread_starts h;
  nethogs_loop := nethogs_loop h
|}.



(** Scenario A: /proc/stat shows (total 100, work 30), later (120, 42). *)
Definition cpu_100_30 : string := line "cpu  30 0 0 70 0 0 0 0 0 0".
Definition cpu_120_42 : string := line "cpu  42 0 0 78 0 0 0 0 0 0".

Definition host_A : host :=
  with_proc_stat (fun t => if Nat.eqb t 0 then [cpu_100_30] else [cpu_120_42]) bare.

(** An idle interval: /proc/stat shows the same counters at both reads. *)
Definition host_idle : host := with_proc_stat (fun _ => [cpu_100_30]) bare.

(** A user counter of 10^309 ticks on an otherwise idle machine: no float
    holds the work delta from a small stored sample. *)
Definition cpu_huge : string :=
  line (String.append "cpu  1"
          (String.append (String.concat "" (List.repeat "0" 309))
                         " 0 0 70 0 0 0 0 0 0")).

Definition host_huge : host := with_proc_stat (fun _ => [cpu_huge]) bare.

(** A counter that went down: (total 100, work 50), later (120, 40). *)
Definition cpu_100_50 : string := line "cpu  50 0 0 50 0 0 0 0 0 0".
Definition cpu_120_40 : string := line "cpu  40 0 0 80 0 0 0 0 0 0".

Definition host_reset : host :=
  with_proc_stat (fun t => if Nat.eqb t 0 then [cpu_100_50] else [cpu_120_40]) bare.

(** Scenario B: total 1000 kB, free 200 kB, available 400 kB. *)
Definition host_B : host :=
  with_proc_meminfo (fun _ =>
    [line "MemTotal:        1000 kB";
     line "MemFree:          200 kB";
     line "MemAvailable:     400 kB"]) bare.

Definition net_dev_header : list string :=
  [line "Inter-|   Receive                                                |  Transmit";
   line " face |bytes    packets errs drop fifo frame compressed multicast|bytes    packets errs drop fifo colls carrier compressed"].

(** Scenario C: eth0 has received 1,048,576 bytes, one second later
    2,097,152. *)
Definition host_C : host :=
  with_wall_clock (fun t => if Nat.leb t 1 then 1000%float else 1001%float)
  (with_proc_net_dev (fun t =>
     List.app net_dev_header
     [line "    lo: 2776770   11307    0    0    0     0          0         0  2776770   11307    0    0    0     0       0          0";
      if Nat.eqb t 0
      then line "  eth0: 1048576    2751    0    0    0     0          0         0  1782404    4324    0    0    0   427       0          0"
      else line "  eth0: 2097152    2751    0    0    0     0          0         0  1782404    4324    0    0    0   427       0          0"])
   bare).

(** Scenario D: pid 1234 has (rchar 0, wchar 0), two seconds later
    (rchar 2,000,000, wchar 0). *)
Definition host_D : host :=
  with_wall_clock (fun t => if Nat.leb t 1 then 1000%float else 1002%float)
  (with_proc_pid_io (fun t _ =>
     if Nat.eqb t 0
     then Opened [line "rchar: 0"; line "wchar: 0"; line "syscr: 0"]
     else Opened [line "rchar: 2000000"; line "wchar: 0"; line "syscr: 7"])
   bare).

(** A device table with the loopback device, a wired and a wireless one. *)
Definition table_wlo1 : list string :=
  List.app net_dev_header
  [line "    lo: 2776770   11307    0    0    0     0          0         0  2776770   11307    0    0    0     0       0          0";
   line "  eth0: 1215645    2751    0    0    0     0          0         0  1782404    4324    0    0    0   427       0          0";
   line "  wlo1: 1622270    5552    1    0    0     0          0         0   354130    5669    0    0    0     0       0          0"].

Definition host_wlo1 : host := with_proc_net_dev (fun _ => table_wlo1) bare.

(** A receive counter of 10^309 bytes on eth0. *)
Definition host_huge_net : host :=
  with_proc_net_dev (fun _ =>
    List.app net_dev_header
    [line (String.append "  eth0: 1"
             (String.append (String.concat "" (List.repeat "0" 309))
                            "    2751    0    0    0     0          0         0  1782404    4324    0    0    0   427       0          0"))])
  bare.

(** A machine whose only other device has not carried a byte yet. *)
Definition host_silent_net : host :=
  with_proc_net_dev (fun _ =>
    List.app net_dev_header
    [line "    lo: 2776770   11307    0    0    0     0          0         0  2776770   11307    0    0    0     0       0          0";
     line "  eth0:       0       0    0    0    0     0          0         0        0       0    0    0    0     0       0          0"])
  (with_wall_clock (fun t => match float_of_int (Z.of_nat t) with
                             | Ret f => f
                             | Raise _ => 0%float
                             end) bare).

(** /proc/[pid]/stat of a process with utime 30, stime 12, and later with
    utime 40, stime 14. *)
Definition pid_stat_42 : string :=
  line "1234 (python) S 1 1234 1234 0 -1 4194304 100 0 0 0 30 12 0 0 20 0 1 0 100 1000 10 18446744073709551615".
Definition pid_stat_54 : string :=
  line "1234 (python) S 1 1234 1234 0 -1 4194304 100 0 0 0 40 14 0 0 20 0 1 0 100 1000 10 18446744073709551615".

(** Scenario E: pid 1234 is alive for the first ten I/O steps and gone
    afterwards; libnethogs is installed. *)
Definition host_E : host :=
  with_libnethogs true
  (with_proc_pid_stat (fun t _ =>
     if Nat.ltb t 10 then Opened [if Nat.ltb t 3 then pid_stat_42 else pid_stat_54]
     else OpenFails ENOENT)
   (with_proc_stat (fun t => if Nat.ltb t 3 then [cpu_100_30] else [cpu_120_42]) bare)).

(** The traffic event delivered for pid 1234 in scenario E. *)
Definition event_E : ProcessMonitor.NethogsMonitorRecord := {|
  ProcessMonitor.record_id := 7;
  ProcessMonitor.name := "/usr/bin/python";
  ProcessMonitor.pid := 1234;
  ProcessMonitor.uid := 1000;
  ProcessMonitor.device_name := "eth0";
  ProcessMonitor.sent_bytes := 2048;
  ProcessMonitor.recv_bytes := 4096;
  ProcessMonitor.sent_kbs := 0.5%float;
  ProcessMonitor.recv_kbs := 1.25%float
|}.





(** Two processes, both alive; the CPU totals advance between the calls. *)
Definition host_two : host :=
  with_proc_pid_stat (fun t _ => Opened [if Nat.ltb t 3 then pid_stat_42 else pid_stat_54])
  (with_proc_stat (fun t =>
     if Nat.ltb t 3 then [cpu_100_30]
     else if Nat.ltb t 6 then [cpu_120_42]
     else if Nat.ltb t 10 then [line "cpu  60 0 0 140 0 0 0 0 0 0"]
     else [line "cpu  80 0 0 180 0 0 0 0 0 0"]) bare).

(** The worlds the scenarios start from. *)
Definition cold : world Corelib.corelib_globals := World Corelib.initial io0.

Definition fresh : world ProcessMonitor.all_process_info_t :=
  World ProcessMonitor.all_process_info_dict io0.

(** The system CPU sample (total 100, work 30) already stored. *)
Definition warmed_100_30 : world Corelib.corelib_globals :=
  World (Corelib.Globals 30 100 0 0 0%float) (tick io0).

(** The system CPU sample (total 100, work 50) already stored. *)
Definition warmed_100_50 : world Corelib.corelib_globals :=
  World (Corelib.Globals 50 100 0 0 0%float) (tick io0).

(** The system CPU sample (total 10^309 + 70, work 30) already stored. *)
Definition warmed_huge_30 : world Corelib.corelib_globals :=
  World (Corelib.Globals 30 (10 ^ 309 + 70) 0 0 0%float) (tick io0).

(** Scenario E up to the exit of pid 1234: a first CPU sample of the pid, a
    traffic request that starts the monitor, and one traffic event. *)
Definition world_E : world ProcessMonitor.all_process_info_t :=
  snd ((exec ProcessMonitor.calc_process_cpu_percent 1234 2 ;;
        exec ProcessMonitor.get_process_net_info 1234 ;;
        ProcessMonitor.network_activity_callback 1 event_E) host_E fresh).

(** Pids 1 and 2 both sampled once on [host_two]. *)
Definition world_two : world ProcessMonitor.all_process_info_t :=
  snd ((exec ProcessMonitor.calc_process_cpu_percent 1 2 ;;
        ProcessMonitor.calc_process_cpu_percent 2 2) host_two fresh).

End Scenario.

(** ** Invariants of the globals *)

(** [m] keeps the invariant [I] of the globals, whether it returns or
    raises. *)
Definition preserves {G A} (I : G -> Prop) (m : M G A) : Prop :=
  forall h w, I (globals w) -> I (globals (snd (m h w))).

(** ** The registry of watched processes *)

(** Every watched pid has its entry in "process_info". *)
Definition registered (d : ProcessMonitor.all_process_info_t) : Prop :=
  forall p, p ∈ ProcessMonitor.watch_pid d ->
            is_Some (ProcessMonitor.process_info d !! p).

(** Only watched pids have an entry in "process_info". *)
Definition entries_watched (d : ProcessMonitor.all_process_info_t) : Prop :=
  forall p, is_Some (ProcessMonitor.process_info d !! p) ->
            p ∈ ProcessMonitor.watch_pid d.

(** The exceptions of a lookup in the registry that finds no entry or an
    entry without its previous sample. *)
Definition registry_error (e : exn) : Prop := e = KeyError \/ e = TypeError.

(** A Hoare triple on the globals: from globals satisfying [P], [m] returns
    [a] with globals satisfying [Q a], or raises [e] with globals satisfying
    [E e]. *)
Definition hoare {G A} (P : G -> Prop) (m : M G A)
    (Q : A -> G -> Prop) (E : exn -> G -> Prop) : Prop :=
  forall h w, P (globals w) ->
    match m h w with
    | (Ret a, w') => Q a (globals w')
    | (Raise e, w') => E e (globals w')
    end.

(** ** The format of the space-separated pseudo-files *)

(** The fields of a line, written with single spaces between them. *)
Fixpoint space_separated (fields : list string) : string :=
  match fields with
  | [] => EmptyString
  | [f] => f
  | f :: rest => String.append f (String " "%char (space_separated rest))
  end.

(** A string in which the character [sep] does not occur. *)
Fixpoint lacks (sep : ascii) (s : string) : bool :=
  match s with
  | EmptyString => true
  | String c r => negb (Ascii.eqb c sep) && lacks sep r
  end.

(** * Properties *)

(** ** Running the counter sources *)

Section Reads.
Context {G : Type}.
Implicit Types (h : host) (w : world G).

Lemma get_total_cpu_time_run h w :
  Corelib.get_total_cpu_time h w =
  (read_total_cpu_time h (now (sys w)), World (globals w) (tick (sys w))).
Proof.
  unfold read_total_cpu_time, Corelib.get_total_cpu_time, open_file, observe,
    bind, lift, ret, raise, at_step; simpl.
  destruct (proc_stat h (now (sys w))); reflexivity.
Qed.

Lemma get_net_dev_data_run h w :
  Corelib.get_net_dev_data h w =
  (read_net_dev_data h (now (sys w)), World (globals w) (tick (sys w))).
Proof.
  unfold read_net_dev_data, Corelib.get_net_dev_data, open_file, observe,
    bind, lift, ret, raise, at_step; simpl.
  destruct (proc_net_dev h (now (sys w))); reflexivity.
Qed.

Lemma time_run h w :
  time h w = (Ret (wall_clock h (now (sys w))), World (globals w) (tick (sys w))).
Proof. reflexivity. Qed.

Lemma sleep_run h w interval :
  (0 <= interval)%Z ->
  sleep interval h w =
  (Ret tt, World (globals w) (after 1 [interval] [] (sys w))).
Proof.
  intros Hi. unfold sleep. destruct (Z.ltb_spec interval 0); [lia | reflexivity].
Qed.
End Reads.

Lemma pm_get_total_cpu_time_run h (w : world ProcessMonitor.all_process_info_t) :
  ProcessMonitor.get_total_cpu_time h w =
  (read_total_cpu_time h (now (sys w)), World (globals w) (tick (sys w))).
Proof. apply get_total_cpu_time_run. Qed.

Lemma get_process_cpu_time_run h (w : world ProcessMonitor.all_process_info_t) pid :
  ProcessMonitor.get_process_cpu_time pid h w =
  (read_process_cpu_time h (now (sys w)) pid, World (globals w) (tick (sys w))).
Proof.
  unfold read_process_cpu_time, ProcessMonitor.get_process_cpu_time,
    wrap_process_exceptions, open_file, observe, bind, lift, ret, raise, at_step;
    simpl.
  destruct (proc_pid_stat h (now (sys w)) pid) as [ls|[]]; simpl;
    try reflexivity.
  destruct (ProcessMonitor.process_cpu_time_of_line _) as [|[]]; try reflexivity;
    destruct e; reflexivity.
Qed.

Lemma get_process_io_run h (w : world ProcessMonitor.all_process_info_t) pid :
  ProcessMonitor.get_process_io pid h w =
  (read_process_io h (now (sys w)) pid, World (globals w) (tick (sys w))).
Proof.
  unfold read_process_io, ProcessMonitor.get_process_io,
    wrap_process_exceptions, open_file, observe, bind, lift, ret, raise, at_step;
    simpl.
  destruct (proc_pid_io h (now (sys w)) pid) as [ls|[]]; simpl; try reflexivity.
  destruct (readline ls) as [l1 f1]. destruct (readline f1) as [l2 f2].
  repeat match goal with
         | |- context [match ?r with Ret _ => _ | Raise _ => _ end] =>
             destruct r as [?|[]]; simpl; try reflexivity
         | e : errno |- _ => destruct e; simpl; try reflexivity
         end.
Qed.

(** ** corelib.py: what one sampling call does *)

Section CorelibCalls.
Import Corelib.
Implicit Types (h : host) (w : world corelib_globals).

Ltac run_calc :=
  repeat first
    [ rewrite get_total_cpu_time_run
    | rewrite get_net_dev_data_run
    | rewrite time_run
    | rewrite sleep_run by assumption
    | progress simpl
    | match goal with
      | H : ?r = Ret _ |- context [?r] => rewrite H
      | |- context [match ?r with Ret _ => _ | Raise _ => _ end] =>
          destruct r; simpl; try reflexivity
      end ].

(** A call with a previous sample: one read, the formula on the stored
    sample, and the stored sample replaced by the fresh one. *)
Lemma calc_cpu_percent_warm h w interval ct cw :
  prev_cpu_work_time (globals w) <> 0%Z ->
  read_total_cpu_time h (now (sys w)) = Ret (ct, cw) ->
  calc_cpu_percent interval h w =
  match RateCalculator.percent (prev_cpu_work_time (globals w)) cw
          (prev_cpu_total_time (globals w)) ct with
  | Ret r => (Ret r, World (set_prev_cpu ct cw (globals w)) (after 1 [] [] (sys w)))
  | Raise e => (Raise e, World (globals w) (after 1 [] [] (sys w)))
  end.
Proof.
  intros Hw Hr. destruct w as [g s]; simpl in *.
  unfold calc_cpu_percent, RateCalculator.percent, rbind, bind, get, modify, ret, lift.
  simpl. rewrite (proj2 (Z.eqb_neq _ _) Hw). run_calc.
Qed.

(** A call without one (stored work time 0): a baseline read, the sleep,
    a second read, and the formula on the baseline. *)
Lemma calc_cpu_percent_cold h w interval bt bw ct cw :
  prev_cpu_work_time (globals w) = 0%Z ->
  (0 <= interval)%Z ->
  read_total_cpu_time h (now (sys w)) = Ret (bt, bw) ->
  read_total_cpu_time h (2 + now (sys w)) = Ret (ct, cw) ->
  calc_cpu_percent interval h w =
  match RateCalculator.percent bw cw bt ct with
  | Ret r =>
      (Ret r, World (set_prev_cpu ct cw (globals w)) (after 3 [interval] [] (sys w)))
  | Raise e =>
      (Raise e, World (set_prev_cpu bt bw (globals w)) (after 3 [interval] [] (sys w)))
  end.
Proof.
  intros Hw Hi Hb Hr. destruct w as [g s]; simpl in *.
  unfold calc_cpu_percent, RateCalculator.percent, rbind, bind, get, modify, ret, lift.
  simpl. rewrite Hw. run_calc.
Qed.

Lemma calc_net_speed_warm h w interval cr cs :
  prev_net_receive_byte (globals w) <> 0%Z ->
  read_net_dev_data h (now (sys w)) = Ret (cr, cs) ->
  calc_net_speed interval h w =
  let g := globals w in
  let t := wall_clock h (1 + now (sys w)) in
  match both (RateCalculator.rate (prev_net_receive_byte g) cr 1024 (prev_net_time g) t)
             (RateCalculator.rate (prev_net_send_byte g) cs 1024 (prev_net_time g) t) with
  | Ret r =>
      (Ret r, World (set_prev_net_time t (set_prev_net_bytes cr cs g))
                    (after 2 [] [] (sys w)))
  | Raise e => (Raise e, World g (after 2 [] [] (sys w)))
  end.
Proof.
  intros Hw Hr. destruct w as [g s]; simpl in *.
  unfold calc_net_speed, both, RateCalculator.rate, rbind, bind, get, modify, ret, lift.
  simpl. rewrite (proj2 (Z.eqb_neq _ _) Hw). run_calc.
Qed.

Lemma calc_net_speed_cold h w interval br bs cr cs :
  prev_net_receive_byte (globals w) = 0%Z ->
  (0 <= interval)%Z ->
  read_net_dev_data h (now (sys w)) = Ret (br, bs) ->
  read_net_dev_data h (3 + now (sys w)) = Ret (cr, cs) ->
  calc_net_speed interval h w =
  let g := globals w in
  let t0 := wall_clock h (1 + now (sys w)) in
  let t := wall_clock h (4 + now (sys w)) in
  match both (RateCalculator.rate br cr 1024 t0 t)
             (RateCalculator.rate bs cs 1024 t0 t) with
  | Ret r =>
      (Ret r, World (set_prev_net_time t (set_prev_net_bytes cr cs g))
                    (after 5 [interval] [] (sys w)))
  | Raise e =>
      (Raise e, World (set_prev_net_time t0 (set_prev_net_bytes br bs g))
                      (after 5 [interval] [] (sys w)))
  end.
Proof.
  intros Hw Hi Hb Hr. destruct w as [g s]; simpl in *.
  unfold calc_net_speed, both, RateCalculator.rate, rbind, bind, get, modify, ret, lift.
  simpl. rewrite Hw. run_calc.
Qed.
End CorelibCalls.

(** ** process_monitor.py: what one sampling call does *)

Ltac run_pm :=
  repeat first
    [ rewrite pm_get_total_cpu_time_run
    | rewrite get_process_cpu_time_run
    | rewrite get_process_io_run
    | rewrite time_run
    | rewrite sleep_run by assumption
    | rewrite lookup_insert_eq
    | progress cbn beta iota zeta delta
        [globals sys fst snd now tick
         ProcessMonitor.watch_pid ProcessMonitor.process_info
         ProcessMonitor.prev_cpu_total_time ProcessMonitor.prev_cpu_time
         ProcessMonitor.prev_io ProcessMonitor.pre_time
         ProcessMonitor.set_process_info ProcessMonitor.set_prev_cpu_total_time]
    | match goal with
      | H : ?r = Ret _ |- context [?r] => rewrite H
      | H : ?r = Raise _ |- context [?r] => rewrite H
      | H : ?r = Some _ |- context [?r] => rewrite H
      | |- context [match ?r with Ret _ => _ | Raise _ => _ end] =>
          destruct r; try reflexivity
      end ].

Section ProcessMonitorCalls.
Import ProcessMonitor.
Implicit Types (h : host) (w : world all_process_info_t).

Lemma calc_process_cpu_percent_warm h w p interval info pc ct cw cp :
  p ∈ watch_pid (globals w) ->
  process_info (globals w) !! p = Some info ->
  prev_cpu_time info = Some pc ->
  read_total_cpu_time h (now (sys w)) = Ret (ct, cw) ->
  read_process_cpu_time h (1 + now (sys w)) p = Ret cp ->
  calc_process_cpu_percent p interval h w =
  let d := globals w in
  match RateCalculator.percent pc cp (prev_cpu_total_time d) ct with
  | Ret r =>
      (Ret r,
       World (set_prev_cpu_total_time ct
                (set_process_info
                   (<[p := ProcessInfo (pre_time info) (Some cp) (prev_io info)]>
                      (process_info d)) d))
             (after 2 [] [] (sys w)))
  | Raise e => (Raise e, World d (after 2 [] [] (sys w)))
  end.
Proof.
  intros Hp Hi Hc Ht Hr. destruct w as [d s]; simpl in *.
  unfold calc_process_cpu_percent, watch, update_process_info, the_process_info,
    RateCalculator.percent, rbind, bind, get, modify, ret, raise, lift.
  cbn beta iota zeta delta [globals sys].
  rewrite (bool_decide_eq_true_2 _ Hp). run_pm.
Qed.

Lemma calc_process_cpu_io_warm h w p interval info pr pw cr cw :
  p ∈ watch_pid (globals w) ->
  process_info (globals w) !! p = Some info ->
  prev_io info = Some (pr, pw) ->
  read_process_io h (1 + now (sys w)) p = Ret (cr, cw) ->
  calc_process_cpu_io p interval h w =
  let d := globals w in
  let t := wall_clock h (now (sys w)) in
  match both (RateCalculator.rate pr cr mega (pre_time info) t)
             (RateCalculator.rate pw cw mega (pre_time info) t) with
  | Ret (read_MBs, write_MBs) =>
      (Ret (round read_MBs 2, round write_MBs 2),
       World (set_process_info
                (<[p := ProcessInfo t (prev_cpu_time info) (Some (cr, cw))]>
                   (process_info d)) d)
             (after 2 [] [] (sys w)))
  | Raise e => (Raise e, World d (after 2 [] [] (sys w)))
  end.
Proof.
  intros Hp Hi Hc Hr. destruct w as [d s]; simpl in *.
  unfold calc_process_cpu_io, watch, update_process_info, the_process_info,
    both, RateCalculator.rate, rbind, bind, get, modify, ret, raise, lift.
  cbn beta iota zeta delta [globals sys].
  rewrite (bool_decide_eq_true_2 _ Hp). run_pm.
  unfold set_process_info; cbn. rewrite insert_insert_eq. reflexivity.
Qed.

(** A call during which the lookup of the pid's counters raises. *)
Lemma calc_process_cpu_percent_lookup_raises h w p interval info ct cw e :
  p ∈ watch_pid (globals w) ->
  process_info (globals w) !! p = Some info ->
  read_total_cpu_time h (now (sys w)) = Ret (ct, cw) ->
  read_process_cpu_time h (1 + now (sys w)) p = Raise e ->
  calc_process_cpu_percent p interval h w =
  (Raise e,
   World (match prev_cpu_time info with
          | Some _ => globals w
          | None => set_prev_cpu_total_time ct (globals w)
          end)
         (after 2 [] [] (sys w))).
Proof.
  intros Hp Hi Ht Hr. destruct w as [d s]; simpl in *.
  unfold calc_process_cpu_percent, watch, update_process_info, the_process_info,
    rbind, bind, get, modify, ret, raise, lift.
  cbn beta iota zeta delta [globals sys].
  rewrite (bool_decide_eq_true_2 _ Hp).
  cbn beta iota zeta delta [globals sys]. rewrite Hi.
  cbn beta iota zeta delta [globals sys].
  destruct (prev_cpu_time info); run_pm; reflexivity.
Qed.

(** A traffic request once libnethogs is known to be installed and the
    monitor thread exists: the pid's entry of "libnethogs_data". *)
Lemma get_process_net_info_running h w p th :
  libnethogs_thread_install (globals w) = true ->
  libnethogs_thread (globals w) = Some th ->
  get_process_net_info p h w =
  (Ret (libnethogs_data (globals w) !! p),
   World (set_watch_pid ({[p]} ∪ watch_pid (globals w)) (globals w)) (sys w)).
Proof.
  intros Hinst Hth. destruct w as [d s]; simpl in *.
  unfold get_process_net_info, bind, get, modify, ret.
  cbn beta iota zeta delta [globals sys]. rewrite Hinst.
  cbn beta iota zeta delta [globals sys set_watch_pid libnethogs_thread].
  rewrite Hth. reflexivity.
Qed.
End ProcessMonitorCalls.

(** ** Invariants kept by the monad's operations *)

Section Preserves.
Context {G : Type} (I : G -> Prop).

Lemma preserves_ret {A} (a : A) : preserves I (ret a).
Proof. intros h w Hw. exact Hw. Qed.

Lemma preserves_raise {A} e : preserves I (@raise G A e).
Proof. intros h w Hw. exact Hw. Qed.

Lemma preserves_lift {A} (r : res A) : preserves I (lift r).
Proof. intros h w Hw. exact Hw. Qed.

Lemma preserves_get : preserves I get.
Proof. intros h w Hw. exact Hw. Qed.

Lemma preserves_observe {A} (f : host -> nat -> A) : preserves I (observe f).
Proof. intros h w Hw. exact Hw. Qed.

Lemma preserves_sleep interval : preserves I (sleep interval).
Proof. intros h w Hw. unfold sleep. destruct (interval <? 0)%Z; exact Hw. Qed.

Lemma preserves_print s : preserves I (print s).
Proof. intros h w Hw. exact Hw. Qed.

Lemma preserves_modify (f : G -> G) :
  (forall g, I g -> I (f g)) -> preserves I (modify f).
Proof. intros Hf h w Hw. apply Hf, Hw. Qed.

Lemma preserves_bind {A B} (m : M G A) (k : A -> M G B) :
  preserves I m -> (forall a, preserves I (k a)) -> preserves I (bind m k).
Proof.
  intros Hm Hk h w Hw. unfold bind. specialize (Hm h w Hw).
  destruct (m h w) as [[a|e] w']; simpl in *.
  - apply Hk, Hm.
  - exact Hm.
Qed.

Lemma preserves_open_file f : preserves I (open_file f).
Proof.
  apply preserves_bind; [apply preserves_observe|].
  intros [ls|e]; [apply preserves_ret | apply preserves_raise].
Qed.

Lemma preserves_wrap_process_exceptions {A} pid (m : M G A) :
  preserves I m -> preserves I (wrap_process_exceptions pid m).
Proof.
  intros Hm h w Hw. unfold wrap_process_exceptions. specialize (Hm h w Hw).
  destruct (m h w) as [[a|e] w']; simpl in *; [exact Hm|].
  destruct e; try exact Hm. destruct e; exact Hm.
Qed.
End Preserves.

Ltac preserves_step :=
  first
    [ apply preserves_bind; [| intros ?]
    | apply preserves_ret
    | apply preserves_raise
    | apply preserves_lift
    | apply preserves_get
    | apply preserves_observe
    | apply preserves_open_file
    | apply preserves_sleep
    | apply preserves_print
    | apply preserves_wrap_process_exceptions
    | match goal with
      | |- preserves _ (match ?x with _ => _ end) => destruct x
      end ].

(** ** System scope: the formulas *)

(** C8: with a previous sample stored, [calc_cpu_percent] returns
    [(currWork - prevWork) * 100 / (currTotal - prevTotal)] in Python's
    arithmetic (a zero divisor raising, as the division does), and on
    returning stores the fresh counters as the previous sample.  Counters
    (total 100, work 30) followed by (total 120, work 42) give exactly 60.0,
    on a first call as well as against a stored sample. *)
Theorem calc_cpu_percent_formula :
  (forall h (w : world Corelib.corelib_globals) interval ct cw,
     Corelib.prev_cpu_work_time (globals w) <> 0%Z ->
     read_total_cpu_time h (now (sys w)) = Ret (ct, cw) ->
     fst (Corelib.calc_cpu_percent interval h w) =
       RateCalculator.percent (Corelib.prev_cpu_work_time (globals w)) cw
         (Corelib.prev_cpu_total_time (globals w)) ct /\
     (is_raise (fst (Corelib.calc_cpu_percent interval h w)) = false ->
      globals (snd (Corelib.calc_cpu_percent interval h w)) =
        Corelib.set_prev_cpu ct cw (globals w))) /\
  Corelib.calc_cpu_percent 2 Scenario.host_A Scenario.cold =
    (Ret 60%float,
     World (Corelib.Globals 42 120 0 0 0%float)
           {| now := 3; naps := [2%Z]; stdout := [] |}) /\
  Corelib.calc_cpu_percent 2 Scenario.host_A Scenario.warmed_100_30 =
    (Ret 60%float,
     World (Corelib.Globals 42 120 0 0 0%float)
           {| now := 2; naps := []; stdout := [] |}).
Proof.
  split; [|split; vm_compute; reflexivity].
  intros h w interval ct cw Hw Hr.
  rewrite (calc_cpu_percent_warm h w interval ct cw Hw Hr).
  destruct (RateCalculator.percent _ _ _ _); simpl; split; auto; discriminate.
Qed.

Lemma calc_cpu_percent_formula_witness :
  Corelib.prev_cpu_work_time (globals Scenario.warmed_100_30) <> 0%Z /\
  read_total_cpu_time Scenario.host_A 1 = Ret (120, 42)%Z /\
  fst (Corelib.calc_cpu_percent 2 Scenario.host_A Scenario.warmed_100_30) =
    Ret 60%float.
Proof.
  assert (Hw : Corelib.prev_cpu_work_time (globals Scenario.warmed_100_30) <> 0%Z)
    by (simpl; lia).
  assert (Hr : read_total_cpu_time Scenario.host_A
                 (now (sys Scenario.warmed_100_30)) = Ret (120, 42)%Z)
    by reflexivity.
  split; [exact Hw | split; [exact Hr |]].
  exact (eq_trans
           (proj1 (proj1 calc_cpu_percent_formula Scenario.host_A
                     Scenario.warmed_100_30 2%Z 120%Z 42%Z Hw Hr))
           eq_refl).
Defined.

(** C9: [calc_mem_percent] returns [(MemTotal - MemAvailable) * 100 /
    MemTotal] of the three values [get_mem_info] returned, whatever MemFree
    is; total 1000 with 400 available (and 200 free) gives exactly 60.0. *)
Theorem calc_mem_percent_formula :
  (forall (G : Type) h (w w' : world G) MemTotal MemFree MemAvailable,
     Corelib.get_mem_info h w = (Ret [MemTotal; MemFree; MemAvailable], w') ->
     Corelib.calc_mem_percent h w =
       (RateCalculator.mem_percent MemTotal MemAvailable, w')) /\
  Corelib.get_mem_info Scenario.host_B (at_step tt 0) =
    (Ret [1000; 200; 400]%Z,
     World tt {| now := 1; naps := []; stdout := ["1000 "%string] |}) /\
  fst (Corelib.calc_mem_percent Scenario.host_B (at_step tt 0)) = Ret 60%float.
Proof.
  split; [|split; vm_compute; reflexivity].
  intros G h w w' T F A Hinfo.
  unfold Corelib.calc_mem_percent, bind. rewrite Hinfo.
  unfold RateCalculator.mem_percent, rbind, lift.
  destruct (float_of_int (T - A)); [|reflexivity].
  destruct (float_of_int T); reflexivity.
Qed.

Lemma calc_mem_percent_formula_witness :
  Corelib.get_mem_info Scenario.host_B (at_step tt 0) =
    (Ret [1000; 200; 400]%Z,
     World tt {| now := 1; naps := []; stdout := ["1000 "%string] |}) /\
  Corelib.calc_mem_percent Scenario.host_B (at_step tt 0) =
    (RateCalculator.mem_percent 1000 400,
     World tt {| now := 1; naps := []; stdout := ["1000 "%string] |}).
Proof.
  assert (Hinfo : Corelib.get_mem_info Scenario.host_B (at_step tt 0) =
                  (Ret [1000; 200; 400]%Z,
                   World tt {| now := 1; naps := []; stdout := ["1000 "%string] |}))
    by (vm_compute; reflexivity).
  split; [exact Hinfo |].
  exact (proj1 calc_mem_percent_formula unit Scenario.host_B _ _ _ _ _ Hinfo).
Defined.

(** C6, at a device table with the devices lo, eth0 and wlo1: the sums over
    the devices other than "lo" are those of eth0 and wlo1 together, while
    [get_net_dev_data] returns the counters of eth0 alone, because the line
    of wlo1 contains "lo". *)
Theorem get_net_dev_data_drops_wlo1 :
  RateCalculator.systemNetCounters (0, 0)%Z Scenario.table_wlo1 =
    Ret (1215645 + 1622270, 1782404 + 354130)%Z /\
  read_net_dev_data Scenario.host_wlo1 0 = Ret (1215645, 1782404)%Z.
Proof. split; vm_compute; reflexivity. Qed.

(** ** System scope: the warm-up sentinel *)

(** C10: "no previous sample" is the stored value 0.  Whenever the stored
    CPU work time is 0, [calc_cpu_percent] reads a baseline, sleeps for the
    interval, reads again and rates the second read against that baseline,
    whatever total time was stored; likewise [calc_net_speed] whenever the
    stored receive-byte count is 0.  On a machine whose device has not yet
    received a byte, the 0 that the first call stores is a sampled value,
    and the second call sleeps again. *)
Theorem warm_up_is_rerun_on_zero :
  (forall h (w : world Corelib.corelib_globals) interval bt bw ct cw,
     Corelib.prev_cpu_work_time (globals w) = 0%Z ->
     (0 <= interval)%Z ->
     read_total_cpu_time h (now (sys w)) = Ret (bt, bw) ->
     read_total_cpu_time h (2 + now (sys w)) = Ret (ct, cw) ->
     fst (Corelib.calc_cpu_percent interval h w) = RateCalculator.percent bw cw bt ct /\
     sys (snd (Corelib.calc_cpu_percent interval h w)) = after 3 [interval] [] (sys w)) /\
  (forall h (w : world Corelib.corelib_globals) interval br bs cr cs,
     Corelib.prev_net_receive_byte (globals w) = 0%Z ->
     (0 <= interval)%Z ->
     read_net_dev_data h (now (sys w)) = Ret (br, bs) ->
     read_net_dev_data h (3 + now (sys w)) = Ret (cr, cs) ->
     fst (Corelib.calc_net_speed interval h w) =
       both (RateCalculator.rate br cr 1024 (wall_clock h (1 + now (sys w)))
               (wall_clock h (4 + now (sys w))))
            (RateCalculator.rate bs cs 1024 (wall_clock h (1 + now (sys w)))
               (wall_clock h (4 + now (sys w)))) /\
     sys (snd (Corelib.calc_net_speed interval h w)) = after 5 [interval] [] (sys w)) /\
  (let first := Corelib.calc_net_speed 2 Scenario.host_silent_net Scenario.cold in
   let second := Corelib.calc_net_speed 2 Scenario.host_silent_net (snd first) in
   read_net_dev_data Scenario.host_silent_net 0 = Ret (0, 0)%Z /\
   fst first = Ret (0%float, 0%float) /\
   naps (sys (snd first)) = [2%Z] /\
   Corelib.prev_net_receive_byte (globals (snd first)) = 0%Z /\
   fst second = Ret (0%float, 0%float) /\
   naps (sys (snd second)) = [2%Z; 2%Z]).
Proof.
  split; [|split].
  - intros h w interval bt bw ct cw Hw Hi Hb Hr.
    rewrite (calc_cpu_percent_cold h w interval bt bw ct cw Hw Hi Hb Hr).
    destruct (RateCalculator.percent _ _ _ _); split; reflexivity.
  - intros h w interval br bs cr cs Hw Hi Hb Hr.
    rewrite (calc_net_speed_cold h w interval br bs cr cs Hw Hi Hb Hr).
    cbv zeta. destruct (both _ _); split; reflexivity.
  - vm_compute. repeat split; reflexivity.
Qed.

Lemma warm_up_is_rerun_on_zero_witness :
  Corelib.prev_cpu_work_time (globals Scenario.cold) = 0%Z /\
  (0 <= 2)%Z /\
  read_total_cpu_time Scenario.host_A 0 = Ret (100, 30)%Z /\
  read_total_cpu_time Scenario.host_A 2 = Ret (120, 42)%Z /\
  fst (Corelib.calc_cpu_percent 2 Scenario.host_A Scenario.cold) = Ret 60%float /\
  sys (snd (Corelib.calc_cpu_percent 2 Scenario.host_A Scenario.cold)) =
    {| now := 3; naps := [2%Z]; stdout := [] |}.
Proof.
  assert (Hw : Corelib.prev_cpu_work_time (globals Scenario.cold) = 0%Z)
    by reflexivity.
  assert (Hi : (0 <= 2)%Z) by lia.
  assert (Hb : read_total_cpu_time Scenario.host_A (now (sys Scenario.cold)) =
               Ret (100, 30)%Z) by reflexivity.
  assert (Hr : read_total_cpu_time Scenario.host_A (2 + now (sys Scenario.cold)) =
               Ret (120, 42)%Z) by reflexivity.
  refine (conj Hw (conj Hi (conj Hb (conj Hr _)))).
  exact (proj1 warm_up_is_rerun_on_zero Scenario.host_A Scenario.cold
           2%Z 100%Z 30%Z 120%Z 42%Z Hw Hi Hb Hr).
Defined.

(** ** Zero total-time delta *)

Lemma percent_zero_total_delta prevWork currWork total :
  RateCalculator.percent prevWork currWork total total =
  rbind (float_of_int (currWork - prevWork)) (fun _ => Raise ZeroDivisionError).
Proof.
  unfold RateCalculator.percent. rewrite Z.sub_diag.
  destruct (float_of_int (currWork - prevWork)); reflexivity.
Qed.

Lemma float_of_int_raises z e : float_of_int z = Raise e -> e = OverflowError.
Proof.
  unfold float_of_int. destruct (is_infinity _); congruence.
Qed.

(** The exception of a division by zero whose numerator is the conversion of
    [z]: the conversion is evaluated first. *)
Lemma zero_division_after_conversion z :
  rbind (B := float) (float_of_int z) (fun _ => Raise ZeroDivisionError) =
  Raise (if is_raise (float_of_int z) then OverflowError else ZeroDivisionError).
Proof.
  destruct (float_of_int z) as [f|e] eqn:Hz; simpl; [reflexivity|].
  rewrite (float_of_int_raises z e Hz). reflexivity.
Qed.

(** C1, as the code has it: when the total CPU time read equals the stored
    previous total, the division raises.  [calc_cpu_percent] and
    [calc_process_cpu_percent] return no value: an exception escapes to the
    caller, [OverflowError] when the work delta is too large for a float and
    [ZeroDivisionError] otherwise, and the stored previous sample is left as
    it was.  The same happens on a first call of [calc_cpu_percent] whose
    two reads see one total: the baseline just read stays stored. *)
Theorem zero_total_delta_raises :
  (forall h (w : world Corelib.corelib_globals) interval cw,
     Corelib.prev_cpu_work_time (globals w) <> 0%Z ->
     read_total_cpu_time h (now (sys w)) =
       Ret (Corelib.prev_cpu_total_time (globals w), cw) ->
     Corelib.calc_cpu_percent interval h w =
       (Raise (if is_raise (float_of_int
                              (cw - Corelib.prev_cpu_work_time (globals w)))
               then OverflowError else ZeroDivisionError),
        World (globals w) (after 1 [] [] (sys w)))) /\
  (forall h (w : world Corelib.corelib_globals) interval total bw cw,
     Corelib.prev_cpu_work_time (globals w) = 0%Z ->
     (0 <= interval)%Z ->
     read_total_cpu_time h (now (sys w)) = Ret (total, bw) ->
     read_total_cpu_time h (2 + now (sys w)) = Ret (total, cw) ->
     Corelib.calc_cpu_percent interval h w =
       (Raise (if is_raise (float_of_int (cw - bw))
               then OverflowError else ZeroDivisionError),
        World (Corelib.set_prev_cpu total bw (globals w))
              (after 3 [interval] [] (sys w)))) /\
  (forall h (w : world ProcessMonitor.all_process_info_t) p interval info pc cw cp,
     p ∈ ProcessMonitor.watch_pid (globals w) ->
     ProcessMonitor.process_info (globals w) !! p = Some info ->
     ProcessMonitor.prev_cpu_time info = Some pc ->
     read_total_cpu_time h (now (sys w)) =
       Ret (ProcessMonitor.prev_cpu_total_time (globals w), cw) ->
     read_process_cpu_time h (1 + now (sys w)) p = Ret cp ->
     ProcessMonitor.calc_process_cpu_percent p interval h w =
       (Raise (if is_raise (float_of_int (cp - pc))
               then OverflowError else ZeroDivisionError),
        World (globals w) (after 2 [] [] (sys w)))).
Proof.
  split; [|split].
  - intros h w interval cw Hw Hr.
    rewrite (calc_cpu_percent_warm h w interval _ cw Hw Hr),
      percent_zero_total_delta, zero_division_after_conversion.
    reflexivity.
  - intros h w interval total bw cw Hw Hi Hb Hr.
    rewrite (calc_cpu_percent_cold h w interval total bw total cw Hw Hi Hb Hr),
      percent_zero_total_delta, zero_division_after_conversion.
    reflexivity.
  - intros h w p interval info pc cw cp Hp Hi Hc Ht Hr.
    rewrite (calc_process_cpu_percent_warm h w p interval info pc _ cw cp
               Hp Hi Hc Ht Hr).
    cbv zeta. rewrite percent_zero_total_delta, zero_division_after_conversion.
    reflexivity.
Qed.

Lemma zero_total_delta_raises_witness :
  (Corelib.prev_cpu_work_time (globals Scenario.warmed_100_30) <> 0%Z /\
   read_total_cpu_time Scenario.host_idle 1 = Ret (100, 30)%Z /\
   Corelib.calc_cpu_percent 2 Scenario.host_idle Scenario.warmed_100_30 =
     (Raise ZeroDivisionError,
      World (Corelib.Globals 30 100 0 0 0%float)
            {| now := 2; naps := []; stdout := [] |})) /\
  (Corelib.prev_cpu_work_time (globals Scenario.warmed_huge_30) <> 0%Z /\
   read_total_cpu_time Scenario.host_huge 1 = Ret (10 ^ 309 + 70, 10 ^ 309)%Z /\
   Corelib.calc_cpu_percent 2 Scenario.host_huge Scenario.warmed_huge_30 =
     (Raise OverflowError,
      World (Corelib.Globals 30 (10 ^ 309 + 70) 0 0 0%float)
            {| now := 2; naps := []; stdout := [] |})).
Proof.
  assert (Hw : Corelib.prev_cpu_work_time (globals Scenario.warmed_100_30) <> 0%Z)
    by (simpl; lia).
  assert (Hr : read_total_cpu_time Scenario.host_idle
                 (now (sys Scenario.warmed_100_30)) =
               Ret (Corelib.prev_cpu_total_time (globals Scenario.warmed_100_30),
                    30%Z)) by reflexivity.
  assert (Hw' : Corelib.prev_cpu_work_time (globals Scenario.warmed_huge_30) <> 0%Z)
    by (simpl; lia).
  assert (Hr' : read_total_cpu_time Scenario.host_huge
                  (now (sys Scenario.warmed_huge_30)) =
                Ret (Corelib.prev_cpu_total_time (globals Scenario.warmed_huge_30),
                     (10 ^ 309)%Z)) by (vm_compute; reflexivity).
  split; (split; [assumption | split; [assumption |]]).
  - exact (eq_trans
             (proj1 zero_total_delta_raises Scenario.host_idle
                Scenario.warmed_100_30 2%Z 30%Z Hw Hr)
             eq_refl).
  - refine (eq_trans
              (proj1 zero_total_delta_raises Scenario.host_huge
                 Scenario.warmed_huge_30 2%Z (10 ^ 309)%Z Hw' Hr')
              _).
    vm_compute. reflexivity.
Defined.

(** C1 as stated fails: on an idle interval the call does not report
    anything, the [ZeroDivisionError] of the division escapes. *)
Lemma zero_total_delta_escapes :
  ~ (forall h (w : world Corelib.corelib_globals) interval cw,
       Corelib.prev_cpu_work_time (globals w) <> 0%Z ->
       read_total_cpu_time h (now (sys w)) =
         Ret (Corelib.prev_cpu_total_time (globals w), cw) ->
       is_raise (fst (Corelib.calc_cpu_percent interval h w)) = false).
Proof.
  intros H.
  specialize (H Scenario.host_idle Scenario.warmed_100_30 2%Z 30%Z).
  assert (Hw : Corelib.prev_cpu_work_time (globals Scenario.warmed_100_30) <> 0%Z)
    by (simpl; lia).
  specialize (H Hw eq_refl). vm_compute in H. discriminate H.
Qed.

(** ** Counters that went down *)

(** C2, as the code has it: no sampling function compares the fresh counter
    with the stored one.  With a previous sample stored and a fresh counter
    below it, [calc_cpu_percent], [calc_net_speed],
    [calc_process_cpu_percent] and [calc_process_cpu_io] rate the deltas
    with the ordinary formula, negative numerator included, and on returning
    store the fresh counters and time as the previous sample.  With
    (total 100, work 50) stored and (total 120, work 40) read, the call
    returns -50.0. *)
Theorem decreasing_counter_is_rated :
  (forall h (w : world Corelib.corelib_globals) interval ct cw,
     Corelib.prev_cpu_work_time (globals w) <> 0%Z ->
     read_total_cpu_time h (now (sys w)) = Ret (ct, cw) ->
     (cw < Corelib.prev_cpu_work_time (globals w))%Z ->
     let call := Corelib.calc_cpu_percent interval h w in
     fst call =
       RateCalculator.percent (Corelib.prev_cpu_work_time (globals w)) cw
         (Corelib.prev_cpu_total_time (globals w)) ct /\
     (is_raise (fst call) = false ->
      globals (snd call) = Corelib.set_prev_cpu ct cw (globals w))) /\
  (forall h (w : world Corelib.corelib_globals) interval cr cs,
     Corelib.prev_net_receive_byte (globals w) <> 0%Z ->
     read_net_dev_data h (now (sys w)) = Ret (cr, cs) ->
     (cr < Corelib.prev_net_receive_byte (globals w) \/
      cs < Corelib.prev_net_send_byte (globals w))%Z ->
     let call := Corelib.calc_net_speed interval h w in
     let t := wall_clock h (1 + now (sys w)) in
     fst call =
       both (RateCalculator.rate (Corelib.prev_net_receive_byte (globals w)) cr
               1024 (Corelib.prev_net_time (globals w)) t)
            (RateCalculator.rate (Corelib.prev_net_send_byte (globals w)) cs
               1024 (Corelib.prev_net_time (globals w)) t) /\
     (is_raise (fst call) = false ->
      globals (snd call) =
        Corelib.set_prev_net_time t (Corelib.set_prev_net_bytes cr cs (globals w)))) /\
  (forall h (w : world ProcessMonitor.all_process_info_t) p interval info pc ct cw cp,
     p ∈ ProcessMonitor.watch_pid (globals w) ->
     ProcessMonitor.process_info (globals w) !! p = Some info ->
     ProcessMonitor.prev_cpu_time info = Some pc ->
     read_total_cpu_time h (now (sys w)) = Ret (ct, cw) ->
     read_process_cpu_time h (1 + now (sys w)) p = Ret cp ->
     (cp < pc)%Z ->
     let call := ProcessMonitor.calc_process_cpu_percent p interval h w in
     fst call =
       RateCalculator.percent pc cp
         (ProcessMonitor.prev_cpu_total_time (globals w)) ct /\
     (is_raise (fst call) = false ->
      ProcessMonitor.process_info (globals (snd call)) !! p =
        Some (ProcessMonitor.ProcessInfo (ProcessMonitor.pre_time info) (Some cp)
                (ProcessMonitor.prev_io info)) /\
      ProcessMonitor.prev_cpu_total_time (globals (snd call)) = ct)) /\
  (forall h (w : world ProcessMonitor.all_process_info_t) p interval info pr pw cr cw,
     p ∈ ProcessMonitor.watch_pid (globals w) ->
     ProcessMonitor.process_info (globals w) !! p = Some info ->
     ProcessMonitor.prev_io info = Some (pr, pw) ->
     read_process_io h (1 + now (sys w)) p = Ret (cr, cw) ->
     (cr < pr \/ cw < pw)%Z ->
     let call := ProcessMonitor.calc_process_cpu_io p interval h w in
     let t := wall_clock h (now (sys w)) in
     fst call =
       rbind (both (RateCalculator.rate pr cr ProcessMonitor.mega
                      (ProcessMonitor.pre_time info) t)
                   (RateCalculator.rate pw cw ProcessMonitor.mega
                      (ProcessMonitor.pre_time info) t))
             (fun '(read_MBs, write_MBs) => Ret (round read_MBs 2, round write_MBs 2)) /\
     (is_raise (fst call) = false ->
      ProcessMonitor.process_info (globals (snd call)) !! p =
        Some (ProcessMonitor.ProcessInfo t (ProcessMonitor.prev_cpu_time info)
                (Some (cr, cw))))) /\
  Corelib.calc_cpu_percent 2 Scenario.host_reset Scenario.warmed_100_50 =
    (Ret (-50)%float,
     World (Corelib.Globals 40 120 0 0 0%float)
           {| now := 2; naps := []; stdout := [] |}).
Proof.
  split; [|split; [|split; [|split]]].
  - intros h w interval ct cw Hw Hr _ call. subst call.
    rewrite (calc_cpu_percent_warm h w interval ct cw Hw Hr).
    destruct (RateCalculator.percent _ _ _ _); simpl;
      (split; [reflexivity | intros; try reflexivity; discriminate]).
  - intros h w interval cr cs Hw Hr _ call t. subst call t.
    rewrite (calc_net_speed_warm h w interval cr cs Hw Hr). cbv zeta.
    destruct (both _ _); simpl;
      (split; [reflexivity | intros; try reflexivity; discriminate]).
  - intros h w p interval info pc ct cw cp Hp Hi Hc Ht Hr _ call. subst call.
    rewrite (calc_process_cpu_percent_warm h w p interval info pc ct cw cp
               Hp Hi Hc Ht Hr). cbv zeta.
    destruct (RateCalculator.percent _ _ _ _); simpl;
      (split; [reflexivity | intros; try discriminate]).
    split; [apply lookup_insert_eq | reflexivity].
  - intros h w p interval info pr pw cr cw Hp Hi Hc Hr _ call t. subst call t.
    rewrite (calc_process_cpu_io_warm h w p interval info pr pw cr cw
               Hp Hi Hc Hr). cbv zeta.
    destruct (both _ _) as [[? ?]|]; simpl;
      (split; [reflexivity | intros; try discriminate]).
    apply lookup_insert_eq.
  - vm_compute. reflexivity.
Qed.

Lemma decreasing_counter_is_rated_witness :
  Corelib.prev_cpu_work_time (globals Scenario.warmed_100_50) <> 0%Z /\
  read_total_cpu_time Scenario.host_reset 1 = Ret (120, 40)%Z /\
  (40 < Corelib.prev_cpu_work_time (globals Scenario.warmed_100_50))%Z /\
  fst (Corelib.calc_cpu_percent 2 Scenario.host_reset Scenario.warmed_100_50) =
    Ret (-50)%float.
Proof.
  assert (Hw : Corelib.prev_cpu_work_time (globals Scenario.warmed_100_50) <> 0%Z)
    by (simpl; lia).
  assert (Hr : read_total_cpu_time Scenario.host_reset
                 (now (sys Scenario.warmed_100_50)) = Ret (120, 40)%Z)
    by reflexivity.
  assert (Hlt : (40 < Corelib.prev_cpu_work_time (globals Scenario.warmed_100_50))%Z)
    by (simpl; lia).
  refine (conj Hw (conj Hr (conj Hlt _))).
  exact (eq_trans
           (proj1 (proj1 decreasing_counter_is_rated Scenario.host_reset
                     Scenario.warmed_100_50 2%Z 120%Z 40%Z Hw Hr Hlt))
           eq_refl).
Defined.

(** C2 as stated fails: with a fresh work time below the stored one the call
    returns a rate, and the rate is negative. *)
Lemma decreasing_counter_gives_negative_rate :
  ~ (forall h (w : world Corelib.corelib_globals) interval ct cw r,
       Corelib.prev_cpu_work_time (globals w) <> 0%Z ->
       read_total_cpu_time h (now (sys w)) = Ret (ct, cw) ->
       (cw < Corelib.prev_cpu_work_time (globals w))%Z ->
       fst (Corelib.calc_cpu_percent interval h w) = Ret r ->
       (r <? 0)%float = false).
Proof.
  intros H.
  specialize (H Scenario.host_reset Scenario.warmed_100_50 2%Z 120%Z 40%Z
                (-50)%float).
  assert (Hw : Corelib.prev_cpu_work_time (globals Scenario.warmed_100_50) <> 0%Z)
    by (simpl; lia).
  assert (Hlt : (40 < Corelib.prev_cpu_work_time (globals Scenario.warmed_100_50))%Z)
    by (simpl; lia).
  specialize (H Hw eq_refl Hlt eq_refl). vm_compute in H. discriminate H.
Qed.

(** ** Throughput units *)

(** C7: with a previous sample stored, [calc_net_speed] returns for each
    direction the byte delta divided by 1024 and by the elapsed seconds;
    [calc_process_cpu_io] returns, rounded to two decimals, the byte delta
    divided by 1000 squared (exactly 1000000.0) and by the elapsed seconds.
    A delta of 1,048,576 bytes over 1 second is exactly 1024.0 KB/s, a delta
    of 2,000,000 bytes over 2 seconds exactly 1.0 MB/s; scenarios C and D run
    from the initial state give these values. *)
Theorem throughput_unit_divisors :
  (forall h (w : world Corelib.corelib_globals) interval cr cs,
     Corelib.prev_net_receive_byte (globals w) <> 0%Z ->
     read_net_dev_data h (now (sys w)) = Ret (cr, cs) ->
     let t := wall_clock h (1 + now (sys w)) in
     fst (Corelib.calc_net_speed interval h w) =
       both (RateCalculator.rate (Corelib.prev_net_receive_byte (globals w)) cr
               1024 (Corelib.prev_net_time (globals w)) t)
            (RateCalculator.rate (Corelib.prev_net_send_byte (globals w)) cs
               1024 (Corelib.prev_net_time (globals w)) t)) /\
  (forall h (w : world ProcessMonitor.all_process_info_t) p interval info pr pw cr cw,
     p ∈ ProcessMonitor.watch_pid (globals w) ->
     ProcessMonitor.process_info (globals w) !! p = Some info ->
     ProcessMonitor.prev_io info = Some (pr, pw) ->
     read_process_io h (1 + now (sys w)) p = Ret (cr, cw) ->
     let t := wall_clock h (now (sys w)) in
     fst (ProcessMonitor.calc_process_cpu_io p interval h w) =
       rbind (both (RateCalculator.rate pr cr (1000 * 1000)
                      (ProcessMonitor.pre_time info) t)
                   (RateCalculator.rate pw cw (1000 * 1000)
                      (ProcessMonitor.pre_time info) t))
             (fun '(read_MBs, write_MBs) => Ret (round read_MBs 2, round write_MBs 2))) /\
  (1000 * 1000)%float = 1000000%float /\
  (forall prev curr t0 t1,
     (curr - prev = 1048576)%Z -> (t1 - t0)%float = 1%float ->
     RateCalculator.rate prev curr 1024 t0 t1 = Ret 1024%float) /\
  (forall prev curr t0 t1,
     (curr - prev = 2000000)%Z -> (t1 - t0)%float = 2%float ->
     rbind (RateCalculator.rate prev curr (1000 * 1000) t0 t1)
           (fun r => Ret (round r 2)) = Ret 1%float) /\
  fst (Corelib.calc_net_speed 2 Scenario.host_C Scenario.cold) =
    Ret (1024%float, 0%float) /\
  fst (ProcessMonitor.calc_process_cpu_io 1234 2 Scenario.host_D Scenario.fresh) =
    Ret (1%float, 0%float).
Proof.
  split; [|split; [|split; [|split; [|split; [|split]]]]].
  - intros h w interval cr cs Hw Hr t. subst t.
    rewrite (calc_net_speed_warm h w interval cr cs Hw Hr). cbv zeta.
    destruct (both _ _); reflexivity.
  - intros h w p interval info pr pw cr cw Hp Hi Hc Hr t. subst t.
    rewrite (calc_process_cpu_io_warm h w p interval info pr pw cr cw
               Hp Hi Hc Hr). cbv zeta.
    change ProcessMonitor.mega with (1000 * 1000)%float.
    destruct (both _ _) as [[? ?]|]; reflexivity.
  - reflexivity.
  - intros prev curr t0 t1 Hd Ht. unfold RateCalculator.rate.
    rewrite Hd, Ht. vm_compute. reflexivity.
  - intros prev curr t0 t1 Hd Ht. unfold RateCalculator.rate.
    rewrite Hd, Ht. vm_compute. reflexivity.
  - vm_compute. reflexivity.
  - vm_compute. reflexivity.
Qed.

Lemma throughput_unit_divisors_witness :
  (2097152 - 1048576 = 1048576)%Z /\
  (1001 - 1000)%float = 1%float /\
  RateCalculator.rate 1048576 2097152 1024 1000 1001 = Ret 1024%float.
Proof.
  assert (Hd : (2097152 - 1048576 = 1048576)%Z) by reflexivity.
  assert (Ht : (1001 - 1000)%float = 1%float) by reflexivity.
  refine (conj Hd (conj Ht _)).
  exact (proj1 (proj2 (proj2 (proj2 throughput_unit_divisors)))
           1048576%Z 2097152%Z 1000%float 1001%float Hd Ht).
Defined.

(** ** The capture engine is not installed *)

(** C3, as the code has it: when libnethogs is not known to be installed and
    the probe finds no library file, [get_process_net_info] prints
    "Error : libnethogs is not installed!" and calls [exit(-1)], that is, it
    raises [SystemExit] with status -1.  It returns no value, empty or
    other, and leaves the globals as they were: the pid is not added to the
    watch set and no monitor thread is created. *)
Theorem get_process_net_info_exits_when_not_installed :
  forall h (w : world ProcessMonitor.all_process_info_t) p,
    ProcessMonitor.libnethogs_thread_install (globals w) = false ->
    libnethogs_is_file h (now (sys w)) = false ->
    ProcessMonitor.get_process_net_info p h w =
      (Raise (SystemExit (-1)),
       World (globals w)
             (after 1 [] ["Error : libnethogs is not installed!"%string] (sys w))).
Proof.
  intros h [d s] p Hinst Hfile. destruct d; simpl in *. subst.
  unfold ProcessMonitor.get_process_net_info, ProcessMonitor.is_libnethogs_install,
    bind, get, modify, observe, print, raise, ret; simpl.
  rewrite Hfile. reflexivity.
Qed.

Lemma get_process_net_info_exits_when_not_installed_witness :
  ProcessMonitor.libnethogs_thread_install (globals Scenario.fresh) = false /\
  libnethogs_is_file Scenario.bare 0 = false /\
  ProcessMonitor.get_process_net_info 1234 Scenario.bare Scenario.fresh =
    (Raise (SystemExit (-1)),
     World ProcessMonitor.all_process_info_dict
           {| now := 1; naps := [];
              stdout := ["Error : libnethogs is not installed!"%string] |}).
Proof.
  refine (conj eq_refl (conj eq_refl _)).
  exact (get_process_net_info_exits_when_not_installed Scenario.bare
           Scenario.fresh 1234%Z eq_refl eq_refl).
Defined.

(** C3 as stated fails: without the library the request ends the program
    through [SystemExit]. *)
Lemma get_process_net_info_terminates_process :
  ~ (forall h (w : world ProcessMonitor.all_process_info_t) p,
       ProcessMonitor.libnethogs_thread_install (globals w) = false ->
       libnethogs_is_file h (now (sys w)) = false ->
       forall code,
         fst (ProcessMonitor.get_process_net_info p h w) <> Raise (SystemExit code)).
Proof.
  intros H.
  apply (H Scenario.bare Scenario.fresh 1234%Z eq_refl eq_refl (-1)%Z).
  vm_compute. reflexivity.
Qed.

(** ** A watched process that has exited *)

Lemma read_process_cpu_time_gone h t p :
  proc_pid_stat h t p = OpenFails ENOENT ->
  read_process_cpu_time h t p = Raise (ProcessNotFound p).
Proof.
  intros Hgone.
  unfold read_process_cpu_time, ProcessMonitor.get_process_cpu_time,
    wrap_process_exceptions, open_file, observe, bind, raise, at_step; simpl.
  rewrite Hgone. reflexivity.
Qed.

(** C4, as the code has it: nothing ever leaves the watch set.  When the
    counter file of a watched pid is gone at the read,
    [calc_process_cpu_percent] raises [ProcessNotFound] to its caller and
    keeps the pid in "watch_pid", its entry in "process_info" and its record
    in "libnethogs_data"; a later [get_process_net_info] for the pid, with
    the monitor running, returns that same stored record. *)
Theorem exited_process_stays_watched :
  forall h (w : world ProcessMonitor.all_process_info_t) p interval info ct cw,
    p ∈ ProcessMonitor.watch_pid (globals w) ->
    ProcessMonitor.process_info (globals w) !! p = Some info ->
    read_total_cpu_time h (now (sys w)) = Ret (ct, cw) ->
    proc_pid_stat h (1 + now (sys w)) p = OpenFails ENOENT ->
    let call := ProcessMonitor.calc_process_cpu_percent p interval h w in
    fst call = Raise (ProcessNotFound p) /\
    ProcessMonitor.watch_pid (globals (snd call)) =
      ProcessMonitor.watch_pid (globals w) /\
    ProcessMonitor.process_info (globals (snd call)) =
      ProcessMonitor.process_info (globals w) /\
    ProcessMonitor.libnethogs_data (globals (snd call)) =
      ProcessMonitor.libnethogs_data (globals w) /\
    (forall h' s' th,
       ProcessMonitor.libnethogs_thread_install (globals w) = true ->
       ProcessMonitor.libnethogs_thread (globals w) = Some th ->
       fst (ProcessMonitor.get_process_net_info p h' (World (globals (snd call)) s')) =
         Ret (ProcessMonitor.libnethogs_data (globals w) !! p)).
Proof.
  intros h w p interval info ct cw Hp Hi Ht Hgone call. subst call.
  rewrite (calc_process_cpu_percent_lookup_raises h w p interval info ct cw
             (ProcessNotFound p) Hp Hi Ht (read_process_cpu_time_gone _ _ _ Hgone)).
  cbn [fst snd globals].
  assert (Hframe :
    forall d', d' = match ProcessMonitor.prev_cpu_time info with
                    | Some _ => globals w
                    | None => ProcessMonitor.set_prev_cpu_total_time ct (globals w)
                    end ->
    ProcessMonitor.watch_pid d' = ProcessMonitor.watch_pid (globals w) /\
    ProcessMonitor.process_info d' = ProcessMonitor.process_info (globals w) /\
    ProcessMonitor.libnethogs_data d' = ProcessMonitor.libnethogs_data (globals w) /\
    ProcessMonitor.libnethogs_thread_install d' =
      ProcessMonitor.libnethogs_thread_install (globals w) /\
    ProcessMonitor.libnethogs_thread d' = ProcessMonitor.libnethogs_thread (globals w)).
  { intros d' ->. destruct (ProcessMonitor.prev_cpu_time info); repeat split. }
  destruct (Hframe _ eq_refl) as (Hw & Hpi & Hnd & Hinst & Hth).
  repeat split; try assumption.
  intros h' s' th Hi' Ht'.
  rewrite (get_process_net_info_running h' _ p th).
  - cbn [fst globals]. rewrite Hnd. reflexivity.
  - cbn [globals]. rewrite Hinst. exact Hi'.
  - cbn [globals]. rewrite Hth. exact Ht'.
Qed.

Lemma exited_process_stays_watched_witness :
  1234%Z ∈ ProcessMonitor.watch_pid (globals Scenario.world_E) /\
  ProcessMonitor.process_info (globals Scenario.world_E) !! 1234%Z =
    Some (ProcessMonitor.ProcessInfo 0%float (Some 54%Z) None) /\
  read_total_cpu_time Scenario.host_E 9 = Ret (120, 42)%Z /\
  proc_pid_stat Scenario.host_E 10 1234 = OpenFails ENOENT /\
  fst (ProcessMonitor.calc_process_cpu_percent 1234 2 Scenario.host_E Scenario.world_E) =
    Raise (ProcessNotFound 1234).
Proof.
  assert (Hp : 1234%Z ∈ ProcessMonitor.watch_pid (globals Scenario.world_E))
    by (apply (bool_decide_unpack _); vm_compute; exact I).
  assert (Hi : ProcessMonitor.process_info (globals Scenario.world_E) !! 1234%Z =
               Some (ProcessMonitor.ProcessInfo 0%float (Some 54%Z) None))
    by (vm_compute; reflexivity).
  assert (Ht : read_total_cpu_time Scenario.host_E (now (sys Scenario.world_E)) =
               Ret (120, 42)%Z) by (vm_compute; reflexivity).
  assert (Hg : proc_pid_stat Scenario.host_E (1 + now (sys Scenario.world_E)) 1234 =
               OpenFails ENOENT) by (vm_compute; reflexivity).
  refine (conj Hp (conj Hi (conj Ht (conj Hg _)))).
  exact (proj1 (exited_process_stays_watched Scenario.host_E Scenario.world_E
                  1234%Z 2%Z _ 120%Z 42%Z Hp Hi Ht Hg)).
Defined.

(** C4 as stated fails: in scenario E the pid is still watched after the
    failed lookup, and the traffic request returns the record stored before
    the process exited. *)
Lemma exited_process_traffic_is_stale :
  ~ (forall h (w : world ProcessMonitor.all_process_info_t) p interval,
       p ∈ ProcessMonitor.watch_pid (globals w) ->
       proc_pid_stat h (1 + now (sys w)) p = OpenFails ENOENT ->
       let w' := snd (ProcessMonitor.calc_process_cpu_percent p interval h w) in
       (p ∉ ProcessMonitor.watch_pid (globals w')) /\
       ProcessMonitor.process_info (globals w') !! p = None /\
       fst (ProcessMonitor.get_process_net_info p h w') = Ret None).
Proof.
  intros H.
  assert (Hp : 1234%Z ∈ ProcessMonitor.watch_pid (globals Scenario.world_E))
    by (apply (bool_decide_unpack _); vm_compute; exact I).
  assert (Hg : proc_pid_stat Scenario.host_E (1 + now (sys Scenario.world_E)) 1234 =
               OpenFails ENOENT) by (vm_compute; reflexivity).
  destruct (H Scenario.host_E Scenario.world_E 1234%Z 2%Z Hp Hg) as (_ & _ & Hnet).
  vm_compute in Hnet. discriminate Hnet.
Qed.

(** ** Two watched processes *)

Section OtherPid.
Import ProcessMonitor.
Variables (p q : Z) (Hpq : p <> q).
Variables (entry : option process_info_t) (watched : Prop).

(** What a call for [q] must not touch: the entry of [p] and whether [p]
    is watched. *)
Let untouched (d : all_process_info_t) : Prop :=
  process_info d !! p = entry /\ (p ∈ watch_pid d <-> watched).

Lemma set_prev_cpu_total_time_untouched t d :
  untouched d -> untouched (set_prev_cpu_total_time t d).
Proof. intros H. exact H. Qed.

Lemma insert_process_info_untouched x d :
  untouched d -> untouched (set_process_info (<[q := x]> (process_info d)) d).
Proof.
  intros [He Hw]. split; [|exact Hw].
  simpl. rewrite lookup_insert_ne by congruence. exact He.
Qed.

Lemma add_watch_pid_untouched d :
  untouched d -> untouched (set_watch_pid ({[q]} ∪ watch_pid d) d).
Proof.
  intros [He Hw]. split; [exact He|].
  simpl. rewrite <- Hw, elem_of_union, elem_of_singleton.
  split; [intros [Heq|Hin]; [contradiction | exact Hin] | intros Hin; right; exact Hin].
Qed.

Lemma watch_preserves : preserves untouched (watch q).
Proof.
  unfold watch. repeat preserves_step.
  - apply preserves_modify, add_watch_pid_untouched.
  - apply preserves_modify, insert_process_info_untouched.
Qed.

Lemma the_process_info_preserves : preserves untouched (the_process_info q).
Proof. unfold the_process_info. repeat preserves_step. Qed.

Lemma update_process_info_preserves f :
  preserves untouched (update_process_info q f).
Proof.
  unfold update_process_info.
  apply preserves_bind; [apply the_process_info_preserves | intros info].
  apply preserves_modify, insert_process_info_untouched.
Qed.

Lemma get_total_cpu_time_preserves : preserves untouched get_total_cpu_time.
Proof.
  unfold get_total_cpu_time, Corelib.get_total_cpu_time. repeat preserves_step.
Qed.

Lemma get_process_cpu_time_preserves : preserves untouched (get_process_cpu_time q).
Proof. unfold get_process_cpu_time. repeat preserves_step. Qed.

Lemma calc_process_cpu_percent_preserves interval :
  preserves untouched (calc_process_cpu_percent q interval).
Proof.
  unfold calc_process_cpu_percent.
  repeat first
    [ apply watch_preserves
    | apply the_process_info_preserves
    | apply update_process_info_preserves
    | apply get_total_cpu_time_preserves
    | apply get_process_cpu_time_preserves
    | apply preserves_modify, set_prev_cpu_total_time_untouched
    | preserves_step ].
Qed.
End OtherPid.

(** C5, as the code has it: a call [calc_process_cpu_percent(q)] leaves the
    "process_info" entry of every other pid [p] (its "prev_cpu_time",
    "prev_io" and "pre_time") and [p]'s membership of the watch set as they
    were, whatever the call does; but the total-CPU-time baseline is the one
    global "prev_cpu_total_time", and a call for [q] that returns overwrites
    it with the total it read. *)
Theorem other_pid_entry_kept_shared_total_overwritten :
  (forall h (w : world ProcessMonitor.all_process_info_t) p q interval,
     p <> q ->
     let w' := snd (ProcessMonitor.calc_process_cpu_percent q interval h w) in
     ProcessMonitor.process_info (globals w') !! p =
       ProcessMonitor.process_info (globals w) !! p /\
     (p ∈ ProcessMonitor.watch_pid (globals w') <->
      p ∈ ProcessMonitor.watch_pid (globals w))) /\
  (forall h (w : world ProcessMonitor.all_process_info_t) q interval info pc ct cw cp,
     q ∈ ProcessMonitor.watch_pid (globals w) ->
     ProcessMonitor.process_info (globals w) !! q = Some info ->
     ProcessMonitor.prev_cpu_time info = Some pc ->
     read_total_cpu_time h (now (sys w)) = Ret (ct, cw) ->
     read_process_cpu_time h (1 + now (sys w)) q = Ret cp ->
     let call := ProcessMonitor.calc_process_cpu_percent q interval h w in
     is_raise (fst call) = false ->
     ProcessMonitor.prev_cpu_total_time (globals (snd call)) = ct).
Proof.
  split.
  - intros h w p q interval Hpq w'. subst w'.
    exact (calc_process_cpu_percent_preserves p q Hpq
             (ProcessMonitor.process_info (globals w) !! p)
             (p ∈ ProcessMonitor.watch_pid (globals w))
             interval h w (conj eq_refl (iff_refl _))).
  - intros h w q interval info pc ct cw cp Hq Hi Hc Ht Hr call. subst call.
    rewrite (calc_process_cpu_percent_warm h w q interval info pc ct cw cp
               Hq Hi Hc Ht Hr). cbv zeta.
    destruct (RateCalculator.percent _ _ _ _); simpl;
      [reflexivity | discriminate].
Qed.

Lemma other_pid_entry_kept_shared_total_overwritten_witness :
  (1 <> 2)%Z /\
  ProcessMonitor.process_info
    (globals (snd (ProcessMonitor.calc_process_cpu_percent 2 2 Scenario.host_two
                     Scenario.world_two))) !! 1%Z =
    ProcessMonitor.process_info (globals Scenario.world_two) !! 1%Z.
Proof.
  assert (Hpq : (1 <> 2)%Z) by lia.
  refine (conj Hpq _).
  exact (proj1 (proj1 other_pid_entry_kept_shared_total_overwritten
                  Scenario.host_two Scenario.world_two 1%Z 2%Z 2%Z Hpq)).
Defined.

(** C5 as stated fails: with pids 1 and 2 both watched and sampled, a call
    for pid 2 moves the total-CPU-time baseline of pid 1's next percentage
    from 200 to 260. *)
Lemma other_pid_total_baseline_changes :
  ~ (forall h (w : world ProcessMonitor.all_process_info_t) p q interval,
       p <> q ->
       p ∈ ProcessMonitor.watch_pid (globals w) ->
       q ∈ ProcessMonitor.watch_pid (globals w) ->
       previous_cpu_sample
         (globals (snd (ProcessMonitor.calc_process_cpu_percent q interval h w))) p =
       previous_cpu_sample (globals w) p).
Proof.
  intros H.
  assert (Hpq : (1 <> 2)%Z) by lia.
  assert (H1 : 1%Z ∈ ProcessMonitor.watch_pid (globals Scenario.world_two))
    by (apply (bool_decide_unpack _); vm_compute; exact I).
  assert (H2 : 2%Z ∈ ProcessMonitor.watch_pid (globals Scenario.world_two))
    by (apply (bool_decide_unpack _); vm_compute; exact I).
  specialize (H Scenario.host_two Scenario.world_two 1%Z 2%Z 2%Z Hpq H1 H2).
  vm_compute in H. discriminate H.
Qed.


(** * Further properties of the code *)

(** ** Log files *)

Lemma get_log_head_loop_firstn n log_f res line_count :
  ProcessMonitor.get_log_head_loop n log_f res line_count =
  List.app res (firstn (Z.to_nat (Z.max 1 (n - line_count))) log_f).
Proof.
  revert res line_count.
  induction log_f as [|line rest IH]; intros res c; simpl.
  - rewrite firstn_nil, app_nil_r. reflexivity.
  - destruct (Z.geb_spec (c + 1) n) as [Hge|Hlt].
    + replace (Z.max 1 (n - c)) with 1%Z by lia. reflexivity.
    + rewrite IH.
      replace (Z.to_nat (Z.max 1 (n - c)))
        with (S (Z.to_nat (Z.max 1 (n - (c + 1))))) by lia.
      simpl. rewrite <- app_assoc. reflexivity.
Qed.

(** [get_log_head] returns the first [n] lines of the file, all of them when
    the file has fewer, and the first line when [n] is 0 or negative: the
    count is tested after a line has been taken. *)
Theorem get_log_head_first_lines :
  (forall log_f n,
     ProcessMonitor.get_log_head log_f n = firstn (Z.to_nat (Z.max 1 n)) log_f) /\
  (forall log_f n,
     (1 <= n)%Z ->
     List.length (ProcessMonitor.get_log_head log_f n) =
       Nat.min (Z.to_nat n) (List.length log_f)) /\
  (forall line rest n,
     (n <= 0)%Z -> ProcessMonitor.get_log_head (line :: rest) n = [line]).
Proof.
  assert (Hfirst : forall log_f n,
            ProcessMonitor.get_log_head log_f n =
            firstn (Z.to_nat (Z.max 1 n)) log_f).
  { intros log_f n. unfold ProcessMonitor.get_log_head.
    rewrite get_log_head_loop_firstn, Z.sub_0_r. reflexivity. }
  split; [exact Hfirst | split].
  - intros log_f n Hn. rewrite Hfirst, length_firstn.
    replace (Z.max 1 n) with n by lia. reflexivity.
  - intros line rest n Hn. rewrite Hfirst.
    replace (Z.max 1 n) with 1%Z by lia. reflexivity.
Qed.

Lemma get_log_head_first_lines_witness :
  (1 <= 2)%Z /\
  List.length (ProcessMonitor.get_log_head ["a"; "b"; "c"]%string 2) = 2.
Proof.
  assert (Hn : (1 <= 2)%Z) by lia.
  refine (conj Hn _).
  exact (proj1 (proj2 get_log_head_first_lines) ["a"; "b"; "c"]%string 2%Z Hn).
Defined.

Lemma get_log_keyword_lines_loop_elem keyword log_f result n k s :
  (k, s) ∈ ProcessMonitor.get_log_keyword_lines_loop keyword log_f result n <->
  (k, s) ∈ result \/
  exists i line,
    log_f !! i = Some line /\ k = (n + Z.of_nat i)%Z /\
    contains keyword line = true /\ s = strip line.
Proof.
  revert result n.
  induction log_f as [|line rest IH]; intros result n; simpl.
  - split; [intros H; left; exact H |].
    intros [H | (i & l & Hl & _)]; [exact H | discriminate Hl].
  - rewrite IH. split.
    + intros [Hin | (i & l & Hl & Hk & Hc & Hs)].
      * destruct (contains keyword line) eqn:Hc; [|left; exact Hin].
        apply elem_of_app in Hin. destruct Hin as [Hin | Hin]; [left; exact Hin|].
        apply list_elem_of_singleton in Hin. injection Hin as -> ->.
        right. exists 0%nat, line. repeat split; [lia | exact Hc].
      * right. exists (S i), l. repeat split; [exact Hl | lia | exact Hc | exact Hs].
    + intros [Hin | (i & l & Hl & Hk & Hc & Hs)].
      * left. destruct (contains keyword line); [|exact Hin].
        apply elem_of_app. left. exact Hin.
      * destruct i as [|i]; simpl in Hl.
        -- injection Hl as ->. left. rewrite Hc. apply elem_of_app. right.
           apply list_elem_of_singleton. subst. f_equal. lia.
        -- right. exists i, l. repeat split; [exact Hl | lia | exact Hc | exact Hs].
Qed.

(** [get_log_keyword_lines] returns exactly the pairs (line number counted
    from 1, stripped line) of the lines in which the keyword occurs. *)
Theorem get_log_keyword_lines_exact :
  forall log_f keyword k s,
    (k, s) ∈ ProcessMonitor.get_log_keyword_lines log_f keyword <->
    exists i line,
      log_f !! i = Some line /\ k = (Z.of_nat i + 1)%Z /\
      contains keyword line = true /\ s = strip line.
Proof.
  intros log_f keyword k s. unfold ProcessMonitor.get_log_keyword_lines.
  rewrite get_log_keyword_lines_loop_elem. split.
  - intros [Hin | (i & l & Hl & Hk & Hc & Hs)].
    + apply elem_of_nil in Hin. contradiction.
    + exists i, l. repeat split; [exact Hl | lia | exact Hc | exact Hs].
  - intros (i & l & Hl & Hk & Hc & Hs). right.
    exists i, l. repeat split; [exact Hl | lia | exact Hc | exact Hs].
Qed.

(** ** System scope: the two samplers side by side *)

(** [calc_cpu_percent] never touches the stored network sample and
    [calc_net_speed] never touches the stored CPU sample, whether the call
    returns or raises. *)
Theorem system_samples_are_independent :
  (forall h (w : world Corelib.corelib_globals) interval,
     let g' := globals (snd (Corelib.calc_cpu_percent interval h w)) in
     Corelib.prev_net_receive_byte g' = Corelib.prev_net_receive_byte (globals w) /\
     Corelib.prev_net_send_byte g' = Corelib.prev_net_send_byte (globals w) /\
     Corelib.prev_net_time g' = Corelib.prev_net_time (globals w)) /\
  (forall h (w : world Corelib.corelib_globals) interval,
     let g' := globals (snd (Corelib.calc_net_speed interval h w)) in
     Corelib.prev_cpu_work_time g' = Corelib.prev_cpu_work_time (globals w) /\
     Corelib.prev_cpu_total_time g' = Corelib.prev_cpu_total_time (globals w)).
Proof.
  split.
  - intros h w interval.
    set (I := fun g =>
           Corelib.prev_net_receive_byte g = Corelib.prev_net_receive_byte (globals w) /\
           Corelib.prev_net_send_byte g = Corelib.prev_net_send_byte (globals w) /\
           Corelib.prev_net_time g = Corelib.prev_net_time (globals w)).
    assert (Hp : preserves I (Corelib.calc_cpu_percent interval)).
    { unfold Corelib.calc_cpu_percent, Corelib.get_total_cpu_time.
      repeat first [ preserves_step
                   | apply preserves_modify; intros g Hg; exact Hg ]. }
    apply (Hp h w). repeat split.
  - intros h w interval.
    set (I := fun g =>
           Corelib.prev_cpu_work_time g = Corelib.prev_cpu_work_time (globals w) /\
           Corelib.prev_cpu_total_time g = Corelib.prev_cpu_total_time (globals w)).
    assert (Hp : preserves I (Corelib.calc_net_speed interval)).
    { unfold Corelib.calc_net_speed, Corelib.get_net_dev_data, time.
      repeat first [ preserves_step
                   | apply preserves_modify; intros g Hg; exact Hg ]. }
    apply (Hp h w). repeat split.
Qed.

(** Successive calls of [calc_cpu_percent] chain: when a call with a stored
    sample returns and the work time it read is not 0, the next call rates
    its own read against the counters of that call, without sleeping. *)
Theorem calc_cpu_percent_successive_calls :
  forall h (w : world Corelib.corelib_globals) interval ct1 cw1 ct2 cw2,
    Corelib.prev_cpu_work_time (globals w) <> 0%Z ->
    read_total_cpu_time h (now (sys w)) = Ret (ct1, cw1) ->
    is_raise (RateCalculator.percent (Corelib.prev_cpu_work_time (globals w)) cw1
                (Corelib.prev_cpu_total_time (globals w)) ct1) = false ->
    cw1 <> 0%Z ->
    read_total_cpu_time h (1 + now (sys w)) = Ret (ct2, cw2) ->
    let first := Corelib.calc_cpu_percent interval h w in
    let second := Corelib.calc_cpu_percent interval h (snd first) in
    fst second = RateCalculator.percent cw1 cw2 ct1 ct2 /\
    naps (sys (snd second)) = naps (sys w) /\
    now (sys (snd second)) = (2 + now (sys w))%nat.
Proof.
  intros h w interval ct1 cw1 ct2 cw2 Hw Hr1 Hret Hcw Hr2 first second.
  subst second first.
  rewrite (calc_cpu_percent_warm h w interval ct1 cw1 Hw Hr1).
  destruct (RateCalculator.percent _ cw1 _ ct1) as [r1|e]; [|discriminate Hret].
  cbn [snd].
  rewrite (calc_cpu_percent_warm h _ interval ct2 cw2); [| exact Hcw | exact Hr2].
  cbn [globals Corelib.set_prev_cpu Corelib.prev_cpu_work_time
       Corelib.prev_cpu_total_time].
  destruct (RateCalculator.percent cw1 cw2 ct1 ct2); repeat split.
Qed.

Lemma calc_cpu_percent_successive_calls_witness :
  Corelib.prev_cpu_work_time (globals Scenario.warmed_100_30) <> 0%Z /\
  read_total_cpu_time Scenario.host_A 1 = Ret (120, 42)%Z /\
  is_raise (RateCalculator.percent 30 42 100 120) = false /\
  (42 <> 0)%Z /\
  read_total_cpu_time Scenario.host_A 2 = Ret (120, 42)%Z /\
  fst (Corelib.calc_cpu_percent 2 Scenario.host_A
         (snd (Corelib.calc_cpu_percent 2 Scenario.host_A Scenario.warmed_100_30))) =
    RateCalculator.percent 42 42 120 120.
Proof.
  assert (Hw : Corelib.prev_cpu_work_time (globals Scenario.warmed_100_30) <> 0%Z)
    by (simpl; lia).
  assert (Hr1 : read_total_cpu_time Scenario.host_A
                  (now (sys Scenario.warmed_100_30)) = Ret (120, 42)%Z)
    by reflexivity.
  assert (Hret : is_raise (RateCalculator.percent
                   (Corelib.prev_cpu_work_time (globals Scenario.warmed_100_30)) 42
                   (Corelib.prev_cpu_total_time (globals Scenario.warmed_100_30))
                   120) = false) by reflexivity.
  assert (Hcw : (42 <> 0)%Z) by lia.
  assert (Hr2 : read_total_cpu_time Scenario.host_A
                  (1 + now (sys Scenario.warmed_100_30)) = Ret (120, 42)%Z)
    by reflexivity.
  refine (conj Hw (conj Hr1 (conj Hret (conj Hcw (conj Hr2 _))))).
  exact (proj1 (calc_cpu_percent_successive_calls Scenario.host_A
                  Scenario.warmed_100_30 2%Z 120%Z 42%Z 120%Z 42%Z
                  Hw Hr1 Hret Hcw Hr2)).
Defined.

(** ** Zero elapsed time *)

Lemma rate_zero_elapsed prevBytes currBytes unitDivisor prevTime currTime :
  is_zero unitDivisor = false ->
  is_zero (currTime - prevTime) = true ->
  RateCalculator.rate prevBytes currBytes unitDivisor prevTime currTime =
  rbind (float_of_int (currBytes - prevBytes)) (fun _ => Raise ZeroDivisionError).
Proof.
  intros Hu Hz. unfold RateCalculator.rate, float_div. rewrite Hu, Hz.
  destruct (float_of_int _); reflexivity.
Qed.

(** When the clock has not advanced since the stored sample (the difference
    of the two [time()] values is zero), [calc_net_speed] and
    [calc_process_cpu_io] return no value and leave the stored sample as it
    was: the conversion of the received (read) byte delta raises
    [OverflowError] when the delta is too large for a float, and otherwise
    the division by the elapsed time raises [ZeroDivisionError]. *)
Theorem zero_elapsed_time_raises :
  (forall h (w : world Corelib.corelib_globals) interval cr cs,
     Corelib.prev_net_receive_byte (globals w) <> 0%Z ->
     read_net_dev_data h (now (sys w)) = Ret (cr, cs) ->
     is_zero (wall_clock h (1 + now (sys w)) - Corelib.prev_net_time (globals w)) = true ->
     Corelib.calc_net_speed interval h w =
       (Raise (if is_raise (float_of_int
                              (cr - Corelib.prev_net_receive_byte (globals w)))
               then OverflowError else ZeroDivisionError),
        World (globals w) (after 2 [] [] (sys w)))) /\
  (forall h (w : world ProcessMonitor.all_process_info_t) p interval info pr pw cr cw,
     p ∈ ProcessMonitor.watch_pid (globals w) ->
     ProcessMonitor.process_info (globals w) !! p = Some info ->
     ProcessMonitor.prev_io info = Some (pr, pw) ->
     read_process_io h (1 + now (sys w)) p = Ret (cr, cw) ->
     is_zero (wall_clock h (now (sys w)) - ProcessMonitor.pre_time info) = true ->
     ProcessMonitor.calc_process_cpu_io p interval h w =
       (Raise (if is_raise (float_of_int (cr - pr))
               then OverflowError else ZeroDivisionError),
        World (globals w) (after 2 [] [] (sys w)))).
Proof.
  split.
  - intros h w interval cr cs Hw Hr Hz.
    rewrite (calc_net_speed_warm h w interval cr cs Hw Hr). cbv zeta.
    unfold both. rewrite (rate_zero_elapsed _ cr) by (reflexivity || exact Hz).
    rewrite zero_division_after_conversion.
    destruct (is_raise (float_of_int (cr - _))); reflexivity.
  - intros h w p interval info pr pw cr cw Hp Hi Hc Hr Hz.
    rewrite (calc_process_cpu_io_warm h w p interval info pr pw cr cw Hp Hi Hc Hr).
    cbv zeta. unfold both.
    rewrite (rate_zero_elapsed pr cr) by (reflexivity || exact Hz).
    rewrite zero_division_after_conversion.
    destruct (is_raise (float_of_int (cr - pr))); reflexivity.
Qed.

Lemma zero_elapsed_time_raises_witness :
  let w := World (Corelib.Globals 0 0 5 5 0%float) io0 in
  (Corelib.prev_net_receive_byte (globals w) <> 0%Z /\
   read_net_dev_data Scenario.host_wlo1 0 = Ret (1215645, 1782404)%Z /\
   is_zero (wall_clock Scenario.host_wlo1 1 - Corelib.prev_net_time (globals w)) = true /\
   Corelib.calc_net_speed 2 Scenario.host_wlo1 w =
     (Raise ZeroDivisionError, World (globals w) (after 2 [] [] (sys w)))) /\
  (read_net_dev_data Scenario.host_huge_net 0 = Ret (10 ^ 309, 1782404)%Z /\
   is_zero (wall_clock Scenario.host_huge_net 1 - Corelib.prev_net_time (globals w)) = true /\
   Corelib.calc_net_speed 2 Scenario.host_huge_net w =
     (Raise OverflowError, World (globals w) (after 2 [] [] (sys w)))).
Proof.
  intros w.
  assert (Hw : Corelib.prev_net_receive_byte (globals w) <> 0%Z) by (simpl; lia).
  assert (Hr : read_net_dev_data Scenario.host_wlo1 (now (sys w)) =
               Ret (1215645, 1782404)%Z) by (vm_compute; reflexivity).
  assert (Hz : is_zero (wall_clock Scenario.host_wlo1 (1 + now (sys w)) -
                        Corelib.prev_net_time (globals w)) = true) by reflexivity.
  assert (Hr' : read_net_dev_data Scenario.host_huge_net (now (sys w)) =
                Ret (10 ^ 309, 1782404)%Z) by (vm_compute; reflexivity).
  assert (Hz' : is_zero (wall_clock Scenario.host_huge_net (1 + now (sys w)) -
                         Corelib.prev_net_time (globals w)) = true) by reflexivity.
  split.
  - refine (conj Hw (conj Hr (conj Hz _))).
    exact (eq_trans
             (proj1 zero_elapsed_time_raises Scenario.host_wlo1 w 2%Z
                1215645%Z 1782404%Z Hw Hr Hz)
             eq_refl).
  - refine (conj Hr' (conj Hz' _)).
    refine (eq_trans
              (proj1 zero_elapsed_time_raises Scenario.host_huge_net w 2%Z
                 (10 ^ 309)%Z 1782404%Z Hw Hr' Hz')
              _).
    vm_compute. reflexivity.
Defined.

(** ** The device table *)

Lemma net_dev_line_adds acc line :
  Corelib.net_dev_line acc line =
  rbind (Corelib.net_dev_line (0, 0)%Z line) (fun d =>
  Ret (fst acc + fst d, snd acc + snd d)%Z).
Proof.
  unfold Corelib.net_dev_line.
  destruct (negb _ && _); simpl.
  - repeat match goal with
           | |- context [rbind ?r _] =>
               lazymatch r with
               | context [rbind] => fail
               | _ => destruct r; simpl; try reflexivity
               end
           end.
  - destruct acc as [a b]. simpl. rewrite !Z.add_0_r. reflexivity.
Qed.

Lemma net_dev_lines_cons acc line rest r :
  Corelib.net_dev_lines acc (line :: rest) = Ret r <->
  exists d, Corelib.net_dev_line (0, 0)%Z line = Ret d /\
            Corelib.net_dev_lines (fst acc + fst d, snd acc + snd d)%Z rest = Ret r.
Proof.
  simpl. rewrite net_dev_line_adds.
  destruct (Corelib.net_dev_line (0, 0)%Z line) as [d|e]; simpl.
  - split; [intros H; exists d; split; [reflexivity | exact H] |].
    intros (d' & Hd & H). injection Hd as <-. exact H.
  - split; [discriminate | intros (d & Hd & _); discriminate Hd].
Qed.

(** The sums [get_net_dev_data] returns do not depend on the order of the
    lines of /proc/net/dev: when it returns on a table, it returns the same
    pair on every rearrangement of the table's lines. *)
Theorem get_net_dev_data_order_independent :
  forall h h' t t' table table' r,
    proc_net_dev h t = Opened table ->
    proc_net_dev h' t' = Opened table' ->
    Permutation table table' ->
    read_net_dev_data h t = Ret r ->
    read_net_dev_data h' t' = Ret r.
Proof.
  intros h h' t t' table table' r Ht Ht' Hperm.
  unfold read_net_dev_data, Corelib.get_net_dev_data, open_file, observe, bind,
    lift, ret, at_step; simpl.
  rewrite Ht, Ht'; simpl. clear Ht Ht'.
  generalize (0, 0)%Z as acc. revert r.
  induction Hperm as [|x l l' _ IH|x y l|l l' l'' _ IH1 _ IH2]; intros r acc.
  - intros H; exact H.
  - rewrite !net_dev_lines_cons. intros (d & Hd & H).
    exists d. split; [exact Hd | apply IH, H].
  - rewrite !net_dev_lines_cons. intros (dy & Hdy & H).
    apply net_dev_lines_cons in H. destruct H as (dx & Hdx & H).
    exists dx. split; [exact Hdx|].
    apply net_dev_lines_cons. exists dy. split; [exact Hdy|].
    simpl in *.
    replace (fst acc + fst dx + fst dy)%Z with (fst acc + fst dy + fst dx)%Z by lia.
    replace (snd acc + snd dx + snd dy)%Z with (snd acc + snd dy + snd dx)%Z by lia.
    exact H.
  - intros H. apply IH2, IH1, H.
Qed.

Lemma get_net_dev_data_order_independent_witness :
  proc_net_dev Scenario.host_wlo1 0 = Opened Scenario.table_wlo1 /\
  proc_net_dev (Scenario.with_proc_net_dev (fun _ => rev Scenario.table_wlo1)
                  Scenario.bare) 0 = Opened (rev Scenario.table_wlo1) /\
  Permutation Scenario.table_wlo1 (rev Scenario.table_wlo1) /\
  read_net_dev_data Scenario.host_wlo1 0 = Ret (1215645, 1782404)%Z /\
  read_net_dev_data (Scenario.with_proc_net_dev (fun _ => rev Scenario.table_wlo1)
                       Scenario.bare) 0 = Ret (1215645, 1782404)%Z.
Proof.
  assert (Hperm : Permutation Scenario.table_wlo1 (rev Scenario.table_wlo1))
    by apply Permutation_rev.
  assert (Hr : read_net_dev_data Scenario.host_wlo1 0 = Ret (1215645, 1782404)%Z)
    by (vm_compute; reflexivity).
  refine (conj eq_refl (conj eq_refl (conj Hperm (conj Hr _)))).
  exact (get_net_dev_data_order_independent Scenario.host_wlo1
           (Scenario.with_proc_net_dev (fun _ => rev Scenario.table_wlo1)
              Scenario.bare)
           0%nat 0%nat _ _ _ eq_refl eq_refl Hperm Hr).
Defined.

(** ** Splitting lines *)

Section Split.
Variable sep : ascii.

Lemma split_zero s : split sep (Some 0%nat) s = [s].
Proof.
  induction s as [|c r IH]; simpl; [reflexivity|].
  rewrite IH. destruct (Ascii.eqb c sep); reflexivity.
Qed.

Lemma split_lacks maxsplit s : lacks sep s = true -> split sep maxsplit s = [s].
Proof.
  induction s as [|c r IH]; simpl; [reflexivity|].
  intros H. apply andb_true_iff in H. destruct H as [Hc Hr].
  apply negb_true_iff in Hc. rewrite Hc, (IH Hr). reflexivity.
Qed.

Lemma split_first_all name rest :
  lacks sep name = true ->
  split sep None (String.append name (String sep rest)) = name :: split sep None rest.
Proof.
  induction name as [|c r IH]; simpl.
  - intros _. rewrite Ascii.eqb_refl. reflexivity.
  - intros H. apply andb_true_iff in H. destruct H as [Hc Hr].
    apply negb_true_iff in Hc. rewrite Hc, (IH Hr). reflexivity.
Qed.

Lemma split_first_max k name rest :
  lacks sep name = true ->
  split sep (Some (S k)) (String.append name (String sep rest)) =
  name :: split sep (Some k) rest.
Proof.
  induction name as [|c r IH]; simpl.
  - intros _. rewrite Ascii.eqb_refl. reflexivity.
  - intros H. apply andb_true_iff in H. destruct H as [Hc Hr].
    apply negb_true_iff in Hc. rewrite Hc, (IH Hr). reflexivity.
Qed.

Lemma split_head maxsplit s : exists hd tl, split sep maxsplit s = hd :: tl.
Proof.
  revert maxsplit. induction s as [|c r IH]; intros m; simpl; [eauto|].
  destruct (IH m) as (hd & tl & ->).
  destruct (Ascii.eqb c sep), m as [[|k]|]; eauto.
Qed.
End Split.

(** The kernel's stat lines are fields with single spaces between them: on
    such a line, whose fields contain no space, [split(" ")] returns the
    fields. *)
Lemma split_space_separated fields :
  fields <> [] ->
  forallb (lacks " "%char) fields = true ->
  split " " None (space_separated fields) = fields.
Proof.
  induction fields as [|f rest IH]; [congruence|].
  intros _ H. simpl in H. apply andb_true_iff in H. destruct H as [Hf Hrest].
  destruct rest as [|g rest'].
  - simpl. apply split_lacks, Hf.
  - change (space_separated (f :: g :: rest'))
      with (String.append f (String " "%char (space_separated (g :: rest')))).
    rewrite split_first_all by exact Hf.
    rewrite IH by (congruence || exact Hrest). reflexivity.
Qed.

(** ** /proc/meminfo is read by position *)

(** [get_mem_info] never looks at the names of the lines it reads: two
    /proc/meminfo files whose first three lines carry the same text after
    the first colon give the same result, whatever the lines are called.
    The third line is taken as MemAvailable wherever the file has it. *)
Theorem get_mem_info_ignores_names :
  forall (G : Type) h h' (w : world G) n1 n2 n3 m1 m2 m3 v1 v2 v3 rest rest',
    forallb (lacks ":"%char) [n1; n2; n3; m1; m2; m3] = true ->
    proc_meminfo h (now (sys w)) =
      Opened (String.append n1 (String ":"%char v1) ::
              String.append n2 (String ":"%char v2) ::
              String.append n3 (String ":"%char v3) :: rest) ->
    proc_meminfo h' (now (sys w)) =
      Opened (String.append m1 (String ":"%char v1) ::
              String.append m2 (String ":"%char v2) ::
              String.append m3 (String ":"%char v3) :: rest') ->
    Corelib.get_mem_info h w = Corelib.get_mem_info h' w.
Proof.
  intros G h h' w n1 n2 n3 m1 m2 m3 v1 v2 v3 rest rest' Hn Hh Hh'.
  simpl in Hn. rewrite !andb_true_iff in Hn.
  destruct Hn as (H1 & H2 & H3 & H4 & H5 & H6 & _).
  unfold Corelib.get_mem_info, Corelib.meminfo_value, open_file, observe, bind,
    ret, lift; simpl.
  rewrite Hh, Hh'; simpl.
  rewrite !split_first_all by assumption. reflexivity.
Qed.

Lemma get_mem_info_ignores_names_witness :
  let h := Scenario.with_proc_meminfo (fun _ =>
             ["MemTotal: 1000 kB"; "MemFree: 200 kB"; "Buffers: 400 kB"]%string)
             Scenario.bare in
  let h' := Scenario.with_proc_meminfo (fun _ =>
             ["MemTotal: 1000 kB"; "MemFree: 200 kB"; "MemAvailable: 400 kB"]%string)
             Scenario.bare in
  Corelib.get_mem_info h (at_step tt 0) = Corelib.get_mem_info h' (at_step tt 0) /\
  fst (Corelib.get_mem_info h (at_step tt 0)) = Ret [1000; 200; 400]%Z.
Proof.
  intros h h'. split; [|vm_compute; reflexivity].
  exact (get_mem_info_ignores_names unit h h' (at_step tt 0)
           "MemTotal" "MemFree" "Buffers" "MemTotal" "MemFree" "MemAvailable"
           " 1000 kB" " 200 kB" " 400 kB" [] [] eq_refl eq_refl eq_refl).
Defined.

(** ** The loopback test on well-formed tables *)

Lemma prefix_char c d r :
  String.prefix (String c EmptyString) (String d r) = Ascii.eqb d c.
Proof.
  cbn [String.prefix].
  destruct (ascii_dec c d) as [->|Hne].
  - rewrite Ascii.eqb_refl. destruct r; reflexivity.
  - symmetry. apply Ascii.eqb_neq. congruence.
Qed.

Lemma count_from_char c d r :
  count_from (String c EmptyString) 0 (String d r) =
  if Ascii.eqb d c then S (count_from (String c EmptyString) 0 r)
  else count_from (String c EmptyString) 0 r.
Proof.
  cbn [count_from]. rewrite prefix_char. reflexivity.
Qed.

Lemma count_colon_lacks s : lacks ":"%char s = true -> count ":" s = 0%nat.
Proof.
  unfold count. induction s as [|c r IH]; [reflexivity|].
  cbn [lacks]. intros H. apply andb_true_iff in H. destruct H as [Hc Hr].
  apply negb_true_iff in Hc. rewrite count_from_char, Hc. exact (IH Hr).
Qed.

Lemma count_colon_present name rest :
  lacks ":"%char name = true ->
  count ":" (String.append name (String ":"%char rest)) <> 0%nat.
Proof.
  unfold count. induction name as [|c r IH]; cbn [lacks].
  - intros _.
    change (String.append EmptyString (String ":"%char rest))
      with (String ":"%char rest).
    rewrite count_from_char, Ascii.eqb_refl. discriminate.
  - intros H. apply andb_true_iff in H. destruct H as [Hc Hr].
    apply negb_true_iff in Hc.
    change (String.append (String c r) (String ":"%char rest))
      with (String c (String.append r (String ":"%char rest))).
    rewrite count_from_char, Hc. exact (IH Hr).
Qed.

(** On a table in which every line either has no colon or is
    "name:counters" with one colon, and in which "lo" occurs in a line only
    when the line's device is named "lo", [get_net_dev_data] computes the
    sums over all devices but the loopback device. *)
Theorem get_net_dev_data_excludes_loopback_only :
  forall table acc,
    Forall (fun line =>
              lacks ":"%char line = true \/
              exists name counters,
                line = String.append name (String ":"%char counters) /\
                lacks ":"%char name = true /\
                lacks ":"%char counters = true /\
                (count "lo" line = 0%nat <-> strip name <> "lo"%string)) table ->
    Corelib.net_dev_lines acc table = RateCalculator.systemNetCounters acc table.
Proof.
  intros table acc Hall. revert acc.
  induction Hall as [|line rest Hline _ IH]; intros acc; [reflexivity|].
  simpl.
  assert (Hsame : Corelib.net_dev_line acc line = RateCalculator.device_line acc line).
  { unfold Corelib.net_dev_line, RateCalculator.device_line.
    destruct Hline as [Hno | (name & counters & -> & Hname & Hcounters & Hlo)].
    - rewrite (count_colon_lacks _ Hno), (split_lacks _ (Some 1%nat) _ Hno).
      reflexivity.
    - rewrite (proj2 (Nat.eqb_neq _ _) (count_colon_present name counters Hname)).
      rewrite (split_first_max _ 1 _ _ Hname), (split_first_max _ 0 _ _ Hname).
      rewrite split_zero, (split_lacks _ (Some 1%nat) _ Hcounters).
      cbn [index nth_error rbind negb andb].
      destruct (String.eqb_spec (strip name) "lo") as [Heq|Hne].
      + destruct (Nat.eqb_spec (count "lo" (String.append name (String ":" counters))) 0)
          as [Hc|_]; [|reflexivity].
        apply Hlo in Hc. contradiction.
      + rewrite (proj2 (Nat.eqb_eq _ _) (proj2 Hlo Hne)). reflexivity. }
  rewrite Hsame.
  destruct (RateCalculator.device_line acc line); simpl; [apply IH | reflexivity].
Qed.

Lemma get_net_dev_data_excludes_loopback_only_witness :
  Corelib.net_dev_lines (0, 0)%Z
    ["Inter-| Receive"; "  lo: 5 0 0 0 0 0 0 0 7 0"; "eth0: 1 0 0 0 0 0 0 0 2 0"]%string =
  Ret (1, 2)%Z.
Proof.
  refine (eq_trans
            (get_net_dev_data_excludes_loopback_only
               ["Inter-| Receive"; "  lo: 5 0 0 0 0 0 0 0 7 0";
                "eth0: 1 0 0 0 0 0 0 0 2 0"]%string (0, 0)%Z _)
            eq_refl).
  constructor; [left; reflexivity |].
  constructor.
  { right. exists "  lo"%string, " 5 0 0 0 0 0 0 0 7 0"%string.
    split; [reflexivity | split; [reflexivity | split; [reflexivity |]]].
    vm_compute. split; [discriminate | intros H; exfalso; apply H; reflexivity]. }
  constructor; [| constructor].
  right. exists "eth0"%string, " 1 0 0 0 0 0 0 0 2 0"%string.
  split; [reflexivity | split; [reflexivity | split; [reflexivity |]]].
  vm_compute. split; [intros _; discriminate | reflexivity].
Defined.

(** ** The fields of /proc/[pid]/stat *)

Lemma slice_after_prefix {A} (front rest : list A) (i j : nat) :
  (List.length front <= i)%nat ->
  slice (List.app front rest) i j =
  slice rest (i - List.length front) (j - List.length front).
Proof.
  intros Hlen. unfold slice.
  rewrite skipn_app, (skipn_all2 front) by exact Hlen. simpl.
  f_equal. lia.
Qed.

(** [get_process_cpu_time] sums the 14th to 17th space-separated fields of
    the stat line.  With the pid, then the process name written as [words]
    (one word for a name without spaces), then the remaining fields [rest]
    from the state on, the fields summed are those of [rest] at positions
    [12 - length words] to [15 - length words]: utime, stime, cutime and
    cstime for a one-word name, and one field earlier for every space in
    the name. *)
Theorem process_cpu_time_field_positions :
  forall pid words rest,
    forallb (lacks " "%char) (pid :: List.app words rest) = true ->
    (List.length words <= 12)%nat ->
    ProcessMonitor.process_cpu_time_of_line
      (space_separated (pid :: List.app words rest)) =
    rbind (map_res int (slice rest (12 - List.length words) (16 - List.length words)))
          (fun ts => Ret (fold_right Z.add 0%Z ts)).
Proof.
  intros pid words rest Hfields Hlen.
  unfold ProcessMonitor.process_cpu_time_of_line.
  rewrite split_space_separated by (congruence || exact Hfields).
  change (pid :: List.app words rest) with (List.app (pid :: words) rest).
  rewrite (slice_after_prefix (pid :: words) rest 13 17) by (simpl; lia).
  simpl List.length.
  replace (13 - S (List.length words))%nat with (12 - List.length words)%nat by lia.
  replace (17 - S (List.length words))%nat with (16 - List.length words)%nat by lia.
  reflexivity.
Qed.

Lemma process_cpu_time_field_positions_witness :
  let rest := ["S"; "1"; "1234"; "1234"; "0"; "-1"; "4194304"; "100"; "0"; "0";
               "7"; "30"; "12"; "5"; "3"; "20"]%string in
  forallb (lacks " "%char) ("1234" :: List.app ["(Web"; "Content)"] rest)%string = true /\
  (List.length ["(Web"; "Content)"]%string <= 12)%nat /\
  ProcessMonitor.process_cpu_time_of_line
    (space_separated ("1234" :: List.app ["(Web"; "Content)"] rest)%string) =
    Ret (7 + 30 + 12 + 5)%Z.
Proof.
  intros rest.
  assert (Hf : forallb (lacks " "%char)
                 ("1234" :: List.app ["(Web"; "Content)"] rest)%string = true)
    by reflexivity.
  assert (Hl : (List.length ["(Web"; "Content)"]%string <= 12)%nat) by (simpl; lia).
  refine (conj Hf (conj Hl _)).
  exact (eq_trans
           (process_cpu_time_field_positions "1234"%string ["(Web"; "Content)"]%string
              rest Hf Hl)
           eq_refl).
Defined.

(** [get_process_info] on a stat line "pid (name) state ppid pgrp ...":
    with a one-word name it returns the pid, the name without its
    parentheses, the state, ppid and pgrp; when the name contains a space,
    the integer conversion of the fourth field meets the state and the call
    raises [ValueError]. *)
Theorem get_process_info_name_with_space :
  (forall pid name state ppid pgrp rest other_lines p_cmdline task z zp zg,
     forallb (lacks " "%char) (pid :: name :: state :: ppid :: pgrp :: rest) = true ->
     int pid = Ret z -> int ppid = Ret zp -> int pgrp = Ret zg ->
     ProcessMonitor.get_process_info
       (space_separated (pid :: name :: state :: ppid :: pgrp :: rest) :: other_lines)
       p_cmdline task =
     Ret (ProcessMonitor.ProcessInfoResult z
            (strip_chars "(" (strip_chars ")" name)) state zp zg (List.length task)
            (strip (replace (String "000"%char EmptyString) " "
                      (fst (readline p_cmdline)))))) /\
  (forall pid word1 word2 state rest other_lines p_cmdline task z,
     forallb (lacks " "%char) (pid :: word1 :: word2 :: state :: rest) = true ->
     int pid = Ret z ->
     int state = Raise ValueError ->
     ProcessMonitor.get_process_info
       (space_separated (pid :: word1 :: word2 :: state :: rest) :: other_lines)
       p_cmdline task = Raise ValueError).
Proof.
  split.
  - intros pid name state ppid pgrp rest other_lines p_cmdline task z zp zg
      Hfields Hz Hzp Hzg.
    unfold ProcessMonitor.get_process_info.
    cbn [readline fst].
    rewrite split_space_separated by (congruence || exact Hfields).
    cbn [index nth_error rbind]. rewrite Hz. cbn [rbind].
    rewrite Hzp. cbn [rbind]. rewrite Hzg. reflexivity.
  - intros pid word1 word2 state rest other_lines p_cmdline task z Hfields Hz Hstate.
    unfold ProcessMonitor.get_process_info.
    cbn [readline fst].
    rewrite split_space_separated by (congruence || exact Hfields).
    cbn [index nth_error rbind]. rewrite Hz. cbn [rbind].
    rewrite Hstate. reflexivity.
Qed.

Lemma get_process_info_name_with_space_witness :
  forallb (lacks " "%char) ["1234"; "(Web"; "Content)"; "S"; "1"; "1234"]%string = true /\
  int "1234" = Ret 1234%Z /\
  int "S" = Raise ValueError /\
  ProcessMonitor.get_process_info
    [space_separated ["1234"; "(Web"; "Content)"; "S"; "1"; "1234"]%string]
    ["firefox"%string] ["1234"%string] = Raise ValueError.
Proof.
  refine (conj eq_refl (conj eq_refl (conj eq_refl _))).
  exact (proj2 get_process_info_name_with_space "1234"%string "(Web"%string
           "Content)"%string "S"%string
           ["1"; "1234"]%string [] ["firefox"%string] ["1234"%string] 1234%Z
           eq_refl eq_refl eq_refl).
Defined.

(** ** The traffic feed *)

(** A traffic request registers the pid in the watch set only.  After
    [get_process_net_info(p)] for a pid that has no "process_info" entry,
    [calc_process_cpu_percent(p)] and [calc_process_cpu_io(p)] find the pid
    watched, skip the creation of its entry and raise [KeyError] at the
    lookup, before any counter is read. *)
Theorem sampling_after_traffic_request_raises_KeyError :
  forall h h' (w : world ProcessMonitor.all_process_info_t) p interval th,
    ProcessMonitor.libnethogs_thread_install (globals w) = true ->
    ProcessMonitor.libnethogs_thread (globals w) = Some th ->
    ProcessMonitor.process_info (globals w) !! p = None ->
    let w1 := snd (ProcessMonitor.get_process_net_info p h w) in
    ProcessMonitor.calc_process_cpu_percent p interval h' w1 = (Raise KeyError, w1) /\
    ProcessMonitor.calc_process_cpu_io p interval h' w1 = (Raise KeyError, w1).
Proof.
  intros h h' w p interval th Hinst Hth Hnone w1. subst w1.
  rewrite (get_process_net_info_running h w p th Hinst Hth). cbn [snd].
  assert (Hp : p ∈ {[p]} ∪ ProcessMonitor.watch_pid (globals w))
    by (apply elem_of_union; left; apply elem_of_singleton; reflexivity).
  unfold ProcessMonitor.calc_process_cpu_percent, ProcessMonitor.calc_process_cpu_io,
    ProcessMonitor.watch, ProcessMonitor.the_process_info, bind, get, ret, raise.
  cbn beta iota zeta delta
    [globals sys ProcessMonitor.set_watch_pid ProcessMonitor.watch_pid
     ProcessMonitor.process_info].
  rewrite (bool_decide_eq_true_2 _ Hp).
  cbn beta iota zeta delta
    [globals sys ProcessMonitor.set_watch_pid ProcessMonitor.watch_pid
     ProcessMonitor.process_info].
  rewrite Hnone. split; reflexivity.
Qed.

Lemma sampling_after_traffic_request_raises_KeyError_witness :
  ProcessMonitor.libnethogs_thread_install (globals Scenario.world_E) = true /\
  ProcessMonitor.libnethogs_thread (globals Scenario.world_E) =
    Some (ProcessMonitor.Thread ["eth0"%string]) /\
  ProcessMonitor.process_info (globals Scenario.world_E) !! 77%Z = None /\
  fst (ProcessMonitor.calc_process_cpu_percent 77 2 Scenario.host_E
         (snd (ProcessMonitor.get_process_net_info 77 Scenario.host_E Scenario.world_E))) =
    Raise KeyError.
Proof.
  assert (Hi : ProcessMonitor.libnethogs_thread_install (globals Scenario.world_E) = true)
    by (vm_compute; reflexivity).
  assert (Ht : ProcessMonitor.libnethogs_thread (globals Scenario.world_E) =
               Some (ProcessMonitor.Thread ["eth0"%string]))
    by (vm_compute; reflexivity).
  assert (Hn : ProcessMonitor.process_info (globals Scenario.world_E) !! 77%Z = None)
    by (vm_compute; reflexivity).
  refine (conj Hi (conj Ht (conj Hn _))).
  exact (f_equal fst
           (proj1 (sampling_after_traffic_request_raises_KeyError Scenario.host_E
                     Scenario.host_E Scenario.world_E 77%Z 2%Z _ Hi Ht Hn))).
Defined.

Lemma network_activity_callback_run h (w : world ProcessMonitor.all_process_info_t)
    action data :
  ProcessMonitor.pid data ∈ ProcessMonitor.watch_pid (globals w) ->
  ProcessMonitor.is_ascii (ProcessMonitor.device_name data) = true ->
  ProcessMonitor.network_activity_callback action data h w =
  (Ret tt,
   World (ProcessMonitor.set_libnethogs_data
            (<[ProcessMonitor.pid data :=
                 ProcessMonitor.ProcessNetData
                   (ProcessMonitor.pid data) (ProcessMonitor.uid data)
                   (ProcessMonitor.action_name action) (ProcessMonitor.name data)
                   (ProcessMonitor.record_id data) (local_hms h (now (sys w)))
                   (ProcessMonitor.device_name data)
                   (ProcessMonitor.sent_bytes data) (ProcessMonitor.recv_bytes data)
                   (round (ProcessMonitor.sent_kbs data) 2)
                   (round (ProcessMonitor.recv_kbs data) 2)]>
               (ProcessMonitor.libnethogs_data (globals w)))
            (globals w))
         (after 1 [] [] (sys w))).
Proof.
  intros Hp Hascii. destruct w as [d s].
  unfold ProcessMonitor.network_activity_callback, ProcessMonitor.decode_ascii,
    bind, get, modify, observe, lift, ret.
  cbn [globals sys]. rewrite (bool_decide_eq_true_2 _ Hp), Hascii. reflexivity.
Qed.

(** What a traffic event stores is what a traffic request returns: after
    [network_activity_callback] for a watched pid (with an ASCII device
    name), [get_process_net_info] for that pid, the monitor running,
    returns the record built from the event, the rates rounded to two
    decimals.  The action is only recorded by name: a REMOVE event stores a
    record like a SET event does, it deletes nothing.  An event never
    changes the record of another pid, and an event for a pid that is not
    watched changes nothing at all. *)
Theorem traffic_event_round_trip :
  (forall h h' (w : world ProcessMonitor.all_process_info_t) action data th,
     ProcessMonitor.pid data ∈ ProcessMonitor.watch_pid (globals w) ->
     ProcessMonitor.is_ascii (ProcessMonitor.device_name data) = true ->
     ProcessMonitor.libnethogs_thread_install (globals w) = true ->
     ProcessMonitor.libnethogs_thread (globals w) = Some th ->
     fst (ProcessMonitor.get_process_net_info (ProcessMonitor.pid data) h'
            (snd (ProcessMonitor.network_activity_callback action data h w))) =
     Ret (Some (ProcessMonitor.ProcessNetData
                  (ProcessMonitor.pid data) (ProcessMonitor.uid data)
                  (ProcessMonitor.action_name action) (ProcessMonitor.name data)
                  (ProcessMonitor.record_id data) (local_hms h (now (sys w)))
                  (ProcessMonitor.device_name data)
                  (ProcessMonitor.sent_bytes data) (ProcessMonitor.recv_bytes data)
                  (round (ProcessMonitor.sent_kbs data) 2)
                  (round (ProcessMonitor.recv_kbs data) 2)))) /\
  (forall h (w : world ProcessMonitor.all_process_info_t) action data p,
     p <> ProcessMonitor.pid data ->
     ProcessMonitor.libnethogs_data
       (globals (snd (ProcessMonitor.network_activity_callback action data h w))) !! p =
     ProcessMonitor.libnethogs_data (globals w) !! p) /\
  (forall h (w : world ProcessMonitor.all_process_info_t) action data,
     ProcessMonitor.pid data ∉ ProcessMonitor.watch_pid (globals w) ->
     ProcessMonitor.network_activity_callback action data h w = (Ret tt, w)).
Proof.
  split; [|split].
  - intros h h' w action data th Hp Hascii Hinst Hth.
    rewrite (network_activity_callback_run h w action data Hp Hascii). cbn [snd].
    rewrite (get_process_net_info_running h' _ _ th); [| exact Hinst | exact Hth].
    cbn [fst globals ProcessMonitor.set_libnethogs_data ProcessMonitor.libnethogs_data].
    rewrite lookup_insert_eq. reflexivity.
  - intros h [d s] action data p Hne.
    unfold ProcessMonitor.network_activity_callback, ProcessMonitor.decode_ascii,
      bind, get, modify, observe, lift, ret.
    cbn [globals sys].
    destruct (bool_decide _); [|reflexivity].
    destruct (ProcessMonitor.is_ascii _); [|reflexivity].
    cbn [snd globals ProcessMonitor.set_libnethogs_data ProcessMonitor.libnethogs_data].
    apply lookup_insert_ne. congruence.
  - intros h [d s] action data Hp.
    unfold ProcessMonitor.network_activity_callback, bind, get, ret.
    cbn [globals sys]. rewrite (bool_decide_eq_false_2 _ Hp). reflexivity.
Qed.

Lemma traffic_event_round_trip_witness :
  ProcessMonitor.pid Scenario.event_E ∈ ProcessMonitor.watch_pid (globals Scenario.world_E) /\
  ProcessMonitor.is_ascii (ProcessMonitor.device_name Scenario.event_E) = true /\
  ProcessMonitor.libnethogs_thread_install (globals Scenario.world_E) = true /\
  ProcessMonitor.libnethogs_thread (globals Scenario.world_E) =
    Some (ProcessMonitor.Thread ["eth0"%string]) /\
  fst (ProcessMonitor.get_process_net_info 1234 Scenario.host_E
         (snd (ProcessMonitor.network_activity_callback 2 Scenario.event_E
                 Scenario.host_E Scenario.world_E))) =
    Ret (Some (ProcessMonitor.ProcessNetData 1234 1000 "REMOVE" "/usr/bin/python" 7
                 "00:00:00" "eth0" 2048 4096 0.5%float 1.25%float)).
Proof.
  assert (Hp : ProcessMonitor.pid Scenario.event_E ∈
               ProcessMonitor.watch_pid (globals Scenario.world_E))
    by (apply (bool_decide_unpack _); vm_compute; exact I).
  assert (Ha : ProcessMonitor.is_ascii (ProcessMonitor.device_name Scenario.event_E) = true)
    by reflexivity.
  assert (Hi : ProcessMonitor.libnethogs_thread_install (globals Scenario.world_E) = true)
    by (vm_compute; reflexivity).
  assert (Ht : ProcessMonitor.libnethogs_thread (globals Scenario.world_E) =
               Some (ProcessMonitor.Thread ["eth0"%string]))
    by (vm_compute; reflexivity).
  refine (conj Hp (conj Ha (conj Hi (conj Ht _)))).
  exact (eq_trans
           (proj1 traffic_event_round_trip Scenario.host_E Scenario.host_E
              Scenario.world_E 2%Z Scenario.event_E _ Hp Ha Hi Ht)
           eq_refl).
Defined.

(** ** Starting the traffic monitor *)

Section MonitorLoop.
Import ProcessMonitor.
Variable I : all_process_info_t -> Prop.
Hypothesis I_data : forall d x, I d -> I (set_libnethogs_data x d).




End MonitorLoop.




(** ** One process, two metrics *)

Section EntryFrame.
Import ProcessMonitor.
Variables (p q : Z) (X : Type) (field : process_info_t -> X) (x : X).
Variable total : Z -> Prop.

(** The invariant of a call for [q] seen from the entry of [p] ([p] may be
    [q]): only watched pids have entries, [p] has an entry whose [field] is
    [x], and the shared total satisfies [total]. *)
Let kept (d : all_process_info_t) : Prop :=
  entries_watched d /\
  (exists info, process_info d !! p = Some info /\ field info = x) /\
  total (prev_cpu_total_time d).

Lemma watch_kept : preserves kept (watch q).
Proof.
  intros h [d s] (Hew & (info & Hinfo & Hx) & Ht). cbn [globals] in *.
  unfold watch, bind, get, modify, ret. cbn [globals sys].
  destruct (bool_decide (q ∈ watch_pid d)) eqn:Hq; cbn [snd globals].
  - repeat split; eauto.
  - apply bool_decide_eq_false in Hq.
    assert (Hpq : q <> p).
    { intros Heq. apply Hq. rewrite Heq. apply Hew. rewrite Hinfo. eauto. }
    split; [|split; [|exact Ht]].
    + intros r Hr. cbn in *. apply elem_of_union.
      destruct (decide (r = q)) as [->|Hne].
      * left. apply elem_of_singleton. reflexivity.
      * right. apply Hew. rewrite lookup_insert_ne in Hr by congruence. exact Hr.
    + exists info. split; [|exact Hx].
      cbn. rewrite lookup_insert_ne by exact Hpq. exact Hinfo.
Qed.

Lemma the_process_info_kept : preserves kept (the_process_info q).
Proof. unfold the_process_info. repeat preserves_step. Qed.

Lemma update_process_info_kept f :
  (forall info, field (f info) = field info) ->
  preserves kept (update_process_info q f).
Proof.
  intros Hf h [d s] (Hew & (info & Hinfo & Hx) & Ht). cbn [globals] in *.
  unfold update_process_info, the_process_info, bind, get, modify, ret, raise.
  cbn [globals sys].
  destruct (process_info d !! q) as [info_q|] eqn:Hq; cbn [snd globals].
  - split; [|split; [|exact Ht]].
    + intros r Hr. cbn in *.
      destruct (decide (r = q)) as [->|Hne].
      * apply Hew. rewrite Hq. eauto.
      * apply Hew. rewrite lookup_insert_ne in Hr by congruence. exact Hr.
    + cbn. destruct (decide (p = q)) as [Heq|Hne].
      * exists (f info_q). rewrite Heq, lookup_insert_eq. split; [reflexivity|].
        rewrite Hf. rewrite Heq, Hq in Hinfo. injection Hinfo as Hi.
        rewrite Hi. exact Hx.
      * exists info. rewrite lookup_insert_ne by congruence. split; assumption.
  - repeat split; eauto.
Qed.

Lemma get_total_cpu_time_kept : preserves kept get_total_cpu_time.
Proof.
  unfold get_total_cpu_time, Corelib.get_total_cpu_time. repeat preserves_step.
Qed.

Lemma get_process_cpu_time_kept : preserves kept (get_process_cpu_time q).
Proof. unfold get_process_cpu_time. repeat preserves_step. Qed.

Lemma get_process_io_kept : preserves kept (get_process_io q).
Proof. unfold get_process_io. repeat preserves_step. Qed.

Lemma set_prev_cpu_total_time_kept t :
  total t -> preserves kept (modify (set_prev_cpu_total_time t)).
Proof.
  intros Ht. apply preserves_modify. intros d (Hew & Hentry & _).
  split; [exact Hew | split; [exact Hentry | exact Ht]].
Qed.

Lemma calc_process_cpu_io_kept interval :
  (forall info t, field (ProcessInfo t (prev_cpu_time info) (prev_io info)) = field info) ->
  (forall info rw, field (ProcessInfo (pre_time info) (prev_cpu_time info) rw) = field info) ->
  preserves kept (calc_process_cpu_io q interval).
Proof.
  intros Htime Hio. unfold calc_process_cpu_io.
  repeat first
    [ apply watch_kept
    | apply the_process_info_kept
    | apply get_process_io_kept
    | apply update_process_info_kept; intros; (apply Htime || apply Hio)
    | apply preserves_observe
    | preserves_step ].
Qed.

Lemma calc_process_cpu_percent_kept interval :
  (forall t, total t) ->
  (forall info c, field (ProcessInfo (pre_time info) c (prev_io info)) = field info) ->
  preserves kept (calc_process_cpu_percent q interval).
Proof.
  intros Htotal Hcpu. unfold calc_process_cpu_percent.
  repeat first
    [ apply watch_kept
    | apply the_process_info_kept
    | apply get_total_cpu_time_kept
    | apply get_process_cpu_time_kept
    | apply update_process_info_kept; intros; apply Hcpu
    | apply set_prev_cpu_total_time_kept, Htotal
    | preserves_step ].
Qed.
End EntryFrame.

(** The CPU sample and the I/O sample of a process are kept apart.  In a
    registry where only watched pids have entries, [calc_process_cpu_io(q)]
    leaves the "prev_cpu_time" of every entry, that of [q] included, and
    the shared "prev_cpu_total_time" as they were, and
    [calc_process_cpu_percent(q)] leaves every entry's "prev_io" and
    "pre_time" as they were, whether the call returns or raises. *)
Theorem process_cpu_and_io_samples_are_independent :
  (forall h (w : world ProcessMonitor.all_process_info_t) p q interval info,
     entries_watched (globals w) ->
     ProcessMonitor.process_info (globals w) !! p = Some info ->
     let d' := globals (snd (ProcessMonitor.calc_process_cpu_io q interval h w)) in
     (exists info', ProcessMonitor.process_info d' !! p = Some info' /\
                    ProcessMonitor.prev_cpu_time info' = ProcessMonitor.prev_cpu_time info) /\
     ProcessMonitor.prev_cpu_total_time d' =
       ProcessMonitor.prev_cpu_total_time (globals w)) /\
  (forall h (w : world ProcessMonitor.all_process_info_t) p q interval info,
     entries_watched (globals w) ->
     ProcessMonitor.process_info (globals w) !! p = Some info ->
     let d' := globals (snd (ProcessMonitor.calc_process_cpu_percent q interval h w)) in
     exists info', ProcessMonitor.process_info d' !! p = Some info' /\
                   ProcessMonitor.prev_io info' = ProcessMonitor.prev_io info /\
                   ProcessMonitor.pre_time info' = ProcessMonitor.pre_time info).
Proof.
  split.
  - intros h w p q interval info Hew Hinfo d'. subst d'.
    destruct (calc_process_cpu_io_kept p q _ ProcessMonitor.prev_cpu_time
                (ProcessMonitor.prev_cpu_time info)
                (fun t => t = ProcessMonitor.prev_cpu_total_time (globals w))
                interval (fun _ _ => eq_refl) (fun _ _ => eq_refl) h w)
      as (_ & Hentry & Ht).
    { split; [exact Hew | split; [eauto | reflexivity]]. }
    split; [exact Hentry | exact Ht].
  - intros h w p q interval info Hew Hinfo d'. subst d'.
    destruct (calc_process_cpu_percent_kept p q _
                (fun i => (ProcessMonitor.prev_io i, ProcessMonitor.pre_time i))
                (ProcessMonitor.prev_io info, ProcessMonitor.pre_time info)
                (fun _ => True) interval (fun _ => I) (fun _ _ => eq_refl) h w)
      as (_ & (info' & Hl & Hf) & _).
    { split; [exact Hew | split; [eauto | exact I]]. }
    exists info'. injection Hf as Hio Htime. repeat split; assumption.
Qed.

Lemma process_cpu_and_io_samples_are_independent_witness :
  entries_watched (globals Scenario.world_two) /\
  ProcessMonitor.process_info (globals Scenario.world_two) !! 1%Z =
    Some (ProcessMonitor.ProcessInfo 0%float (Some 54%Z) None) /\
  exists info',
    ProcessMonitor.process_info
      (globals (snd (ProcessMonitor.calc_process_cpu_io 1 2 Scenario.host_two
                       Scenario.world_two))) !! 1%Z = Some info' /\
    ProcessMonitor.prev_cpu_time info' = Some 54%Z.
Proof.
  assert (Hew : entries_watched (globals Scenario.world_two)).
  { intros r Hr.
    assert (Hd : bool_decide (is_Some
                   (ProcessMonitor.process_info (globals Scenario.world_two) !! r)) = true)
      by (apply bool_decide_eq_true_2, Hr).
    destruct (decide (r = 1%Z)) as [->|H1];
      [apply (bool_decide_unpack _); vm_compute; exact I|].
    destruct (decide (r = 2%Z)) as [->|H2];
      [apply (bool_decide_unpack _); vm_compute; exact I|].
    exfalso. destruct Hr as [i Hi].
    change (ProcessMonitor.process_info (globals Scenario.world_two))
      with (<[2%Z := ProcessMonitor.ProcessInfo 0%float (Some 54%Z) None]>
              (<[1%Z := ProcessMonitor.ProcessInfo 0%float (Some 54%Z) None]>
                 (∅ : gmap Z ProcessMonitor.process_info_t))) in Hi.
    rewrite !lookup_insert_ne, lookup_empty in Hi by congruence. discriminate Hi. }
  assert (Hi : ProcessMonitor.process_info (globals Scenario.world_two) !! 1%Z =
               Some (ProcessMonitor.ProcessInfo 0%float (Some 54%Z) None))
    by (vm_compute; reflexivity).
  refine (conj Hew (conj Hi _)).
  exact (proj1 (proj1 process_cpu_and_io_samples_are_independent Scenario.host_two
                  Scenario.world_two 1%Z 1%Z 2%Z _ Hew Hi)).
Defined.

(** ** Hoare rules for the monad *)

Section Hoare.
Context {G : Type}.
Implicit Types (P : G -> Prop) (E : exn -> G -> Prop).

Lemma hoare_ret {A} P (a : A) (Q : A -> G -> Prop) E :
  (forall g, P g -> Q a g) -> hoare P (ret a) Q E.
Proof. intros HQ h w HP. apply HQ, HP. Qed.

Lemma hoare_raise {A} P e (Q : A -> G -> Prop) E :
  (forall g, P g -> E e g) -> hoare P (raise e) Q E.
Proof. intros HE h w HP. apply HE, HP. Qed.

Lemma hoare_lift {A} P (r : res A) (Q : A -> G -> Prop) E :
  (forall g, P g -> match r with Ret a => Q a g | Raise e => E e g end) ->
  hoare P (lift r) Q E.
Proof. intros Hr h w HP. specialize (Hr _ HP). unfold lift. destruct r; exact Hr. Qed.

Lemma hoare_get P (Q : G -> G -> Prop) E :
  (forall g, P g -> Q g g) -> hoare P get Q E.
Proof. intros HQ h w HP. apply HQ, HP. Qed.

Lemma hoare_modify P (f : G -> G) (Q : unit -> G -> Prop) E :
  (forall g, P g -> Q tt (f g)) -> hoare P (modify f) Q E.
Proof. intros HQ h w HP. apply HQ, HP. Qed.

Lemma hoare_observe {A} P (f : host -> nat -> A) (Q : A -> G -> Prop) E :
  (forall g a, P g -> Q a g) -> hoare P (observe f) Q E.
Proof. intros HQ h w HP. apply HQ, HP. Qed.

Lemma hoare_sleep P interval (Q : unit -> G -> Prop) E :
  (forall g, P g -> Q tt g) -> (forall g, P g -> E (IOError EINVAL) g) ->
  hoare P (sleep interval) Q E.
Proof.
  intros HQ HE h w HP. unfold sleep.
  destruct (interval <? 0)%Z; [apply HE | apply HQ]; exact HP.
Qed.

Lemma hoare_bind {A B} P (m : M G A) (R : A -> G -> Prop) (k : A -> M G B)
    (Q : B -> G -> Prop) E :
  hoare P m R E -> (forall a, hoare (R a) (k a) Q E) -> hoare P (bind m k) Q E.
Proof.
  intros Hm Hk h w HP. unfold bind. specialize (Hm h w HP).
  destruct (m h w) as [[a|e] w']; [apply (Hk a h w' Hm) | exact Hm].
Qed.

Lemma hoare_weaken {A} P P' (m : M G A) (Q Q' : A -> G -> Prop) E :
  hoare P' m Q' E -> (forall g, P g -> P' g) -> (forall a g, Q' a g -> Q a g) ->
  hoare P m Q E.
Proof.
  intros Hm HP HQ h w Hw. specialize (Hm h w (HP _ Hw)).
  destruct (m h w) as [[a|e] w']; [apply HQ, Hm | exact Hm].
Qed.
End Hoare.

(** ** The exceptions of the counter sources *)

Lemma int_raises s e : int s = Raise e -> e = ValueError.
Proof.
  assert (Hd : forall t e', digits t = Raise e' -> e' = ValueError).
  { intros t e'. unfold digits. destruct t; [congruence|].
    destruct (digits_value _ _); congruence. }
  unfold int. destruct (strip s) as [|c r]; [apply Hd|].
  destruct (Ascii.eqb_spec c "-") as [->|Hm].
  - destruct (digits r) eqn:Hr; simpl; [discriminate | intros [= <-]; eauto].
  - destruct (Ascii.eqb_spec c "+") as [->|Hp]; [apply Hd|].
    destruct c as [[] [] [] [] [] [] [] []]; try apply Hd; congruence.
Qed.

Lemma map_res_int_raises l e : map_res int l = Raise e -> e = ValueError.
Proof.
  induction l as [|s l IH]; simpl; [discriminate|].
  destruct (int s) eqn:Hs; simpl; [| intros [= <-]; eapply int_raises, Hs].
  destruct (map_res int l); simpl; [discriminate | intros [= <-]; apply IH; reflexivity].
Qed.

Lemma read_total_cpu_time_not_registry_error h t e :
  read_total_cpu_time h t = Raise e -> ~ registry_error e.
Proof.
  unfold read_total_cpu_time, Corelib.get_total_cpu_time, open_file, observe, bind,
    lift, ret, raise, at_step; simpl.
  destruct (proc_stat h t) as [ls|n]; simpl.
  - unfold Corelib.total_cpu_time_of_line.
    destruct (map_res int _) as [fields|e'] eqn:Hf; simpl.
    + assert (He : forall r : res (Z * Z), r = Raise ValueError \/ (exists v, r = Ret v) ->
                   r = Raise e -> ~ registry_error e).
      { intros r [-> | [v ->]]; [intros [= <-] [?|?]; discriminate | discriminate]. }
      apply He.
      do 11 (destruct fields as [|? fields]; [eauto|]). eauto.
    + intros [= <-]. apply map_res_int_raises in Hf. subst e'.
      intros [?|?]; discriminate.
  - intros [= <-] [?|?]; discriminate.
Qed.

Lemma read_process_cpu_time_not_registry_error h t p e :
  read_process_cpu_time h t p = Raise e -> ~ registry_error e.
Proof.
  unfold read_process_cpu_time, ProcessMonitor.get_process_cpu_time,
    wrap_process_exceptions, open_file, observe, bind, lift, ret, raise, at_step;
    simpl.
  destruct (proc_pid_stat h t p) as [ls|[]]; simpl;
    try (intros [= <-] [?|?]; discriminate).
  unfold ProcessMonitor.process_cpu_time_of_line.
  destruct (map_res int _) as [ts|e'] eqn:Hf; simpl; [discriminate|].
  apply map_res_int_raises in Hf. subst e'. simpl.
  intros [= <-] [?|?]; discriminate.
Qed.

Lemma io_value_raises line e :
  ProcessMonitor.io_value line = Raise e -> e = IndexError.
Proof.
  unfold ProcessMonitor.io_value, index.
  destruct (nth_error _ 1); simpl; congruence.
Qed.

Lemma read_process_io_not_registry_error h t p e :
  read_process_io h t p = Raise e -> ~ registry_error e.
Proof.
  unfold read_process_io, ProcessMonitor.get_process_io,
    wrap_process_exceptions, open_file, observe, bind, lift, ret, raise, at_step;
    simpl.
  destruct (proc_pid_io h t p) as [ls|[]]; simpl;
    try (intros [= <-] [?|?]; discriminate).
  destruct (readline ls) as [l1 f1]. destruct (readline f1) as [l2 f2].
  destruct (ProcessMonitor.io_value l1) as [v1|e1] eqn:H1; simpl;
    [| apply io_value_raises in H1; subst e1; simpl;
       intros [= <-] [?|?]; discriminate].
  destruct (ProcessMonitor.io_value l2) as [v2|e2] eqn:H2; simpl;
    [| apply io_value_raises in H2; subst e2; simpl;
       intros [= <-] [?|?]; discriminate].
  destruct (int v1) as [z1|e1] eqn:Hz1; simpl;
    [| apply int_raises in Hz1; subst e1; simpl;
       intros [= <-] [?|?]; discriminate].
  destruct (int v2) as [z2|e2] eqn:Hz2; simpl;
    [| apply int_raises in Hz2; subst e2; simpl;
       intros [= <-] [?|?]; discriminate].
  discriminate.
Qed.

(** ** The registry invariant *)

Section Registry.
Import ProcessMonitor.
Variable q : Z.

(** The exceptional postcondition: the registry invariant holds and the
    exception is not one of a failed registry lookup. *)
Let sound (e : exn) (d : all_process_info_t) : Prop :=
  registered d /\ ~ registry_error e.

(** [q] is watched in a registry that satisfies the invariant. *)
Let watched (d : all_process_info_t) : Prop :=
  registered d /\ q ∈ watch_pid d.

(** In addition the entry of [q] has the field tested by [ready] set. *)
Let armed (ready : process_info_t -> Prop) (d : all_process_info_t) : Prop :=
  watched d /\ exists info, process_info d !! q = Some info /\ ready info.

Lemma not_registry_error_sound e d : registered d -> ~ registry_error e -> sound e d.
Proof. intros Hr He. split; assumption. Qed.

Lemma registered_insert x d :
  registered d -> registered (set_process_info (<[q := x]> (process_info d)) d).
Proof.
  intros Hr r Hin. cbn in *.
  destruct (decide (r = q)) as [->|Hne].
  - rewrite lookup_insert_eq. eauto.
  - rewrite lookup_insert_ne by congruence. apply Hr, Hin.
Qed.

Lemma hoare_watch : hoare registered (watch q) (fun _ => watched) sound.
Proof.
  intros h [d s] Hr. cbn [globals] in Hr.
  unfold watch, bind, get, modify, ret. cbn [globals sys].
  destruct (bool_decide (q ∈ watch_pid d)) eqn:Hq; cbn [globals].
  - apply bool_decide_eq_true in Hq. split; assumption.
  - split.
    + intros r Hin. cbn in *.
      destruct (decide (r = q)) as [->|Hne].
      * rewrite lookup_insert_eq. eauto.
      * rewrite lookup_insert_ne by congruence. apply Hr.
        apply elem_of_union in Hin. destruct Hin as [Hin|Hin]; [|exact Hin].
        apply elem_of_singleton in Hin. contradiction.
    + cbn. apply elem_of_union. left. apply elem_of_singleton. reflexivity.
Qed.

Lemma hoare_the_process_info (P : all_process_info_t -> Prop) :
  (forall d, P d -> watched d) ->
  hoare P (the_process_info q)
        (fun info d => P d /\ process_info d !! q = Some info) sound.
Proof.
  intros HP h [d s] Hd. cbn [globals] in Hd.
  unfold the_process_info, bind, get, ret, raise. cbn [globals sys].
  destruct (HP _ Hd) as [Hr Hq]. destruct (Hr q Hq) as [info Hinfo].
  rewrite Hinfo. cbn [globals]. split; [exact Hd | exact Hinfo].
Qed.

Lemma hoare_update_process_info ready f :
  (forall info, ready (f info)) ->
  hoare watched (update_process_info q f) (fun _ => armed ready) sound.
Proof.
  intros Hf. unfold update_process_info.
  eapply hoare_bind; [apply (hoare_the_process_info watched); auto | intros info].
  apply hoare_modify. intros d [[Hr Hq] Hinfo].
  split; [split; [apply registered_insert, Hr | exact Hq] |].
  exists (f info). cbn. rewrite lookup_insert_eq. split; [reflexivity | apply Hf].
Qed.

Section Keeps.
Variable P : all_process_info_t -> Prop.
Hypothesis P_registered : forall d, P d -> registered d.

Lemma hoare_get_total_cpu_time_keeps :
  hoare P get_total_cpu_time (fun _ => P) sound.
Proof.
  intros h w Hw. rewrite pm_get_total_cpu_time_run.
  destruct (read_total_cpu_time h _) eqn:Hr; cbn [globals]; [exact Hw|].
  apply not_registry_error_sound; [apply P_registered, Hw|].
  eapply read_total_cpu_time_not_registry_error, Hr.
Qed.

Lemma hoare_get_process_cpu_time_keeps :
  hoare P (get_process_cpu_time q) (fun _ => P) sound.
Proof.
  intros h w Hw. rewrite get_process_cpu_time_run.
  destruct (read_process_cpu_time h _ q) eqn:Hr; cbn [globals]; [exact Hw|].
  apply not_registry_error_sound; [apply P_registered, Hw|].
  eapply read_process_cpu_time_not_registry_error, Hr.
Qed.

Lemma hoare_get_process_io_keeps :
  hoare P (get_process_io q) (fun _ => P) sound.
Proof.
  intros h w Hw. rewrite get_process_io_run.
  destruct (read_process_io h _ q) eqn:Hr; cbn [globals]; [exact Hw|].
  apply not_registry_error_sound; [apply P_registered, Hw|].
  eapply read_process_io_not_registry_error, Hr.
Qed.

Lemma hoare_time_keeps : hoare P time (fun _ => P) sound.
Proof. apply hoare_observe. auto. Qed.

Lemma hoare_sleep_keeps interval : hoare P (sleep interval) (fun _ => P) sound.
Proof.
  apply hoare_sleep; [auto|]. intros d Hd.
  apply not_registry_error_sound; [apply P_registered, Hd|].
  intros [?|?]; discriminate.
Qed.

Lemma hoare_float_of_int_keeps z : hoare P (lift (float_of_int z)) (fun _ => P) sound.
Proof.
  apply hoare_lift. intros d Hd. unfold float_of_int.
  destruct (is_infinity _); [|exact Hd].
  apply not_registry_error_sound; [apply P_registered, Hd|].
  intros [?|?]; discriminate.
Qed.

Lemma hoare_float_div_keeps a b : hoare P (lift (float_div a b)) (fun _ => P) sound.
Proof.
  apply hoare_lift. intros d Hd. unfold float_div.
  destruct (is_zero b); [|exact Hd].
  apply not_registry_error_sound; [apply P_registered, Hd|].
  intros [?|?]; discriminate.
Qed.

Lemma hoare_get_keeps : hoare P get (fun _ => P) sound.
Proof. apply hoare_get. auto. Qed.
End Keeps.

Lemma hoare_pre {A} (P P' : all_process_info_t -> Prop) (m : Mp A) Q E :
  hoare P' m Q E -> (forall d, P d -> P' d) -> hoare P m Q E.
Proof. intros Hm HP. eapply hoare_weaken; [exact Hm | exact HP | auto]. Qed.

Lemma watched_registered d : watched d -> registered d.
Proof. intros [Hr _]. exact Hr. Qed.

Lemma armed_registered ready d : armed ready d -> registered d.
Proof. intros [[Hr _] _]. exact Hr. Qed.

Lemma armed_watched ready d : armed ready d -> watched d.
Proof. intros [Hw _]. exact Hw. Qed.

Lemma hoare_set_prev_cpu_total_time (P : all_process_info_t -> Prop) t :
  (forall d, P d -> P (set_prev_cpu_total_time t d)) ->
  hoare P (modify (set_prev_cpu_total_time t)) (fun _ => P) sound.
Proof. intros HP. apply hoare_modify. exact HP. Qed.

Lemma hoare_calc_process_cpu_percent interval :
  hoare registered (calc_process_cpu_percent q interval) (fun _ => registered) sound.
Proof.
  pose (ready := fun i : process_info_t => is_Some (prev_cpu_time i)).
  unfold calc_process_cpu_percent.
  eapply hoare_bind; [apply hoare_watch | intros ?; cbv beta].
  eapply hoare_bind;
    [apply (hoare_the_process_info watched); auto | intros info0].
  eapply hoare_bind with (R := fun _ => armed ready).
  { destruct (prev_cpu_time info0) eqn:Hc.
    - apply hoare_ret. intros d [Hw Hi].
      split; [exact Hw | exists info0; split; [exact Hi | unfold ready; rewrite Hc; eauto]].
    - apply hoare_pre with (P' := watched); [| intros d [Hw _]; exact Hw].
      eapply hoare_bind;
        [apply (hoare_get_total_cpu_time_keeps watched watched_registered)
        | intros [total ?]; cbv beta iota].
      eapply hoare_bind;
        [apply (hoare_set_prev_cpu_total_time watched); intros d Hd; exact Hd
        | intros ?; cbv beta].
      eapply hoare_bind;
        [apply (hoare_get_process_cpu_time_keeps watched watched_registered)
        | intros t].
      eapply hoare_bind;
        [apply (hoare_update_process_info ready); intros i; unfold ready; cbn; eauto
        | intros ?; cbv beta].
      apply (hoare_sleep_keeps (armed ready) (armed_registered ready)). }
  intros ?; cbv beta.
  eapply hoare_bind;
    [apply (hoare_get_total_cpu_time_keeps (armed ready) (armed_registered ready))
    | intros [ct ?]; cbv beta iota].
  eapply hoare_bind;
    [apply (hoare_get_process_cpu_time_keeps (armed ready) (armed_registered ready))
    | intros cp].
  eapply hoare_bind;
    [apply (hoare_the_process_info (armed ready) (armed_watched ready)) | intros info].
  eapply hoare_bind with (R := fun _ => armed ready).
  { destruct (prev_cpu_time info) eqn:Hc.
    - apply hoare_ret. intros d [Hd _]. exact Hd.
    - apply hoare_raise. intros d [(_ & info' & Hl & Hready) Hl'].
      rewrite Hl' in Hl. injection Hl as <-. unfold ready in Hready.
      rewrite Hc in Hready. destruct Hready as [? Hn]. discriminate Hn. }
  intros prev.
  eapply hoare_bind;
    [apply (hoare_float_of_int_keeps (armed ready) (armed_registered ready))
    | intros used].
  eapply hoare_bind;
    [apply (hoare_get_keeps (armed ready)) | intros d0].
  eapply hoare_bind;
    [apply (hoare_float_of_int_keeps (armed ready) (armed_registered ready))
    | intros total].
  eapply hoare_bind;
    [apply (hoare_float_div_keeps (armed ready) (armed_registered ready))
    | intros pct].
  eapply hoare_bind;
    [apply hoare_pre with (P' := watched);
       [apply (hoare_update_process_info ready); intros i; unfold ready; cbn; eauto
       | apply armed_watched]
    | intros ?; cbv beta].
  eapply hoare_bind;
    [apply (hoare_set_prev_cpu_total_time (armed ready)); intros d Hd; exact Hd
    | intros ?; cbv beta].
  apply hoare_ret. intros d Hd. apply (armed_registered ready), Hd.
Qed.

Lemma hoare_calc_process_cpu_io interval :
  hoare registered (calc_process_cpu_io q interval) (fun _ => registered) sound.
Proof.
  pose (ready := fun i : process_info_t => is_Some (prev_io i)).
  assert (Hupd : forall f, (forall i, ready i -> ready (f i)) ->
            hoare (armed ready) (update_process_info q f) (fun _ => armed ready) sound).
  { intros f Hf. unfold update_process_info.
    eapply hoare_bind;
      [apply (hoare_the_process_info (armed ready) (armed_watched ready))
      | intros info].
    apply hoare_modify. intros d [((Hr & Hq) & info' & Hl & Hready) Hl'].
    rewrite Hl' in Hl. injection Hl as <-.
    split; [split; [apply registered_insert, Hr | exact Hq] |].
    exists (f info). cbn. rewrite lookup_insert_eq. split; [reflexivity | apply Hf, Hready]. }
  unfold calc_process_cpu_io.
  eapply hoare_bind; [apply hoare_watch | intros ?; cbv beta].
  eapply hoare_bind;
    [apply (hoare_the_process_info watched); auto | intros info0].
  eapply hoare_bind with (R := fun _ => armed ready).
  { destruct (prev_io info0) eqn:Hc.
    - apply hoare_ret. intros d [Hw Hi].
      split; [exact Hw | exists info0; split; [exact Hi | unfold ready; rewrite Hc; eauto]].
    - apply hoare_pre with (P' := watched); [| intros d [Hw _]; exact Hw].
      eapply hoare_bind;
        [apply (hoare_get_process_io_keeps watched watched_registered) | intros rw].
      eapply hoare_bind;
        [apply (hoare_update_process_info ready); intros i; unfold ready; cbn; eauto
        | intros ?; cbv beta].
      eapply hoare_bind;
        [apply (hoare_time_keeps (armed ready)) | intros t].
      eapply hoare_bind;
        [apply Hupd; intros i Hi; exact Hi | intros ?; cbv beta].
      apply (hoare_sleep_keeps (armed ready) (armed_registered ready)). }
  intros ?; cbv beta.
  eapply hoare_bind; [apply (hoare_time_keeps (armed ready)) | intros current_time].
  eapply hoare_bind;
    [apply (hoare_get_process_io_keeps (armed ready) (armed_registered ready))
    | intros [cr cw]; cbv beta iota].
  eapply hoare_bind;
    [apply (hoare_the_process_info (armed ready) (armed_watched ready)) | intros info].
  eapply hoare_bind with (R := fun _ => armed ready).
  { destruct (prev_io info) eqn:Hc.
    - apply hoare_ret. intros d [Hd _]. exact Hd.
    - apply hoare_raise. intros d [(_ & info' & Hl & Hready) Hl'].
      rewrite Hl' in Hl. injection Hl as <-. unfold ready in Hready.
      rewrite Hc in Hready. destruct Hready as [? Hn]. discriminate Hn. }
  intros [pr pw]; cbv beta iota.
  do 2 (eapply hoare_bind;
          [apply (hoare_float_of_int_keeps (armed ready) (armed_registered ready))
          | intros ?];
        eapply hoare_bind;
          [apply (hoare_float_div_keeps (armed ready) (armed_registered ready))
          | intros ?];
        eapply hoare_bind;
          [apply (hoare_float_div_keeps (armed ready) (armed_registered ready))
          | intros ?]).
  eapply hoare_bind; [apply Hupd; intros i _; unfold ready; cbn; eauto | intros ?; cbv beta].
  eapply hoare_bind; [apply Hupd; intros i Hi; exact Hi | intros ?; cbv beta].
  apply hoare_ret. intros d Hd. apply (armed_registered ready), Hd.
Qed.
End Registry.

(** In a registry where every watched pid has its "process_info" entry,
    [calc_process_cpu_percent] and [calc_process_cpu_io] never raise
    [KeyError] or [TypeError], whatever the host answers, and they leave the
    registry in that state, whether they return or raise. *)
Theorem sampling_keeps_registry :
  (forall h (w : world ProcessMonitor.all_process_info_t) q interval,
     registered (globals w) ->
     let call := ProcessMonitor.calc_process_cpu_percent q interval h w in
     registered (globals (snd call)) /\
     fst call <> Raise KeyError /\ fst call <> Raise TypeError) /\
  (forall h (w : world ProcessMonitor.all_process_info_t) q interval,
     registered (globals w) ->
     let call := ProcessMonitor.calc_process_cpu_io q interval h w in
     registered (globals (snd call)) /\
     fst call <> Raise KeyError /\ fst call <> Raise TypeError).
Proof.
  split.
  - intros h w q interval Hr call. subst call.
    pose proof (hoare_calc_process_cpu_percent q interval h w Hr) as H.
    cbv zeta in H.
    destruct (ProcessMonitor.calc_process_cpu_percent q interval h w) as [[a|e] w'];
      cbn [fst snd].
    + repeat split; [exact H | discriminate | discriminate].
    + destruct H as [Hr' He].
      repeat split; [exact Hr' | |]; intros [= ->]; apply He; [left | right]; reflexivity.
  - intros h w q interval Hr call. subst call.
    pose proof (hoare_calc_process_cpu_io q interval h w Hr) as H.
    cbv zeta in H.
    destruct (ProcessMonitor.calc_process_cpu_io q interval h w) as [[a|e] w'];
      cbn [fst snd].
    + repeat split; [exact H | discriminate | discriminate].
    + destruct H as [Hr' He].
      repeat split; [exact Hr' | |]; intros [= ->]; apply He; [left | right]; reflexivity.
Qed.

Lemma sampling_keeps_registry_witness :
  registered (globals Scenario.fresh) /\
  registered (globals (snd (ProcessMonitor.calc_process_cpu_percent 1 2
                              Scenario.host_two Scenario.fresh))) /\
  fst (ProcessMonitor.calc_process_cpu_percent 1 2 Scenario.host_two Scenario.fresh) <>
    Raise KeyError.
Proof.
  assert (Hr : registered (globals Scenario.fresh)).
  { intros p Hp. apply elem_of_empty in Hp. contradiction. }
  refine (conj Hr _).
  destruct (proj1 sampling_keeps_registry Scenario.host_two Scenario.fresh 1%Z 2%Z Hr)
    as (H1 & H2 & _).
  exact (conj H1 H2).
Defined.

(** ** Process scope: warm-up *)

Lemma calc_process_cpu_percent_total_raises h
    (w : world ProcessMonitor.all_process_info_t) p interval info pc e :
  p ∈ ProcessMonitor.watch_pid (globals w) ->
  ProcessMonitor.process_info (globals w) !! p = Some info ->
  ProcessMonitor.prev_cpu_time info = Some pc ->
  read_total_cpu_time h (now (sys w)) = Raise e ->
  ProcessMonitor.calc_process_cpu_percent p interval h w =
  (Raise e, World (globals w) (after 1 [] [] (sys w))).
Proof.
  intros Hp Hi Hc Hr. destruct w as [d s]; simpl in *.
  unfold ProcessMonitor.calc_process_cpu_percent, ProcessMonitor.watch,
    ProcessMonitor.update_process_info, ProcessMonitor.the_process_info,
    rbind, bind, get, modify, ret, raise, lift.
  cbn beta iota zeta delta [globals sys].
  rewrite (bool_decide_eq_true_2 _ Hp). run_pm. reflexivity.
Qed.

Lemma calc_process_cpu_percent_first_call h
    (w : world ProcessMonitor.all_process_info_t) p interval bt bw bp ct cw cp :
  p ∉ ProcessMonitor.watch_pid (globals w) ->
  (0 <= interval)%Z ->
  read_total_cpu_time h (now (sys w)) = Ret (bt, bw) ->
  read_process_cpu_time h (1 + now (sys w)) p = Ret bp ->
  read_total_cpu_time h (3 + now (sys w)) = Ret (ct, cw) ->
  read_process_cpu_time h (4 + now (sys w)) p = Ret cp ->
  ProcessMonitor.calc_process_cpu_percent p interval h w =
  let d := globals w in
  let watched :=
    ProcessMonitor.set_watch_pid ({[p]} ∪ ProcessMonitor.watch_pid d) d in
  let entry c :=
    <[p := ProcessMonitor.ProcessInfo 0%float (Some c) None]>
      (ProcessMonitor.process_info d) in
  match RateCalculator.percent bp cp bt ct with
  | Ret r =>
      (Ret r,
       World (ProcessMonitor.set_prev_cpu_total_time ct
                (ProcessMonitor.set_process_info (entry cp) watched))
             (after 5 [interval] [] (sys w)))
  | Raise e =>
      (Raise e,
       World (ProcessMonitor.set_prev_cpu_total_time bt
                (ProcessMonitor.set_process_info (entry bp) watched))
             (after 5 [interval] [] (sys w)))
  end.
Proof.
  intros Hp Hi Hbt Hbp Hct Hcp. destruct w as [d s]; simpl in *.
  unfold ProcessMonitor.calc_process_cpu_percent, ProcessMonitor.watch,
    ProcessMonitor.update_process_info, ProcessMonitor.the_process_info,
    RateCalculator.percent, rbind, bind, get, modify, ret, raise, lift, sleep.
  destruct (Z.ltb_spec interval 0) as [Hneg|_]; [lia|].
  cbn beta iota zeta delta [globals sys].
  rewrite (bool_decide_eq_false_2 _ Hp).
  cbn beta iota zeta delta
    [globals sys ProcessMonitor.set_watch_pid ProcessMonitor.set_process_info
     ProcessMonitor.process_info ProcessMonitor.watch_pid].
  rewrite lookup_insert_eq.
  cbn beta iota zeta delta
    [globals sys ProcessMonitor.process_info_dict ProcessMonitor.prev_cpu_time].
  run_pm;
    unfold ProcessMonitor.set_process_info, ProcessMonitor.set_watch_pid,
      ProcessMonitor.set_prev_cpu_total_time, after; cbn;
    rewrite ?insert_insert_eq; reflexivity.
Qed.

(** The process scope uses [None], not 0, for "no previous sample".  The
    first call for an unwatched pid registers it, reads a baseline, sleeps
    once and rates a second read against the baseline.  A call for a pid
    whose entry has "prev_cpu_time" set never sleeps, whatever the host
    answers, and when it returns the entry is set again: also when the CPU
    time it read is 0, so the warm-up is not repeated. *)
Theorem process_warm_up_happens_once :
  (forall h (w : world ProcessMonitor.all_process_info_t) p interval bt bw bp ct cw cp,
     p ∉ ProcessMonitor.watch_pid (globals w) ->
     (0 <= interval)%Z ->
     read_total_cpu_time h (now (sys w)) = Ret (bt, bw) ->
     read_process_cpu_time h (1 + now (sys w)) p = Ret bp ->
     read_total_cpu_time h (3 + now (sys w)) = Ret (ct, cw) ->
     read_process_cpu_time h (4 + now (sys w)) p = Ret cp ->
     let call := ProcessMonitor.calc_process_cpu_percent p interval h w in
     fst call = RateCalculator.percent bp cp bt ct /\
     naps (sys (snd call)) = interval :: naps (sys w) /\
     p ∈ ProcessMonitor.watch_pid (globals (snd call)) /\
     (is_raise (fst call) = false ->
      ProcessMonitor.process_info (globals (snd call)) !! p =
        Some (ProcessMonitor.ProcessInfo 0%float (Some cp) None))) /\
  (forall h (w : world ProcessMonitor.all_process_info_t) p interval info pc,
     p ∈ ProcessMonitor.watch_pid (globals w) ->
     ProcessMonitor.process_info (globals w) !! p = Some info ->
     ProcessMonitor.prev_cpu_time info = Some pc ->
     let call := ProcessMonitor.calc_process_cpu_percent p interval h w in
     naps (sys (snd call)) = naps (sys w) /\
     exists info',
       ProcessMonitor.process_info (globals (snd call)) !! p = Some info' /\
       is_Some (ProcessMonitor.prev_cpu_time info')).
Proof.
  split.
  - intros h w p interval bt bw bp ct cw cp Hp Hi Hbt Hbp Hct Hcp call. subst call.
    rewrite (calc_process_cpu_percent_first_call h w p interval bt bw bp ct cw cp
               Hp Hi Hbt Hbp Hct Hcp). cbv zeta.
    destruct (RateCalculator.percent bp cp bt ct); cbn [fst snd sys globals after naps];
      (split; [reflexivity | split; [reflexivity | split]]).
    + cbn. apply elem_of_union. left. apply elem_of_singleton. reflexivity.
    + intros _. cbn. apply lookup_insert_eq.
    + cbn. apply elem_of_union. left. apply elem_of_singleton. reflexivity.
    + discriminate.
  - intros h w p interval info pc Hp Hinfo Hc call. subst call.
    destruct (read_total_cpu_time h (now (sys w))) as [[ct cw]|e] eqn:Ht.
    + destruct (read_process_cpu_time h (1 + now (sys w)) p) as [cp|e] eqn:Hr.
      * rewrite (calc_process_cpu_percent_warm h w p interval info pc ct cw cp
                   Hp Hinfo Hc Ht Hr). cbv zeta.
        destruct (RateCalculator.percent _ _ _ _); cbn [fst snd sys globals after naps].
        -- split; [reflexivity|]. eexists. cbn. rewrite lookup_insert_eq.
           split; [reflexivity | cbn; eauto].
        -- split; [reflexivity|]. exists info. rewrite Hc. eauto.
      * rewrite (calc_process_cpu_percent_lookup_raises h w p interval info ct cw e
                   Hp Hinfo Ht Hr). rewrite Hc. cbn [fst snd sys globals after naps].
        split; [reflexivity|]. exists info. rewrite Hc. eauto.
    + rewrite (calc_process_cpu_percent_total_raises h w p interval info pc e
                 Hp Hinfo Hc Ht). cbn [fst snd sys globals after naps].
      split; [reflexivity|]. exists info. rewrite Hc. eauto.
Qed.

Lemma process_warm_up_happens_once_witness :
  1%Z ∈ ProcessMonitor.watch_pid (globals Scenario.world_two) /\
  ProcessMonitor.process_info (globals Scenario.world_two) !! 1%Z =
    Some (ProcessMonitor.ProcessInfo 0%float (Some 54%Z) None) /\
  naps (sys (snd (ProcessMonitor.calc_process_cpu_percent 1 2 Scenario.host_two
                    Scenario.world_two))) = naps (sys Scenario.world_two).
Proof.
  assert (Hp : 1%Z ∈ ProcessMonitor.watch_pid (globals Scenario.world_two))
    by (apply (bool_decide_unpack _); vm_compute; exact I).
  assert (Hi : ProcessMonitor.process_info (globals Scenario.world_two) !! 1%Z =
               Some (ProcessMonitor.ProcessInfo 0%float (Some 54%Z) None))
    by (vm_compute; reflexivity).
  refine (conj Hp (conj Hi _)).
  exact (proj1 (proj2 process_warm_up_happens_once Scenario.host_two
                  Scenario.world_two 1%Z 2%Z _ 54%Z Hp Hi eq_refl)).
Defined.

(** ** System scope: the readers *)



(** [get_total_cpu_time] needs exactly ten integers on the "cpu" line: with
    any other number of integer fields it raises [ValueError].  With ten
    fields, none negative, the total is the sum of the first eight, the work
    time the sum of the first three, the two guest fields are not counted,
    and [0 <= work <= total]. *)
Theorem total_cpu_time_needs_ten_fields :
  forall line fields,
    map_res int (split " " None (strip (replace "cpu" "" line))) = Ret fields ->
    (List.length fields <> 10%nat ->
     Corelib.total_cpu_time_of_line line = Raise ValueError) /\
    (List.length fields = 10%nat ->
     Forall (Z.le 0) fields ->
     exists total work,
       Corelib.total_cpu_time_of_line line = Ret (total, work) /\
       total = fold_right Z.add 0%Z (firstn 8 fields) /\
       work = fold_right Z.add 0%Z (firstn 3 fields) /\
       (0 <= work <= total)%Z).
Proof.
  intros line fields Hf. unfold Corelib.total_cpu_time_of_line.
  rewrite Hf. cbn [rbind]. split.
  - intros Hlen.
    do 11 (destruct fields as [|? fields]; [reflexivity || (simpl in Hlen; lia)|]).
    reflexivity.
  - intros Hlen Hpos.
    do 10 (destruct fields as [|? fields]; [discriminate Hlen|]).
    destruct fields; [|discriminate Hlen].
    repeat match goal with
           | H : Forall _ (_ :: _) |- _ => inversion H; clear H; subst
           end.
    eexists _, _. split; [reflexivity|]. cbn [firstn fold_right]. lia.
Qed.

Lemma total_cpu_time_needs_ten_fields_witness :
  map_res int (split " " None (strip (replace "cpu" "" "cpu  1 2 3 4 5 6 7 8 9")))
    = Ret [1; 2; 3; 4; 5; 6; 7; 8; 9]%Z /\
  List.length [1; 2; 3; 4; 5; 6; 7; 8; 9]%Z <> 10%nat /\
  Corelib.total_cpu_time_of_line "cpu  1 2 3 4 5 6 7 8 9" = Raise ValueError.
Proof.
  assert (Hf : map_res int
                 (split " " None (strip (replace "cpu" "" "cpu  1 2 3 4 5 6 7 8 9")))
               = Ret [1; 2; 3; 4; 5; 6; 7; 8; 9]%Z) by reflexivity.
  assert (Hl : List.length [1; 2; 3; 4; 5; 6; 7; 8; 9]%Z <> 10%nat) by (simpl; lia).
  refine (conj Hf (conj Hl _)).
  exact (proj1 (total_cpu_time_needs_ten_fields _ _ Hf) Hl).
Defined.
